(** * Taller_NNA: the exploratory-analysis script [data_NNA.py]

    A shallow embedding of [src/Taller_NNA/data_NNA.py] and the properties
    of its loader heuristics, profiler, quality flagger, chart grid and
    orchestration.

    Conventions of the embedding.
    - A pandas [DataFrame] is a record of an index length and an ordered
      list of columns; a cell is [option value], [None] standing for every
      missing marker (NaN, None, NaT).
    - A Python [str] is a [string] whose characters are the code points
      below 256.
    - Python floats are read as exact rationals ([Q]): [missing / n * 100],
      [n * 0.9], [sqrt] and [ceil] are computed exactly, and the one
      place where a float rounding error can change a result, a percentage
      exactly halfway between two hundredths, is a parameter of the model.
      Module [Binary64] evaluates the same expressions in IEEE binary64 and
      compares them with the exact reading on a range of inputs.
    - Logging and file output are a list of events, in program order; an
      exception that ends the run is the last event of the list.
    - The versions read are Python 3 and pandas 2. *)

From Stdlib Require Import List ZArith QArith Qround Lia Lqa Bool Arith.
From Stdlib Require Import Ascii String.
From Stdlib Require Import SpecFloat.
Import ListNotations.

Local Close Scope Q_scope.
Local Open Scope nat_scope.
Local Open Scope string_scope.
Local Open Scope list_scope.

(* ------------------------------------------------------------------ *)
(** * Python strings                                                   *)
(* ------------------------------------------------------------------ *)

Module PyStr.

(** [str.isspace] on one character, for the code points below 256:
    TAB..CR, FS..US, SPACE, NEL and NBSP. *)
Definition isspace (c : ascii) : bool :=
  let n := nat_of_ascii c in
  (((9 <=? n) && (n <=? 13)) || ((28 <=? n) && (n <=? 32))
   || (n =? 133) || (n =? 160))%nat.

(** [s.lstrip()] *)
Fixpoint lstrip (s : string) : string :=
  match s with
  | EmptyString => EmptyString
  | String c s' => if isspace c then lstrip s' else s
  end.

(** [s.rstrip()] *)
Fixpoint rstrip (s : string) : string :=
  match s with
  | EmptyString => EmptyString
  | String c s' =>
      match rstrip s' with
      | EmptyString => if isspace c then EmptyString else String c EmptyString
      | r => String c r
      end
  end.

(** [s.strip()] *)
Definition strip (s : string) : string := rstrip (lstrip s).

(** [s.replace(old, new)] for one-character [old] and [new]. *)
Fixpoint replace (old new : ascii) (s : string) : string :=
  match s with
  | EmptyString => EmptyString
  | String c s' =>
      String (if Ascii.eqb c old then new else c) (replace old new s')
  end.

(** [s.startswith(p)]; also [re.search("^" + p, s)] for a literal [p]. *)
Definition startswith (p s : string) : bool := String.prefix p s.

(** Scan of [s.count(sub)] for a non-empty [sub]: occurrences are
    counted left to right without overlap; [skip] is the number of
    characters still covered by the last occurrence found. *)
Fixpoint count_from (sub s : string) (skip : nat) : nat :=
  match s with
  | EmptyString => 0
  | String _ s' =>
      match skip with
      | S k => count_from sub s' k
      | O =>
          if String.prefix sub s
          then S (count_from sub s' (String.length sub - 1))
          else count_from sub s' 0
      end
  end.

(** [s.count(sub)]; the empty [sub] occurs between all characters. *)
Definition count (s sub : string) : nat :=
  match sub with
  | EmptyString => S (String.length s)
  | _ => count_from sub s 0
  end.

(** [f.readline()] on the decoded contents of a file opened in text mode:
    the first line with its terminator, or the whole contents when there
    is none.  Universal newlines end a line at LF, CR or CR LF and hand
    the terminator over as LF. *)
Fixpoint readline (contents : string) : string :=
  match contents with
  | EmptyString => EmptyString
  | String c rest =>
      if Ascii.eqb c "010"%char || Ascii.eqb c "013"%char
      then String "010"%char EmptyString
      else String c (readline rest)
  end.

(** [os.path.dirname] of a relative path with single slashes. *)
Fixpoint has_slash (p : string) : bool :=
  match p with
  | EmptyString => false
  | String c r => Ascii.eqb c "/"%char || has_slash r
  end.

Fixpoint dirname (p : string) : string :=
  match p with
  | EmptyString => EmptyString
  | String c r => if has_slash r then String c (dirname r) else EmptyString
  end.

(** [os.path.join(a, b)] for a relative [b] and a non-empty [a] without a
    trailing slash. *)
Definition path_join (a b : string) : string := a ++ "/" ++ b.

End PyStr.

(* ------------------------------------------------------------------ *)
(** * Python numbers read as rationals                                 *)
(* ------------------------------------------------------------------ *)

Module PyNum.

(** [int(x)]: truncation toward zero. *)
Definition int (x : Q) : Z := Z.quot (Qnum x) (Zpos (Qden x)).

(** Rounding to a nearest integer.  [tie_up f] says whether the value
    halfway between [f] and [f + 1] goes up. *)
Definition round_nearest (tie_up : Z -> bool) (x : Q) : Z :=
  let f := Qfloor x in
  match Qcompare (x - inject_Z f)%Q (1 # 2)%Q with
  | Lt => f
  | Gt => (f + 1)%Z
  | Eq => if tie_up f then (f + 1)%Z else f
  end.

(** The tie rule of [round] on the value it is given: to the even
    neighbour. *)
Definition half_even (f : Z) : bool := Z.odd f.

(** [round(x, ndigits)].  [round] itself breaks ties to even, on the
    binary value of its argument; when that argument is the float result
    of a computation whose exact value lies halfway between two
    decimals, the rounding error of the computation decides the
    neighbour.  [tie_up] stands for that decision, so that [x] can be
    the exact value. *)
Definition round (tie_up : Z -> bool) (x : Q) (ndigits : nat) : Q :=
  let p := inject_Z (10 ^ Z.of_nat ndigits) in
  (inject_Z (round_nearest tie_up (x * p)) / p)%Q.

(** [int(np.ceil(np.sqrt(k)))] for [k > 0]: the least [c] with
    [k <= c * c]. *)
Definition ceil_sqrt (k : Z) : Z :=
  let r := Z.sqrt k in
  if (r * r =? k)%Z then r else (r + 1)%Z.

(** [int(np.ceil(a / b))] for integers [a] and [b > 0]. *)
Definition ceil_div (a b : Z) : Z :=
  Qceiling (inject_Z a / inject_Z b)%Q.

End PyNum.

(* ------------------------------------------------------------------ *)
(** * Tables                                                           *)
(* ------------------------------------------------------------------ *)

(** The contents of a cell that is not missing.  Numbers are integers,
    also in a float column: the properties below look at cells only for
    being missing and for being equal. *)
Inductive value : Type :=
| VNum (z : Z)
| VStr (s : string)
| VBool (b : bool).

(** A cell; [None] is a missing value. *)
Definition cell : Type := option value.

(** Column dtypes and their labels [str(s.dtype)]. *)
Inductive dtype : Type := Int64 | Float64 | BoolT | Datetime64 | Object.

Definition dtype_str (d : dtype) : string :=
  match d with
  | Int64 => "int64"
  | Float64 => "float64"
  | BoolT => "bool"
  | Datetime64 => "datetime64[ns]"
  | Object => "object"
  end.

(** [np.issubdtype(d, np.number)] *)
Definition is_number (d : dtype) : bool :=
  match d with
  | Int64 | Float64 => true
  | BoolT | Datetime64 | Object => false
  end.

(** A column: its label, its dtype and its cells.  The label of a column
    is a Python [str] or, as the header of a workbook gives for a cell
    that holds a whole number, an [int]: [col_name] is [str(label)], and
    [col_is_str] tells the two apart.  Labels of other types are left
    out. *)
Record Column : Type := mkLabelled {
  col_name : string;
  col_dtype : dtype;
  col_values : list cell;
  col_is_str : bool
}.

(** A column whose label is a string. *)
Definition mkColumn (name : string) (d : dtype) (values : list cell) : Column :=
  {| col_name := name; col_dtype := d; col_values := values; col_is_str := true |}.

Record DataFrame : Type := mkDataFrame {
  index_len : nat;
  df_columns : list Column
}.

(** Every column of a frame has one cell per index entry. *)
Definition well_formed (df : DataFrame) : Prop :=
  Forall (fun c => List.length (col_values c) = index_len df) (df_columns df).

Definition value_eq_dec (a b : value) : {a = b} + {a <> b}.
Proof.
  decide equality;
    [apply Z.eq_dec | apply string_dec | apply Bool.bool_dec].
Defined.

Definition cell_eq_dec (a b : cell) : {a = b} + {a <> b}.
Proof. decide equality; apply value_eq_dec. Defined.

Definition row : Type := list cell.

Definition row_eq_dec (a b : row) : {a = b} + {a <> b} :=
  list_eq_dec cell_eq_dec a b.

(** The scans of a hash table over a sequence, as pandas runs them for
    [unique] and [duplicated]: [seen] holds the entries met so far. *)
Section HashScan.

Context {A : Type} (dec : forall a b : A, {a = b} + {a <> b}).

Definition mem (x : A) (l : list A) : bool :=
  if in_dec dec x l then true else false.

(** An entry is kept the first time it is met. *)
Fixpoint unique_from (seen l : list A) : list A :=
  match l with
  | [] => []
  | x :: l' =>
      if mem x seen then unique_from seen l'
      else x :: unique_from (x :: seen) l'
  end.

(** An entry is marked when an equal entry was met before. *)
Fixpoint duplicated_from (seen l : list A) : list bool :=
  match l with
  | [] => []
  | x :: l' =>
      if mem x seen then true :: duplicated_from seen l'
      else false :: duplicated_from (x :: seen) l'
  end.

(** The number of distinct entries of a list. *)
Definition distinct (l : list A) : nat := List.length (nodup dec l).

End HashScan.

Module Frame.

(** [len(df)] *)
Definition len (df : DataFrame) : nat := index_len df.

(** [df.shape] *)
Definition shape (df : DataFrame) : nat * nat :=
  (index_len df, List.length (df_columns df)).

(** [df.columns.tolist()] *)
Definition columns (df : DataFrame) : list string :=
  map col_name (df_columns df).

(** [df.empty]: some axis has length zero. *)
Definition empty (df : DataFrame) : bool :=
  ((index_len df =? 0) || (List.length (df_columns df) =? 0))%nat.

(** [s.isna()] and [s.notna()] *)
Definition isna (s : list cell) : list bool :=
  map (fun x => match x with None => true | Some _ => false end) s.

Definition notna (s : list cell) : list bool := map negb (isna s).

(** [.sum()] of a boolean series *)
Definition sum (bs : list bool) : nat := List.length (filter (fun b => b) bs).

(** [s.dropna()] *)
Fixpoint dropna (s : list cell) : list value :=
  match s with
  | [] => []
  | None :: s' => dropna s'
  | Some v :: s' => v :: dropna s'
  end.

(** [s.unique()] after [dropna]: the distinct values in the order of
    their first occurrence. *)
Definition unique (vs : list value) : list value :=
  unique_from value_eq_dec [] vs.

(** [s.nunique(dropna=True)] *)
Definition nunique (s : list cell) : nat :=
  List.length (unique (dropna s)).

(** [df.iloc[i]] as a list of cells, in column order. *)
Definition iloc (df : DataFrame) (i : nat) : row :=
  map (fun c => nth i (col_values c) None) (df_columns df).

Definition rows (df : DataFrame) : list row :=
  map (iloc df) (seq 0 (index_len df)).

(** [df.duplicated()], with the default [keep="first"]: a row is marked
    when an equal row comes before it, missing cells comparing equal; an
    empty frame gives an empty series. *)
Definition duplicated (df : DataFrame) : list bool :=
  if empty df then [] else duplicated_from row_eq_dec [] (rows df).

(** [df.head(k)] *)
Definition head (k : nat) (df : DataFrame) : DataFrame :=
  {| index_len := Nat.min k (index_len df);
     df_columns :=
       map (fun c => {| col_name := col_name c;
                        col_dtype := col_dtype c;
                        col_values := firstn k (col_values c);
                        col_is_str := col_is_str c |})
           (df_columns df) |}.

(** [df.loc[:, mask]] with the mask given as a predicate on names. *)
Definition select (keep : string -> bool) (df : DataFrame) : DataFrame :=
  {| index_len := index_len df;
     df_columns := filter (fun c => keep (col_name c)) (df_columns df) |}.

(** [df.select_dtypes(include=[np.number])] and its [exclude] twin. *)
Definition select_number (df : DataFrame) : DataFrame :=
  {| index_len := index_len df;
     df_columns := filter (fun c => is_number (col_dtype c)) (df_columns df) |}.

Definition exclude_number (df : DataFrame) : DataFrame :=
  {| index_len := index_len df;
     df_columns :=
       filter (fun c => negb (is_number (col_dtype c))) (df_columns df) |}.

End Frame.

(* ------------------------------------------------------------------ *)
(** * Loader: delimiter detection                                      *)
(* ------------------------------------------------------------------ *)

(** The loop of [_detect_sep]: the running best separator and its count
    are replaced only by a strictly larger count.  Counts are integers
    because the initial best count is [-1]. *)
Fixpoint detect_loop (head : string) (candidates : list string)
    (best_sep : string) (best_count : Z) : string :=
  match candidates with
  | [] => best_sep
  | s :: rest =>
      let cnt := Z.of_nat (PyStr.count head s) in
      if (best_count <? cnt)%Z then detect_loop head rest s cnt
      else detect_loop head rest best_sep best_count
  end.

(** The default value of the parameter [candidates]; ["009"] is TAB. *)
Definition default_candidates : list string :=
  [","; ";"; String "009"%char EmptyString; "|"].

(** [_detect_sep(csv_path, candidates)], on the contents of the file. *)
Definition _detect_sep (contents : string) (candidates : list string) : string :=
  let head := PyStr.readline contents in
  detect_loop head candidates "," (-1).

(** The separator [read_any] hands to the CSV parser. *)
Definition read_any_sep (contents sep : string) : string :=
  if String.eqb sep "auto" then _detect_sep contents default_candidates
  else sep.

(* ------------------------------------------------------------------ *)
(** * Profiler                                                         *)
(* ------------------------------------------------------------------ *)

Record Overview : Type := mkOverview {
  ov_rows : nat;
  ov_cols : nat;
  ov_columns : list string;
  ov_dtypes_count : list (string * nat);
  ov_missing_cells : nat
}.

(** [value_counts().to_dict()] of a list of labels, as an association
    list with one entry per distinct label.  The entries come in the
    order of first occurrence: the order pandas gives them, by falling
    count, is not part of the model. *)
Fixpoint value_counts (labels : list string) : list (string * nat) :=
  match labels with
  | [] => []
  | l :: rest =>
      (l, S (count_occ string_dec rest l))
        :: filter (fun p => negb (String.eqb (fst p) l)) (value_counts rest)
  end.

(** [data_overview(df)]; the memory estimate is not part of the model. *)
Definition data_overview (df : DataFrame) : Overview :=
  let '(rows, cols) := Frame.shape df in
  {| ov_rows := rows;
     ov_cols := cols;
     ov_columns := Frame.columns df;
     ov_dtypes_count :=
       value_counts (map (fun c => dtype_str (col_dtype c)) (df_columns df));
     ov_missing_cells :=
       list_sum (map (fun c => Frame.sum (Frame.isna (col_values c)))
                     (df_columns df)) |}.

(** One record of the data dictionary.  [dd_sample] holds the cells of
    the sample, which the script joins as strings.  The keys [min], [max]
    and [mean] of a numeric column, which numpy computes in binary64, are
    not part of the model. *)
Record DictRow : Type := mkDictRow {
  dd_column : string;
  dd_dtype : string;
  dd_non_null : nat;
  dd_nunique : nat;
  dd_missing : nat;
  dd_missing_pct : Q;
  dd_sample : list value
}.

(** [(missing / n) * 100 if n > 0 else 0.0] *)
Definition missing_pct_raw (missing n : nat) : Q :=
  if (0 <? n)%nat
  then ((inject_Z (Z.of_nat missing) / inject_Z (Z.of_nat n)) * 100)%Q
  else 0%Q.

Section Dictionary.

(** The direction taken by [round(missing_pct, 2)] at a percentage that
    lies halfway between two hundredths. *)
Variable tie_up : Z -> bool.

(** The body of the loop of [data_dictionary] for one column of a frame
    of [n] rows, [df[c]] being the series of that column. *)
Definition dict_row (n : nat) (c : Column) : DictRow :=
  let s := col_values c in
  let non_null := Frame.sum (Frame.notna s) in
  let missing := Frame.sum (Frame.isna s) in
  {| dd_column := col_name c;
     dd_dtype := dtype_str (col_dtype c);
     dd_non_null := non_null;
     dd_nunique := Frame.nunique s;
     dd_missing := missing;
     dd_missing_pct := PyNum.round tie_up (missing_pct_raw missing n) 2;
     dd_sample :=
       if (0 <? non_null)%nat then firstn 3 (Frame.dropna s) else [] |}.

(** [data_dictionary(df)]: one record per column, in column order.  The
    function returns when the names of the frame are pairwise different;
    when a name occurs twice, [df[c]] is a frame, which has no [dtype]:
    [main] below has the exception. *)
Definition data_dictionary (df : DataFrame) : list DictRow :=
  let n := Frame.len df in
  map (dict_row n) (df_columns df).

End Dictionary.

(* ------------------------------------------------------------------ *)
(** * Quality flagger                                                  *)
(* ------------------------------------------------------------------ *)

Record QualityFlags : Type := mkQualityFlags {
  qf_rows : nat;
  high_missing_cols : list string;
  constant_cols : list string;
  suspected_id_like : list string;
  duplicate_rows : nat
}.

(** ["missing_pct" in dd] and ["nunique" in dd]: a dictionary built from
    at least one record has every key as a column, and one built from no
    record has no column at all. *)
Definition has_key (dd : list DictRow) : bool :=
  match dd with
  | [] => false
  | _ :: _ => true
  end.

(** [dd.loc[mask, "column"].tolist()] *)
Definition loc_column (mask : DictRow -> bool) (dd : list DictRow) : list string :=
  map dd_column (filter mask dd).

(** [max(2, int(n * 0.9))] *)
Definition id_threshold (n : nat) : Z :=
  Z.max 2 (PyNum.int (inject_Z (Z.of_nat n) * (9 # 10))%Q).

(** [quality_flags(df, dd)] *)
Definition quality_flags (df : DataFrame) (dd : list DictRow) : QualityFlags :=
  let n := Frame.len df in
  {| qf_rows := n;
     high_missing_cols :=
       if has_key dd
       then loc_column
              (fun r => match Qcompare 30 (dd_missing_pct r) with
                        | Lt => true
                        | _ => false
                        end) dd
       else [];
     constant_cols :=
       if has_key dd
       then loc_column (fun r => (dd_nunique r <=? 1)%nat) dd
       else [];
     suspected_id_like :=
       if (0 <? n)%nat && has_key dd
       then loc_column
              (fun r => (id_threshold n <=? Z.of_nat (dd_nunique r))%Z) dd
       else [];
     duplicate_rows := Frame.sum (Frame.duplicated df) |}.

(* ------------------------------------------------------------------ *)
(** * Logged messages and written files                                *)
(* ------------------------------------------------------------------ *)

Inductive level : Type := INFO | WARNING | ERROR.

(** The exceptions of the script. *)
Inductive exn : Type :=
| AttributeError
| TypeError
| OSError
| FileNotFoundError
| OtherError (name : string).

Inductive result (A : Type) : Type :=
| Ok (a : A)
| Raise (e : exn).

Arguments Ok {A} a.
Arguments Raise {A} e.

(** The messages of the script, with the values they interpolate. *)
Inductive message : Type :=
| MsgReading (input : string)
| MsgAllUnnamed
| MsgShape (rows cols : nat)
| MsgFirstColumns (cols : list string)
| MsgFlags (flags : QualityFlags)
| MsgCharts
| MsgNoColumns
| MsgDone.

(** What a saved figure shows. *)
Inductive figure : Type :=
| MissingBar (bars : list string)
| Histograms (rows cols : Z) (panels : list string)
| Boxplots (rows cols : Z) (panels : list string)
| CorrMatrix (labels : list string).

Inductive event : Type :=
| MakeDirs (path : string)
| Log (lv : level) (m : message)
| SampleToCsv (path : string) (df : DataFrame)
| DictionaryToCsv (path : string) (dd : list DictRow)
| JsonDump (path : string) (flags : QualityFlags)
| SaveFig (path : string) (fig : figure)
| DescribeToCsv (path : string) (cols : list string)
| ValueCountsToCsv (path : string) (col : string)
| Raised (e : exn).

(** The file an event writes, if it writes one. *)
Definition written (e : event) : option string :=
  match e with
  | MakeDirs _ | Log _ _ | Raised _ => None
  | SampleToCsv p _ | DictionaryToCsv p _ | JsonDump p _ | SaveFig p _
  | DescribeToCsv p _ | ValueCountsToCsv p _ => Some p
  end.

Definition files_written (es : list event) : list string :=
  flat_map (fun e => match written e with Some p => [p] | None => [] end) es.

(** [ensure_dir(path)] *)
Definition ensure_dir (path : string) : list event := [MakeDirs path].

(** The exceptions among the events. *)
Definition is_raised (e : event) : bool :=
  match e with
  | Raised _ => true
  | _ => false
  end.

(** Sequencing: what follows an exception does not run. *)
Definition and_then (a b : list event) : list event :=
  if existsb is_raised a then a else a ++ b.

(* ------------------------------------------------------------------ *)
(** * Chart renderer                                                   *)
(* ------------------------------------------------------------------ *)

(** [_grid_size(k)]; the pair is (rows, cols).  The square root and the
    quotient are read exactly; their binary64 values give other ceilings
    from [k = 2^52 + 1] on, far beyond a number of columns. *)
Definition _grid_size (k : Z) : Z * Z :=
  if (k <=? 0)%Z then (1, 1)%Z
  else
    let cols := PyNum.ceil_sqrt k in
    let rows := PyNum.ceil_div k cols in
    (rows, cols).

(** The slice [l[:k]] of Python, [k] of either sign. *)
Definition slice_to {A : Type} (k : Z) (l : list A) : list A :=
  if (0 <=? k)%Z then firstn (Z.to_nat k) l
  else firstn (List.length l - Z.to_nat (- k)) l.

(** [plot_missing_bar(df, outfile)]; the order of the bars is left out. *)
Definition plot_missing_bar (df : DataFrame) (outfile : string) : list event :=
  let miss_pct := Frame.columns df in
  if (List.length miss_pct =? 0)%nat then []
  else ensure_dir (PyStr.dirname outfile) ++ [SaveFig outfile (MissingBar miss_pct)].

(** [plot_histograms(df, outdir, max_cols)] *)
Definition plot_histograms (df : DataFrame) (outdir : string) (max_cols : Z)
    : list event :=
  let num := Frame.select_number df in
  if (snd (Frame.shape num) =? 0)%nat then []
  else
    let cols := slice_to max_cols (Frame.columns num) in
    let '(r, c) := _grid_size (Z.of_nat (List.length cols)) in
    ensure_dir outdir
      ++ [SaveFig (PyStr.path_join outdir "histograms.png") (Histograms r c cols)].

(** [plot_boxplots(df, outdir, max_cols)] *)
Definition plot_boxplots (df : DataFrame) (outdir : string) (max_cols : Z)
    : list event :=
  let num := Frame.select_number df in
  if (snd (Frame.shape num) =? 0)%nat then []
  else
    let cols := slice_to max_cols (Frame.columns num) in
    let '(r, c) := _grid_size (Z.of_nat (List.length cols)) in
    ensure_dir outdir
      ++ [SaveFig (PyStr.path_join outdir "boxplots.png") (Boxplots r c cols)].

(** [plot_correlation(df, outfile)] *)
Definition plot_correlation (df : DataFrame) (outfile : string) : list event :=
  let num := Frame.select_number df in
  if (snd (Frame.shape num) <? 2)%nat then []
  else
    ensure_dir (PyStr.dirname outfile)
      ++ [SaveFig outfile (CorrMatrix (Frame.columns num))].

(* ------------------------------------------------------------------ *)
(** * Orchestration                                                    *)
(* ------------------------------------------------------------------ *)

Record Args : Type := mkArgs {
  input : string;
  sep : string;
  sheet : option string;
  max_hist : Z;
  max_box : Z
}.

(** [re.search("^Unnamed", name)] *)
Definition is_unnamed (name : string) : bool :=
  PyStr.startswith "Unnamed" name.

(** [df.columns.str.contains("^Unnamed")] at one column: the truth value
    of the search for a label that is a string, NaN ([None]) for any
    other label. *)
Definition contains_unnamed (c : Column) : option bool :=
  if col_is_str c then Some (is_unnamed (col_name c)) else None.

(** The truth value [all] gives an entry of the mask: NaN is a float
    that is not zero. *)
Definition truthy (m : option bool) : bool :=
  match m with
  | Some b => b
  | None => true
  end.

(** The entry of the mask is NaN. *)
Definition is_nan (m : option bool) : bool :=
  match m with
  | Some _ => false
  | None => true
  end.

(** What the step that cleans the [Unnamed] columns raises, when it
    raises.  The accessor [df.columns.str] is refused, with an
    [AttributeError], by an index that holds no string: an index of
    numbers, or one without entry.  The negation [~mask] of the other
    branch is refused, with a [TypeError], by a mask that holds a NaN. *)
Definition cleaning_error (df : DataFrame) : option exn :=
  let mask := map contains_unnamed (df_columns df) in
  if negb (existsb col_is_str (df_columns df)) then Some AttributeError
  else if forallb truthy mask then None
  else if existsb is_nan mask then Some TypeError
  else None.

(** The step that cleans the [Unnamed] columns, when it does not raise:
    the frame it leaves in [df] and what it logs. *)
Definition clean_unnamed (df : DataFrame) : DataFrame * list event :=
  if forallb truthy (map contains_unnamed (df_columns df))
  then (df, [Log WARNING MsgAllUnnamed])
  else (Frame.select (fun name => negb (is_unnamed name)) df, []).

(** The names kept by the cleaning step. *)
Definition kept_names (loaded : DataFrame) : list string :=
  Frame.columns (fst (clean_unnamed loaded)).

(** [str(c).strip().replace(" ", "_")] *)
Definition normalize_name (c : string) : string :=
  PyStr.replace " "%char "_"%char (PyStr.strip c).

(** The copy [df_cols_norm] with its renamed columns; the new names are
    strings. *)
Definition normalize_columns (df : DataFrame) : DataFrame :=
  {| index_len := index_len df;
     df_columns :=
       map (fun c => {| col_name := normalize_name (col_name c);
                        col_dtype := col_dtype c;
                        col_values := col_values c;
                        col_is_str := true |})
           (df_columns df) |}.

(** No name occurs twice, as [df.columns.is_unique] tells: every [df[c]]
    is then a series. *)
Fixpoint is_unique (names : list string) : bool :=
  match names with
  | [] => true
  | name :: rest => negb (mem string_dec name rest) && is_unique rest
  end.

(** The frame every derived structure is computed from. *)
Definition normalized (loaded : DataFrame) : DataFrame :=
  normalize_columns (fst (clean_unnamed loaded)).

Section Main.

Variable tie_up : Z -> bool.

(** The answer of the operating system to the creation of a table of
    value counts, whose path holds the name of a column: [true] when it
    is refused, as it is when the name has a slash and the directory so
    named does not exist.  The other files of a run have fixed paths in
    the directories the run has made, and are taken to be written. *)
Variable write_fails : string -> bool.

(** The loop [for c in cat.columns] of [main]: [to_csv] raises an
    [OSError] at the first path that is refused. *)
Fixpoint write_value_counts (names : list string) : list event :=
  match names with
  | [] => []
  | c :: rest =>
      let path := ("reports/" ++ c ++ "_top20_value_counts.csv")%string in
      if write_fails path then [Raised OSError]
      else ValueCountsToCsv path c :: write_value_counts rest
  end.

(** The branch of [main] taken when the overview counts a column.  Its
    first call, [data_dictionary], raises an [AttributeError] when a name
    occurs twice in the frame. *)
Definition report (args : Args) (df_cols_norm : DataFrame) : list event :=
  if negb (is_unique (Frame.columns df_cols_norm)) then [Raised AttributeError]
  else
    let dd := data_dictionary tie_up df_cols_norm in
    let flags := quality_flags df_cols_norm dd in
    let num := Frame.select_number df_cols_norm in
    let cat := Frame.exclude_number df_cols_norm in
    [DictionaryToCsv "reports/data_dictionary.csv" dd;
     DictionaryToCsv "data/interim/_data_dictionary_debug.csv" dd;
     JsonDump "reports/quality_flags.json" flags;
     Log INFO (MsgFlags flags);
     Log INFO MsgCharts]
    ++ plot_missing_bar df_cols_norm "reports/figures/missing_bar.png"
    ++ plot_histograms df_cols_norm "reports/figures" (max_hist args)
    ++ plot_boxplots df_cols_norm "reports/figures" (max_box args)
    ++ plot_correlation df_cols_norm "reports/figures/corr_matrix.png"
    ++ (if (0 <? snd (Frame.shape num))%nat
        then [DescribeToCsv "reports/numeric_summary.csv" (Frame.columns num)]
        else [])
    ++ write_value_counts (Frame.columns cat).

(** [main()], from the parsed arguments and the frame [read_any] returns. *)
Definition main (args : Args) (loaded : DataFrame) : list event :=
  ensure_dir "reports" ++ ensure_dir "reports/figures" ++ ensure_dir "data/interim"
  ++ [Log INFO (MsgReading (input args))]
  ++ match cleaning_error loaded with
     | Some e => [Raised e]
     | None =>
         let '(df, cleaning_log) := clean_unnamed loaded in
         let df_cols_norm := normalize_columns df in
         let ov := data_overview df_cols_norm in
         cleaning_log
         ++ [SampleToCsv "data/interim/sample_head.csv" (Frame.head 100 df_cols_norm);
             Log INFO (MsgShape (ov_rows ov) (ov_cols ov));
             Log INFO (MsgFirstColumns (firstn 5 (ov_columns ov)))]
         ++ and_then (if (0 <? ov_cols ov)%nat then report args df_cols_norm
                      else [Log ERROR MsgNoColumns])
                     [Log INFO MsgDone]
     end.

End Main.

(* ------------------------------------------------------------------ *)
(** * The float expressions in IEEE binary64                           *)
(* ------------------------------------------------------------------ *)

(** Bit-exact evaluation of the float expressions of the script, with the
    binary64 operations of the standard library.  Results that the script
    converts back to an integer or rounds to hundredths are returned as
    the exact value of the float reached. *)
Module Binary64.

Definition prec : Z := 53.
Definition emax : Z := 1024.

(** [float(z)] *)
Definition of_int (z : Z) : spec_float := binary_normalize prec emax z 0 false.

Definition mul : spec_float -> spec_float -> spec_float := SFmul prec emax.
Definition div : spec_float -> spec_float -> spec_float := SFdiv prec emax.
Definition sqrt : spec_float -> spec_float := SFsqrt prec emax.

(** The rational a finite float denotes. *)
Definition to_Q (x : spec_float) : Q :=
  match x with
  | S754_finite s m e =>
      let v := (inject_Z (Zpos m) * Qpower 2 e)%Q in
      if s then Qopp v else v
  | _ => 0%Q
  end.

(** The literal [0.9]: 0x3FECCCCCCCCCCCCD. *)
Definition literal_0_9 : spec_float :=
  S754_finite false 8106479329266893 (-53).

(** [max(2, int(n * 0.9))] *)
Definition id_threshold (n : Z) : Z :=
  Z.max 2 (PyNum.int (to_Q (mul (of_int n) literal_0_9))).

(** [round((missing / n) * 100 if n > 0 else 0.0, 2)], as the decimal
    with two places that [round] selects. *)
Definition missing_pct (missing n : Z) : Q :=
  PyNum.round PyNum.half_even
    (if (0 <? n)%Z
     then to_Q (mul (div (of_int missing) (of_int n)) (of_int 100))
     else 0%Q) 2.

(** The direction binary64 takes at the percentage [(f + 1/2) / 100],
    computed at the fraction [(2 f + 1) / 20000]. *)
Definition tie_up (f : Z) : bool :=
  Qeq_bool (missing_pct (2 * f + 1) 20000) (inject_Z (f + 1) / 100)%Q.

(** [_grid_size(k)] *)
Definition grid_size (k : Z) : Z * Z :=
  if (k <=? 0)%Z then (1, 1)%Z
  else
    let cols := Qceiling (to_Q (sqrt (of_int k))) in
    let rows := Qceiling (to_Q (div (of_int k) (of_int cols))) in
    (rows, cols).

(** The integers [lo, lo + 1, ..., lo + len - 1]. *)
Definition zrange (lo : Z) (len : nat) : list Z :=
  map (fun i => (lo + Z.of_nat i)%Z) (seq 0 len).

End Binary64.

(* ------------------------------------------------------------------ *)
(** * The properties in the words of the specification                 *)
(* ------------------------------------------------------------------ *)

(** The specification's threshold of the identifier rule:
    max(2, ceil(0.9 * row_count)). *)
Definition spec_id_threshold (row_count : nat) : Z :=
  Z.max 2 (Qceiling ((9 # 10) * inject_Z (Z.of_nat row_count))%Q).

(** The specification's duplicate count: the positions whose row equals
    the row of an earlier position. *)
Definition spec_duplicate_rows (rs : list row) : nat :=
  List.length
    (filter (fun i => existsb (fun j => if row_eq_dec (nth j rs []) (nth i rs [])
                                        then true else false)
                              (seq 0 i))
            (seq 0 (List.length rs))).

(** The same count by groups of identical rows: each group gives its
    size minus one. *)
Definition spec_duplicate_groups (rs : list row) : nat :=
  list_sum (map (fun r => count_occ row_eq_dec rs r - 1) (nodup row_eq_dec rs)).

(** The raw occurrence count of the specification: the number of
    characters of the line that are the delimiter. *)
Definition spec_occurrences (line : string) (delimiter : ascii) : nat :=
  count_occ ascii_dec (list_ascii_of_string line) delimiter.

(** The candidates of the specification, in the order it lists them:
    comma, semicolon, tab, bar. *)
Definition spec_candidates : list ascii := [","; ";"; "009"; "|"]%char.

(** The characters that end a line. *)
Definition is_break (ch : ascii) : Prop := ch = "010"%char \/ ch = "013"%char.

(** [line] is the first line of the text [contents]: the characters that
    come before its first line break, or all of them when it has none. *)
Definition is_first_line (contents line : string) : Prop :=
  (forall ch, In ch (list_ascii_of_string line) -> ~ is_break ch)
  /\ (contents = line
      \/ exists nl rest, is_break nl /\ contents = (line ++ String nl rest)%string).

(** The mask [dd["missing_pct"] > 30] on one record. *)
Definition over_30 (r : DictRow) : bool :=
  match Qcompare 30 (dd_missing_pct r) with
  | Lt => true
  | _ => false
  end.

(** The outputs that belong to the data dictionary, the quality flags,
    the charts and the profiling tables. *)
Definition report_output (e : event) : bool :=
  match e with
  | DictionaryToCsv _ _ | JsonDump _ _ | SaveFig _ _
  | DescribeToCsv _ _ | ValueCountsToCsv _ _ => true
  | MakeDirs _ | Log _ _ | SampleToCsv _ _ | Raised _ => false
  end.

(** The warnings among the events. *)
Definition is_warning (e : event) : bool :=
  match e with
  | Log WARNING _ => true
  | _ => false
  end.

(** An event that writes or logs a derived structure carries the one
    computed from the frame [df]. *)
Definition derived_from (tie_up : Z -> bool) (df : DataFrame) (e : event) : Prop :=
  let dd := data_dictionary tie_up df in
  let numeric := Frame.columns (Frame.select_number df) in
  match e with
  | MakeDirs _ => True
  | SampleToCsv _ d => d = Frame.head 100 df
  | DictionaryToCsv _ dd' => dd' = dd
  | JsonDump _ f => f = quality_flags df dd
  | Log _ (MsgFlags f) => f = quality_flags df dd
  | Log _ (MsgShape r c) => (r, c) = Frame.shape df
  | Log _ (MsgFirstColumns cs) => cs = firstn 5 (Frame.columns df)
  | Log _ _ => True
  | SaveFig _ (MissingBar bars) => bars = Frame.columns df
  | SaveFig _ (Histograms _ _ panels) => exists k, panels = slice_to k numeric
  | SaveFig _ (Boxplots _ _ panels) => exists k, panels = slice_to k numeric
  | SaveFig _ (CorrMatrix labels) => labels = numeric
  | DescribeToCsv _ cols => cols = numeric
  | ValueCountsToCsv _ c => In c (Frame.columns (Frame.exclude_number df))
  | Raised _ => True
  end.

(** A name whose first and last characters are not whitespace. *)
Fixpoint last_char (s : string) : option ascii :=
  match s with
  | EmptyString => None
  | String c EmptyString => Some c
  | String _ s' => last_char s'
  end.

Definition trimmed (s : string) : bool :=
  match s, last_char s with
  | String c _, Some d => negb (PyStr.isspace c) && negb (PyStr.isspace d)
  | _, _ => true
  end.

(** A name that does not contain the character [c]. *)
Fixpoint lacks (c : ascii) (s : string) : bool :=
  match s with
  | EmptyString => true
  | String d s' => negb (Ascii.eqb d c) && lacks c s'
  end.

(* ------------------------------------------------------------------ *)
(** * Sample tables                                                    *)
(* ------------------------------------------------------------------ *)

Definition ints (zs : list Z) : list cell := map (fun z => Some (VNum z)) zs.
Definition strs (ss : list string) : list cell := map (fun s => Some (VStr s)) ss.

(** Five rows and a column with four distinct values. *)
Definition five_rows : DataFrame :=
  {| index_len := 5;
     df_columns := [mkColumn "code" Int64 (ints [1; 2; 3; 4; 4])%Z] |}.

(** Two loaded names that differ only by a space against an underscore. *)
Definition clashing_names : DataFrame :=
  {| index_len := 1;
     df_columns := [mkColumn "a b" Int64 (ints [1]%Z);
                    mkColumn "a_b" Int64 (ints [2]%Z)] |}.

(** A frame read with a spurious index column. *)
Definition with_index_column : DataFrame :=
  {| index_len := 2;
     df_columns := [mkColumn "Unnamed: 0" Int64 (ints [0; 1]%Z);
                    mkColumn "first name" Object (strs ["Ana"; "Luz"]);
                    mkColumn "age" Float64 [Some (VNum 31); None]] |}.

(** A frame whose header row was not found. *)
Definition all_unnamed : DataFrame :=
  {| index_len := 1;
     df_columns := [mkColumn "Unnamed: 0" Object (strs ["x"]);
                    mkColumn "Unnamed: 1" Object (strs ["y"])] |}.

(** A frame without columns. *)
Definition no_columns : DataFrame := {| index_len := 0; df_columns := [] |}.

(** Twenty rows: [a] has 7 missing cells (35%), [b] has 6 (30%), [c] has
    only missing cells. *)
Definition twenty_rows : DataFrame :=
  {| index_len := 20;
     df_columns :=
       [mkColumn "a" Float64 (repeat None 7 ++ ints (Binary64.zrange 1 13));
        mkColumn "b" Float64 (repeat None 6 ++ ints (Binary64.zrange 1 14));
        mkColumn "c" Float64 (repeat None 20)] |}.

(** The end-to-end scenario of the specification: columns [id], [age],
    [city], ten rows of which the last repeats the first, and four
    missing ages. *)
Definition scenario : DataFrame :=
  {| index_len := 10;
     df_columns :=
       [mkColumn "id" Int64 (ints [1; 2; 3; 4; 5; 6; 7; 8; 9; 1]%Z);
        mkColumn "age" Float64
          [Some (VNum 30); None; Some (VNum 41); None; Some (VNum 25);
           None; Some (VNum 52); None; Some (VNum 38); Some (VNum 30)];
        mkColumn "city" Object
          (strs ["Cali"; "Bogota"; "Cali"; "Tunja"; "Pasto";
                 "Cali"; "Neiva"; "Bogota"; "Tunja"; "Cali"])] |}.

Definition default_args : Args :=
  {| input := "data/raw/base.csv"; sep := "auto"; sheet := None;
     max_hist := 12; max_box := 8 |}.


(* ------------------------------------------------------------------ *)
(** * Loader: reading a file                                           *)
(* ------------------------------------------------------------------ *)

Module PyPath.

(** [c.lower()] on one character, for the code points below 256: the
    letters A..Z and the accented capitals, the multiplication sign
    apart. *)
Definition lower_char (c : ascii) : ascii :=
  let n := nat_of_ascii c in
  if (((65 <=? n) && (n <=? 90))
      || ((192 <=? n) && (n <=? 222) && negb (n =? 215)))%nat
  then ascii_of_nat (n + 32)
  else c.

(** [s.lower()] *)
Fixpoint lower (s : string) : string :=
  match s with
  | EmptyString => EmptyString
  | String c s' => String (lower_char c) (lower s')
  end.

(** The test of the loop of [splitext], on the reversed characters that
    come before the last dot: the file name has a character that is not
    a dot. *)
Fixpoint has_name (r : list ascii) : bool :=
  match r with
  | [] => false
  | c :: r' =>
      if Ascii.eqb c "/"%char then false
      else if Ascii.eqb c "."%char then has_name r'
      else true
  end.

(** The search of [splitext] for the last dot of the last component, on
    the reversed characters of the path; [acc] holds the characters
    passed so far. *)
Fixpoint scan_ext (r acc : list ascii) : list ascii :=
  match r with
  | [] => []
  | c :: r' =>
      if Ascii.eqb c "/"%char then []
      else if Ascii.eqb c "."%char
           then (if has_name r' then c :: acc else [])
           else scan_ext r' (c :: acc)
  end.

(** [os.path.splitext(p)[1]] with the separators of POSIX. *)
Definition splitext_ext (p : string) : string :=
  string_of_list_ascii (scan_ext (rev (list_ascii_of_string p)) []).

End PyPath.

(** The sheet selector: an index, or a name. *)
Inductive sheet_sel : Type :=
| SheetIndex (i : Z)
| SheetName (name : string).

(** What [pd.read_excel] returns: a frame, or a dict of frames keyed by
    sheet name. *)
Inductive excel_value : Type :=
| OneFrame (df : DataFrame)
| SheetDict (sheets : list (string * DataFrame)).

(** [v.shape[1]]: a dict has no attribute [shape]. *)
Definition shape_1 (v : excel_value) : result nat :=
  match v with
  | OneFrame df => Ok (snd (Frame.shape df))
  | SheetDict _ => Raise AttributeError
  end.

(** [ext in [".xlsx", ".xls"]] for [ext = os.path.splitext(path.lower())[1]] *)
Definition is_excel (path : string) : bool :=
  let ext := PyPath.splitext_ext (PyPath.lower path) in
  if in_dec string_dec ext [".xlsx"; ".xls"] then true else false.

Section Reader.

(** The parsers of pandas and the opening of a text file, as the
    loader calls them: [read_excel path sheet header],
    [read_csv path sep], [open_text path]. *)
Variable read_excel : string -> option sheet_sel -> option nat -> result excel_value.
Variable read_csv : string -> string -> result DataFrame.
Variable open_text : string -> result string.

(** The loop [for h in [0, 1, 2]] of [read_any] and the fallback after
    it. *)
Fixpoint try_headers (path : string) (sheet : option sheet_sel)
    (headers : list nat) : result excel_value :=
  match headers with
  | [] => read_excel path sheet None
  | h :: rest =>
      match read_excel path sheet (Some h) with
      | Raise e => Raise e
      | Ok df =>
          match shape_1 df with
          | Raise e => Raise e
          | Ok cols =>
              if (0 <? cols)%nat then Ok df
              else try_headers path sheet rest
          end
      end
  end.

(** [read_any(path, sep, sheet)] *)
Definition read_any (path sep : string) (sheet : option sheet_sel)
    : result excel_value :=
  if is_excel path then try_headers path sheet [0; 1; 2]
  else
    let sep' :=
      if String.eqb sep "auto"
      then match open_text path with
           | Raise e => Raise e
           | Ok contents => Ok (_detect_sep contents default_candidates)
           end
      else Ok sep in
    match sep' with
    | Raise e => Raise e
    | Ok s =>
        match read_csv path s with
        | Raise e => Raise e
        | Ok df => Ok (OneFrame df)
        end
    end.

End Reader.

(* ------------------------------------------------------------------ *)
(** * Logger                                                           *)
(* ------------------------------------------------------------------ *)

(** The numeric levels of [logging]; 0 is NOTSET. *)
Definition level_no (lv : level) : Z :=
  match lv with
  | INFO => 20
  | WARNING => 30
  | ERROR => 40
  end.

Definition level_name (lv : level) : string :=
  match lv with
  | INFO => "INFO"
  | WARNING => "WARNING"
  | ERROR => "ERROR"
  end.

(** A stream handler: its level, and the text its format puts before
    and after the level name; the message follows. *)
Record Handler : Type := mkHandler {
  h_level : Z;
  h_before : string;
  h_after : string
}.

(** The state of the logger ["data_NNA"]. *)
Record Logger : Type := mkLogger {
  lg_level : Z;
  lg_handlers : list Handler
}.

(** The logger as [logging.getLogger] first creates it. *)
Definition fresh_logger : Logger := {| lg_level := 0; lg_handlers := [] |}.

(** [get_logger()], on the state of the logger. *)
Definition get_logger (logger : Logger) : Logger :=
  match lg_handlers logger with
  | [] =>
      {| lg_level := 20;
         lg_handlers := [ {| h_level := 20; h_before := "["; h_after := "] " |} ] |}
  | _ :: _ => logger
  end.

(** The lines a call [logger.log(lv, msg)] writes, the root logger being
    left as it starts: at WARNING and without handler.  A logger without
    level takes the level of the root; a record no handler takes goes to
    the handler of last resort, which writes the bare message from
    WARNING on. *)
Definition emit (logger : Logger) (lv : level) (msg : string) : list string :=
  let effective := if (lg_level logger =? 0)%Z then 30%Z else lg_level logger in
  if (level_no lv <? effective)%Z then []
  else
    match lg_handlers logger with
    | [] => if (30 <=? level_no lv)%Z then [msg] else []
    | hs =>
        map (fun h => (h_before h ++ level_name lv ++ h_after h ++ msg)%string)
            (filter (fun h => (h_level h <=? level_no lv)%Z) hs)
    end.

(* ------------------------------------------------------------------ *)
(** * Words for the further properties                                 *)
(* ------------------------------------------------------------------ *)

(** The directories [main] makes before anything else. *)
Definition output_dirs : list string :=
  ["reports"; "reports/figures"; "data/interim"].

(** The file of the value counts of the column [c]. *)
Definition value_counts_path (c : string) : string :=
  "reports/" ++ c ++ "_top20_value_counts.csv".

(** The look-up [d[key]] in a dict given as an association list. *)
Fixpoint dict_get (key : string) (d : list (string * nat)) : option nat :=
  match d with
  | [] => None
  | (k, v) :: d' => if String.eqb k key then Some v else dict_get key d'
  end.

(** A parser world for the examples: one workbook whose first header row
    is empty, one text file. *)
Definition sample_read_excel (path : string) (sheet : option sheet_sel)
    (header : option nat) : result excel_value :=
  match sheet with
  | None => Ok (SheetDict [("Hoja1", scenario)])
  | Some _ =>
      match header with
      | Some 0 => Ok (OneFrame no_columns)
      | Some _ => Ok (OneFrame scenario)
      | None => Ok (OneFrame all_unnamed)
      end
  end.

Definition sample_read_csv (path sep : string) : result DataFrame :=
  if String.eqb sep ";" then Ok scenario else Ok clashing_names.

Definition sample_open_text (path : string) : result string :=
  if String.eqb path "data/raw/base.csv" then Ok "id;age;city"
  else Raise FileNotFoundError.

(** A frame with one numeric and two text columns, one of them with a
    space in its name. *)
Definition mixed_frame : DataFrame :=
  {| index_len := 3;
     df_columns := [mkColumn "n" Int64 (ints [3; 1; 2]%Z);
                    mkColumn "a" Object (strs ["x"; "y"; "x"]);
                    mkColumn "b c" Object [Some (VStr "u"); None; None]] |}.

(** The errors among the events. *)
Definition is_error (e : event) : bool :=
  match e with
  | Log ERROR _ => true
  | _ => false
  end.

(** The files of a run on a frame with at least one column, from the
    names of its numeric and of its other columns. *)
Definition report_files (numeric others : list string) : list string :=
  ["reports/data_dictionary.csv";
   "data/interim/_data_dictionary_debug.csv";
   "reports/quality_flags.json";
   "reports/figures/missing_bar.png"]
  ++ (match numeric with
      | [] => []
      | _ :: _ => ["reports/figures/histograms.png"; "reports/figures/boxplots.png"]
      end)
  ++ (match numeric with
      | _ :: _ :: _ => ["reports/figures/corr_matrix.png"]
      | _ => []
      end)
  ++ (match numeric with
      | [] => []
      | _ :: _ => ["reports/numeric_summary.csv"]
      end)
  ++ map value_counts_path others.

(** [p.endswith(suffix)], on the characters of both. *)
Fixpoint starts_with (prefix l : list ascii) : bool :=
  match prefix, l with
  | [], _ => true
  | _ :: _, [] => false
  | a :: prefix', b :: l' => Ascii.eqb a b && starts_with prefix' l'
  end.

Definition ends_with (suffix p : string) : bool :=
  starts_with (rev (list_ascii_of_string suffix)) (rev (list_ascii_of_string p)).

(** The last component of a path has a character that is not a dot. *)
Definition named (stem : string) : bool :=
  PyPath.has_name (rev (list_ascii_of_string stem)).

(** The header of a workbook with an empty cell and a year: the labels
    are the string [Unnamed: 0] and the integer [2019]. *)
Definition year_header : DataFrame :=
  {| index_len := 2;
     df_columns := [mkColumn "Unnamed: 0" Int64 (ints [0; 1]%Z);
                    mkLabelled "2019" Float64 (ints [10; 12]%Z) false] |}.

(** The header of a workbook with a name and a year. *)
Definition name_and_year : DataFrame :=
  {| index_len := 2;
     df_columns := [mkColumn "nombre" Object (strs ["Ana"; "Luz"]);
                    mkLabelled "2019" Int64 (ints [10; 12]%Z) false] |}.

(** The header of a workbook with years only. *)
Definition years_only : DataFrame :=
  {| index_len := 1;
     df_columns := [mkLabelled "2019" Int64 (ints [10]%Z) false;
                    mkLabelled "2020" Int64 (ints [12]%Z) false] |}.

(** A text column whose name has a slash. *)
Definition slash_name : DataFrame :=
  {| index_len := 1;
     df_columns := [mkColumn "n" Int64 (ints [1]%Z);
                    mkColumn "a/b" Object (strs ["x"]);
                    mkColumn "c" Object (strs ["y"])] |}.

(** A file system that refuses no file. *)
Definition never_fails (path : string) : bool := false.

(** A file system that holds the directories a run makes and no other. *)
Definition only_made_directories (path : string) : bool :=
  if in_dec string_dec (PyStr.dirname path) output_dirs then false else true.
(* ================================================================== *)
(** * Properties                                                       *)
(* ================================================================== *)

(* ------------------------------------------------------------------ *)
(** ** Delimiter detection                                             *)
(* ------------------------------------------------------------------ *)

(** Either no candidate beats the initial best, or the answer is the
    first candidate that reaches the largest count. *)
Lemma detect_loop_spec (head : string) (candidates : list string) :
  forall (best_sep : string) (best_count : Z),
    (detect_loop head candidates best_sep best_count = best_sep
     /\ Forall (fun c => (Z.of_nat (PyStr.count head c) <= best_count)%Z)
               candidates)
    \/ (exists pre post,
          candidates
          = pre ++ detect_loop head candidates best_sep best_count :: post
          /\ (best_count
              < Z.of_nat (PyStr.count head
                            (detect_loop head candidates best_sep best_count)))%Z
          /\ Forall (fun c =>
                       PyStr.count head c
                       < PyStr.count head
                           (detect_loop head candidates best_sep best_count))
                    pre
          /\ Forall (fun c =>
                       PyStr.count head c
                       <= PyStr.count head
                            (detect_loop head candidates best_sep best_count))
                    post).
Proof.
  induction candidates as [| s rest IH]; intros best_sep best_count; simpl.
  - left. split; [reflexivity | constructor].
  - destruct (Z.ltb_spec best_count (Z.of_nat (PyStr.count head s))) as [Hlt | Hge].
    + destruct (IH s (Z.of_nat (PyStr.count head s)))
        as [[Hr Hall] | (pre & post & Hsplit & Hbc & Hpre & Hpost)].
      * right. exists [], rest. rewrite Hr. simpl.
        repeat split; auto.
        eapply Forall_impl; [| exact Hall]. intros c Hc. simpl in Hc. lia.
      * right. exists (s :: pre), post.
        repeat split; auto.
        -- simpl. now rewrite <- Hsplit.
        -- lia.
        -- constructor; [lia | assumption].
    + destruct (IH best_sep best_count)
        as [[Hr Hall] | (pre & post & Hsplit & Hbc & Hpre & Hpost)].
      * left. split; auto.
      * right. exists (s :: pre), post.
        repeat split; auto.
        -- simpl. now rewrite <- Hsplit.
        -- constructor; [lia | assumption].
Qed.

(** The detector reads the first line: the characters before the first
    line break, and a line feed when there is a break. *)
Lemma readline_no_break (line : string) :
  (forall ch, In ch (list_ascii_of_string line) -> ~ is_break ch) ->
  PyStr.readline line = line.
Proof.
  induction line as [| c line IH]; intros Hline; [reflexivity |].
  cbn [PyStr.readline].
  destruct (Ascii.eqb_spec c "010"%char) as [E | _].
  { exfalso. apply (Hline c); [now left | now left]. }
  destruct (Ascii.eqb_spec c "013"%char) as [E | _].
  { exfalso. apply (Hline c); [now left | now right]. }
  cbn [orb]. f_equal. apply IH. intros ch Hch. apply Hline. now right.
Qed.

Lemma readline_break (line rest : string) (nl : ascii) :
  (forall ch, In ch (list_ascii_of_string line) -> ~ is_break ch) ->
  is_break nl ->
  PyStr.readline (line ++ String nl rest)%string
  = (line ++ String "010"%char EmptyString)%string.
Proof.
  induction line as [| c line IH]; intros Hline Hnl.
  - cbn [String.append PyStr.readline].
    destruct Hnl as [-> | ->]; reflexivity.
  - cbn [String.append PyStr.readline].
    destruct (Ascii.eqb_spec c "010"%char) as [E | _].
    { exfalso. apply (Hline c); [now left | now left]. }
    destruct (Ascii.eqb_spec c "013"%char) as [E | _].
    { exfalso. apply (Hline c); [now left | now right]. }
    cbn [orb]. f_equal. apply IH; [| exact Hnl].
    intros ch Hch. apply Hline. now right.
Qed.

Lemma readline_first_line (contents line : string) :
  is_first_line contents line ->
  PyStr.readline contents = line
  \/ PyStr.readline contents = (line ++ String "010"%char EmptyString)%string.
Proof.
  intros [Hline [-> | (nl & rest & Hnl & ->)]].
  - left. now apply readline_no_break.
  - right. now apply readline_break.
Qed.

(** Every text has a first line. *)
Lemma first_line_exists (contents : string) :
  exists line, is_first_line contents line.
Proof.
  induction contents as [| c contents [line [Hline Hsplit]]].
  - exists EmptyString. split; [intros ch [] | now left].
  - destruct (Ascii.eqb_spec c "010"%char) as [E | N1].
    { exists EmptyString. split; [intros ch [] |].
      right. exists c, contents. split; [now left | reflexivity]. }
    destruct (Ascii.eqb_spec c "013"%char) as [E | N2].
    { exists EmptyString. split; [intros ch [] |].
      right. exists c, contents. split; [now right | reflexivity]. }
    exists (String c line). split.
    + intros ch [<- | Hch]; [intros [H | H]; contradiction | now apply Hline].
    + destruct Hsplit as [-> | (nl & rest & Hnl & ->)]; [now left |].
      right. exists nl, rest. split; [exact Hnl | reflexivity].
Qed.

(* ------------------------------------------------------------------ *)
(** ** Chart grid                                                      *)
(* ------------------------------------------------------------------ *)

Lemma ceil_sqrt_spec (k : Z) :
  (0 < k)%Z ->
  let c := PyNum.ceil_sqrt k in
  (0 < c /\ (c - 1) * (c - 1) < k <= c * c)%Z.
Proof.
  intros Hk c. subst c. unfold PyNum.ceil_sqrt.
  pose proof (Z.sqrt_spec k ltac:(lia)) as [Hlo Hhi].
  pose proof (Z.sqrt_nonneg k) as Hnn.
  set (r := Z.sqrt k) in *.
  destruct (Z.eqb_spec (r * r) k) as [Heq | Hne].
  - assert (0 < r)%Z by nia. split; [assumption | nia].
  - split; [lia | nia].
Qed.

Lemma inject_div_mul (a b : Z) :
  (0 < b)%Z -> (inject_Z a / inject_Z b * inject_Z b == inject_Z a)%Q.
Proof.
  intros Hb. field. intros H0. unfold Qeq in H0. simpl in H0. lia.
Qed.

Lemma ceil_div_spec (a b : Z) :
  (0 < b)%Z ->
  let q := PyNum.ceil_div a b in
  ((q - 1) * b < a <= q * b)%Z.
Proof.
  intros Hb q. subst q. unfold PyNum.ceil_div.
  pose proof (inject_div_mul a b Hb) as Hx.
  set (x := (inject_Z a / inject_Z b)%Q) in *.
  pose proof (Qle_ceiling x) as Hup.
  pose proof (Qceiling_lt x) as Hlo.
  set (q := Qceiling x) in *.
  assert (Hbq : (0 < inject_Z b)%Q) by (unfold Qlt; simpl; lia).
  split.
  - assert (H : (inject_Z (q - 1) * inject_Z b < inject_Z a)%Q).
    { rewrite <- Hx. apply Qmult_lt_compat_r; assumption. }
    rewrite <- inject_Z_mult in H. now rewrite <- Zlt_Qlt in H.
  - assert (H : (inject_Z a <= inject_Z q * inject_Z b)%Q).
    { rewrite <- Hx. apply Qmult_le_compat_r; [assumption | now apply Qlt_le_weak]. }
    rewrite <- inject_Z_mult in H. now rewrite <- Zle_Qle in H.
Qed.

(** The count of a one-character separator is the number of characters of
    the line equal to it. *)
Lemma count_char (c : ascii) (s : string) :
  PyStr.count s (String c EmptyString) = spec_occurrences s c.
Proof.
  unfold PyStr.count, spec_occurrences.
  induction s as [| d s IH]; [reflexivity |].
  cbn [PyStr.count_from String.prefix list_ascii_of_string
       String.length Nat.sub].
  destruct (ascii_dec c d) as [-> | Hne].
  - rewrite count_occ_cons_eq by reflexivity.
    destruct s; cbn [List.length]; now rewrite <- IH.
  - rewrite count_occ_cons_neq by congruence. exact IH.
Qed.

Lemma occurrences_app (a b : string) (c : ascii) :
  spec_occurrences (a ++ b) c = spec_occurrences a c + spec_occurrences b c.
Proof.
  unfold spec_occurrences. induction a as [| d a IH]; [reflexivity |].
  cbn [String.append list_ascii_of_string].
  destruct (ascii_dec d c) as [-> | Hne].
  - rewrite !count_occ_cons_eq by reflexivity. now rewrite IH.
  - now rewrite !count_occ_cons_neq by assumption.
Qed.

(** The line feed that ends the line read is no candidate, and so the
    counts in the line read are those in the first line. *)
Lemma occurrences_first_line (contents line : string) (c : ascii) :
  is_first_line contents line ->
  In c spec_candidates ->
  spec_occurrences (PyStr.readline contents) c = spec_occurrences line c.
Proof.
  intros Hfirst Hc.
  destruct (readline_first_line contents line Hfirst) as [-> | ->];
    [reflexivity |].
  rewrite occurrences_app.
  assert (Hlf : spec_occurrences (String "010"%char EmptyString) c = 0).
  { unfold spec_candidates in Hc. simpl in Hc.
    destruct Hc as [<- | [<- | [<- | [<- | []]]]]; reflexivity. }
  rewrite Hlf. apply Nat.add_0_r.
Qed.

Lemma default_candidates_spec :
  default_candidates = map (fun ch => String ch EmptyString) spec_candidates.
Proof. reflexivity. Qed.

(** The answer of the detector on the default candidates, by the counts
    of the line read. *)
Lemma detect_sep_default (contents : string) :
  let head := PyStr.readline contents in
  exists pre ch post,
    spec_candidates = pre ++ ch :: post
    /\ _detect_sep contents default_candidates = String ch EmptyString
    /\ Forall (fun c => spec_occurrences head c < spec_occurrences head ch) pre
    /\ Forall (fun c => spec_occurrences head c <= spec_occurrences head ch) post.
Proof.
  intros head. unfold _detect_sep. fold head.
  destruct (detect_loop_spec head default_candidates "," (-1))
    as [[_ Hall] | (pre & post & Hsplit & _ & Hpre & Hpost)].
  - inversion Hall as [| c l Hc _]; subst. cbv beta in Hc. exfalso. lia.
  - set (r := detect_loop head default_candidates "," (-1)) in *. clearbody r.
    rewrite default_candidates_spec in Hsplit.
    apply map_eq_app in Hsplit.
    destruct Hsplit as (pre' & tail & Hcands & <- & Htail).
    apply map_eq_cons in Htail.
    destruct Htail as (ch & post' & -> & <- & <-).
    exists pre', ch, post'. split; [exact Hcands |]. split; [reflexivity |].
    rewrite Forall_map in Hpre, Hpost. split.
    + eapply Forall_impl; [| exact Hpre]. intros c Hc. cbv beta in Hc.
      now rewrite !count_char in Hc.
    + eapply Forall_impl; [| exact Hpost]. intros c Hc. cbv beta in Hc.
      now rewrite !count_char in Hc.
Qed.

(** C3.  With the delimiter "auto" the loader uses the answer of the
    detector.  Every text has a first line, and the answer is the
    candidate of [",", ";", TAB, "|"] whose raw occurrence count in that
    line is the largest, the candidates listed before it having a
    strictly smaller count, those listed after it none larger; so for the
    first line [a,b;c,d,e] the answer is [","], and for [a;b;c,d] it is
    [";"]. *)
Theorem detect_sep_first_maximum :
  (forall contents : string, exists line, is_first_line contents line)
  /\ (forall contents line : string,
        is_first_line contents line ->
        let r := _detect_sep contents default_candidates in
        read_any_sep contents "auto" = r
        /\ exists pre ch post,
             spec_candidates = pre ++ ch :: post
             /\ r = String ch EmptyString
             /\ Forall (fun c => spec_occurrences line c < spec_occurrences line ch)
                       pre
             /\ Forall (fun c => spec_occurrences line c <= spec_occurrences line ch)
                       post)
  /\ _detect_sep "a,b;c,d,e" default_candidates = ","
  /\ (forall rest,
        _detect_sep ("a,b;c,d,e" ++ String "010"%char rest)%string
          default_candidates = ",")
  /\ _detect_sep "a;b;c,d" default_candidates = ";"
  /\ _detect_sep "a|b;c" default_candidates = ";".
Proof.
  split; [exact first_line_exists |].
  split.
  - intros contents line Hfirst r. split; [reflexivity |].
    destruct (detect_sep_default contents)
      as (pre & ch & post & Hcands & Hr & Hpre & Hpost).
    assert (Hin : forall c, In c (pre ++ ch :: post) -> In c spec_candidates)
      by (intros c Hc; now rewrite Hcands).
    assert (Hch : spec_occurrences (PyStr.readline contents) ch
                  = spec_occurrences line ch).
    { apply occurrences_first_line; [exact Hfirst |]. apply Hin, in_elt. }
    exists pre, ch, post. split; [exact Hcands |]. split; [exact Hr |].
    rewrite Forall_forall in Hpre, Hpost. split; apply Forall_forall.
    + intros c Hc. specialize (Hpre c Hc). cbv beta in Hpre.
      rewrite Hch in Hpre.
      rewrite (occurrences_first_line contents line c Hfirst) in Hpre;
        [exact Hpre |].
      apply Hin, in_or_app. now left.
    + intros c Hc. specialize (Hpost c Hc). cbv beta in Hpost.
      rewrite Hch in Hpost.
      rewrite (occurrences_first_line contents line c Hfirst) in Hpost;
        [exact Hpost |].
      apply Hin, in_or_app. right. now right.
  - split; [reflexivity |]. split; [| split; reflexivity].
    intros rest. unfold _detect_sep.
    rewrite (readline_break "a,b;c,d,e" rest "010"%char); [reflexivity | | now left].
    intros ch Hch [-> | ->]; simpl in Hch; intuition discriminate.
Qed.

(** C6.  For every positive number [k] of selected columns the grid has
    [cols = ceil(sqrt(k))], the least integer whose square reaches [k],
    and [rows = ceil(k / cols)], the least number of rows of [cols] cells
    that hold [k] charts; for [k = 7] the grid is 3 by 3. *)
Theorem grid_size_ceil_sqrt :
  (forall k : Z,
      (0 < k)%Z ->
      let '(rows, cols) := _grid_size k in
      (cols = PyNum.ceil_sqrt k
       /\ rows = PyNum.ceil_div k cols
       /\ 0 < cols
       /\ (cols - 1) * (cols - 1) < k <= cols * cols
       /\ (rows - 1) * cols < k <= rows * cols)%Z)
  /\ _grid_size 7 = (3, 3)%Z.
Proof.
  split; [| reflexivity].
  intros k Hk. unfold _grid_size.
  destruct (Z.leb_spec k 0) as [Hle | _]; [lia |].
  destruct (ceil_sqrt_spec k Hk) as [Hpos Hsq].
  pose proof (ceil_div_spec k (PyNum.ceil_sqrt k) Hpos) as Hdiv.
  cbv zeta in Hdiv. repeat split; try reflexivity; lia.
Qed.

(** The grid of seven charts, from the general statement. *)
Lemma grid_size_ceil_sqrt_witness :
  let '(rows, cols) := _grid_size 7 in
  (cols = PyNum.ceil_sqrt 7
   /\ rows = PyNum.ceil_div 7 cols
   /\ 0 < cols
   /\ (cols - 1) * (cols - 1) < 7 <= cols * cols
   /\ (rows - 1) * cols < 7 <= rows * cols)%Z.
Proof. apply (proj1 grid_size_ceil_sqrt 7%Z). reflexivity. Defined.

(* ------------------------------------------------------------------ *)
(** ** Rounding                                                        *)
(* ------------------------------------------------------------------ *)

Lemma round_nearest_comp (tie_up : Z -> bool) (x y : Q) :
  (x == y)%Q -> PyNum.round_nearest tie_up x = PyNum.round_nearest tie_up y.
Proof.
  intros Hxy. unfold PyNum.round_nearest.
  rewrite (Qfloor_comp x y Hxy).
  assert (Hc : ((x - inject_Z (Qfloor y))%Q ?= (1 # 2)%Q)%Q
               = ((y - inject_Z (Qfloor y))%Q ?= (1 # 2)%Q)%Q).
  { apply Qcompare_comp; [now rewrite Hxy | reflexivity]. }
  now rewrite Hc.
Qed.

(** The rounded integer is within one half of the argument. *)
Lemma round_nearest_close (tie_up : Z -> bool) (x : Q) :
  (inject_Z (PyNum.round_nearest tie_up x) - (1 # 2) <= x
   /\ x <= inject_Z (PyNum.round_nearest tie_up x) + (1 # 2))%Q.
Proof.
  unfold PyNum.round_nearest.
  pose proof (Qfloor_le x) as Hlo.
  pose proof (Qlt_floor x) as Hhi.
  rewrite inject_Z_plus in Hhi.
  set (f := Qfloor x) in *.
  destruct (Qcompare_spec (x - inject_Z f) (1 # 2)) as [He | Hl | Hg].
  - destruct (tie_up f); [rewrite inject_Z_plus |];
      change (inject_Z 1) with 1%Q in *; split; lra.
  - change (inject_Z 1) with 1%Q in *. split; lra.
  - rewrite inject_Z_plus. change (inject_Z 1) with 1%Q in *. split; lra.
Qed.

(** Rounding stays between integer bounds of the argument. *)
Lemma round_nearest_between (tie_up : Z -> bool) (x : Q) (a b : Z) :
  (inject_Z a <= x)%Q -> (x <= inject_Z b)%Q ->
  (a <= PyNum.round_nearest tie_up x <= b)%Z.
Proof.
  intros Ha Hb. unfold PyNum.round_nearest.
  pose proof (Qfloor_le x) as Hlo.
  pose proof (Qfloor_resp_le _ _ Ha) as Hfa. rewrite Qfloor_Z in Hfa.
  pose proof (Qfloor_resp_le _ _ Hb) as Hfb. rewrite Qfloor_Z in Hfb.
  set (f := Qfloor x) in *.
  assert (Hup : (f = b -> (x - inject_Z f < 1 # 2)%Q)).
  { intros ->. lra. }
  destruct (Qcompare_spec (x - inject_Z f) (1 # 2)) as [He | Hl | Hg].
  - destruct (tie_up f); [| lia].
    destruct (Z.eq_dec f b) as [E | NE]; [specialize (Hup E); lra | lia].
  - lia.
  - destruct (Z.eq_dec f b) as [E | NE]; [specialize (Hup E); lra | lia].
Qed.

Lemma round_nearest_integer (tie_up : Z -> bool) (z : Z) :
  PyNum.round_nearest tie_up (inject_Z z) = z.
Proof.
  unfold PyNum.round_nearest. rewrite Qfloor_Z.
  destruct (Qcompare_spec (inject_Z z - inject_Z z) (1 # 2)) as [H | H | H];
    [exfalso; lra | reflexivity | exfalso; lra].
Qed.

(** [round(x, 2)] is a number of hundredths. *)
Lemma round_two (tie_up : Z -> bool) (x : Q) :
  (PyNum.round tie_up x 2 == PyNum.round_nearest tie_up (x * 100) # 100)%Q.
Proof.
  unfold PyNum.round. change (inject_Z (10 ^ Z.of_nat 2)) with 100%Q.
  rewrite (Qmake_Qdiv (PyNum.round_nearest tie_up (x * 100)) 100).
  reflexivity.
Qed.

Lemma round_two_comp (tie_up : Z -> bool) (x y : Q) :
  (x == y)%Q -> (PyNum.round tie_up x 2 == PyNum.round tie_up y 2)%Q.
Proof.
  intros Hxy. unfold PyNum.round.
  rewrite (round_nearest_comp tie_up (x * inject_Z (10 ^ Z.of_nat 2))
             (y * inject_Z (10 ^ Z.of_nat 2))); [reflexivity |].
  now rewrite Hxy.
Qed.

(** A whole percentage is left as it is. *)
Lemma round_two_integer (tie_up : Z -> bool) (p : Z) :
  (PyNum.round tie_up (inject_Z p) 2 == inject_Z p)%Q.
Proof.
  unfold PyNum.round. change (inject_Z (10 ^ Z.of_nat 2)) with (inject_Z 100).
  rewrite (round_nearest_comp tie_up (inject_Z p * inject_Z 100) (inject_Z (p * 100)))
    by (now rewrite inject_Z_mult).
  rewrite round_nearest_integer, inject_Z_mult. field.
Qed.

(** The exact percentage of [missing] cells among [n > 0]. *)
Lemma missing_pct_raw_pos (missing n : nat) :
  0 < n ->
  (missing_pct_raw missing n
   == inject_Z (Z.of_nat missing) / inject_Z (Z.of_nat n) * 100)%Q.
Proof.
  intros Hn. unfold missing_pct_raw.
  destruct (Nat.ltb_spec 0 n); [reflexivity | lia].
Qed.

Lemma inject_Z_nonzero (z : Z) : z <> 0%Z -> ~ (inject_Z z == 0)%Q.
Proof. intros Hz H. unfold Qeq in H. simpl in H. lia. Qed.

(** A column with [p] percent of missing cells, [p] a whole number. *)
Lemma missing_pct_raw_ratio (missing n : nat) (p : Z) :
  0 < n ->
  (100 * Z.of_nat missing = p * Z.of_nat n)%Z ->
  (missing_pct_raw missing n == inject_Z p)%Q.
Proof.
  intros Hn Hr. rewrite (missing_pct_raw_pos missing n Hn).
  assert (Hq : (inject_Z 100 * inject_Z (Z.of_nat missing)
                == inject_Z p * inject_Z (Z.of_nat n))%Q).
  { rewrite <- !inject_Z_mult. now rewrite Hr. }
  assert (Hnz : ~ (inject_Z (Z.of_nat n) == 0)%Q) by (apply inject_Z_nonzero; lia).
  setoid_replace (inject_Z (Z.of_nat missing) / inject_Z (Z.of_nat n) * 100)%Q
    with ((inject_Z 100 * inject_Z (Z.of_nat missing)) / inject_Z (Z.of_nat n))%Q
    by (change (inject_Z 100) with 100%Q; field; exact Hnz).
  rewrite Hq. field. exact Hnz.
Qed.

(** The bounds of an exact percentage. *)
Lemma missing_pct_raw_bounds (missing n : nat) :
  missing <= n -> (0 <= missing_pct_raw missing n <= 100)%Q.
Proof.
  intros Hle. unfold missing_pct_raw.
  destruct (Nat.ltb_spec 0 n) as [Hn | Hn]; [| split; lra].
  assert (Hnq : (0 < inject_Z (Z.of_nat n))%Q).
  { change 0%Q with (inject_Z 0). rewrite <- Zlt_Qlt. lia. }
  assert (Hm0 : (0 <= inject_Z (Z.of_nat missing))%Q).
  { change 0%Q with (inject_Z 0). rewrite <- Zle_Qle. lia. }
  assert (Hmn : (inject_Z (Z.of_nat missing) <= inject_Z (Z.of_nat n))%Q).
  { rewrite <- Zle_Qle. lia. }
  set (m := inject_Z (Z.of_nat missing)) in *.
  set (k := inject_Z (Z.of_nat n)) in *.
  assert (H0 : (0 <= m / k)%Q).
  { apply Qle_shift_div_l; [assumption | lra]. }
  assert (H1 : (m / k <= 1)%Q).
  { apply Qle_shift_div_r; [assumption | lra]. }
  split; lra.
Qed.

Lemma isna_sum_le (s : list cell) : Frame.sum (Frame.isna s) <= List.length s.
Proof.
  unfold Frame.sum, Frame.isna.
  rewrite <- (length_map (fun x : cell => match x with
                                          | None => true
                                          | Some _ => false
                                          end) s).
  apply filter_length_le.
Qed.

(* ------------------------------------------------------------------ *)
(** ** Data dictionary and quality flags                               *)
(* ------------------------------------------------------------------ *)

Section Profile.

Variable tie_up : Z -> bool.

Lemma in_data_dictionary (df : DataFrame) (c : Column) :
  In c (df_columns df) ->
  In (dict_row tie_up (Frame.len df) c) (data_dictionary tie_up df).
Proof. intros Hc. unfold data_dictionary. now apply in_map. Qed.

(** C5.  For every column of a table, the recorded [missing_pct] is 0.0
    when the table has no rows; when it has rows it is a number of
    hundredths at distance at most 0.005 from
    [missing_count / row_count * 100], that is this percentage rounded to
    two decimal places; and it always lies between 0 and 100. *)
Theorem missing_pct_rounded_percentage (df : DataFrame) (c : Column) :
  well_formed df ->
  In c (df_columns df) ->
  let n := Frame.len df in
  let r := dict_row tie_up n c in
  let exact :=
    (inject_Z (Z.of_nat (dd_missing r)) / inject_Z (Z.of_nat n) * 100)%Q in
  In r (data_dictionary tie_up df)
  /\ dd_missing r = Frame.sum (Frame.isna (col_values c))
  /\ (n = 0 -> (dd_missing_pct r == 0)%Q)
  /\ (0 < n ->
      (exists h : Z, (dd_missing_pct r == h # 100)%Q)
      /\ (exact - (1 # 200) <= dd_missing_pct r <= exact + (1 # 200))%Q)
  /\ (0 <= dd_missing_pct r <= 100)%Q.
Proof.
  intros Hwf Hc n r exact.
  assert (Hle : dd_missing r <= n).
  { unfold well_formed in Hwf. rewrite Forall_forall in Hwf.
    specialize (Hwf c Hc). unfold n, Frame.len. rewrite <- Hwf.
    apply isna_sum_le. }
  split; [now apply in_data_dictionary |].
  split; [reflexivity |].
  assert (Hpct : (dd_missing_pct r
                  == PyNum.round_nearest tie_up
                       (missing_pct_raw (dd_missing r) n * 100) # 100)%Q).
  { unfold r at 1. cbn [dd_missing_pct dict_row]. apply round_two. }
  split; [| split].
  - intros Hn. unfold r. cbn [dd_missing_pct dict_row].
    rewrite Hn. unfold missing_pct_raw. cbn [Nat.ltb Nat.leb].
    exact (round_two_integer tie_up 0).
  - intros Hn. split.
    + eexists. exact Hpct.
    + rewrite Hpct.
      pose proof (round_nearest_close tie_up (missing_pct_raw (dd_missing r) n * 100))
        as [Hlo Hhi].
      set (z := PyNum.round_nearest tie_up
                  (missing_pct_raw (dd_missing r) n * 100)) in *.
      pose proof (missing_pct_raw_pos (dd_missing r) n Hn) as Hraw. fold exact in Hraw.
      rewrite (Qmake_Qdiv z 100).
      change (inject_Z (Z.pos 100)) with 100%Q.
      assert (Hz : (inject_Z z / 100 * 100 == inject_Z z)%Q) by field.
      split; lra.
  - rewrite Hpct.
    pose proof (missing_pct_raw_bounds _ _ Hle) as [H0 H100].
    assert (Hb : (0 <= PyNum.round_nearest tie_up
                          (missing_pct_raw (dd_missing r) n * 100) <= 10000)%Z).
    { apply round_nearest_between.
      - change (inject_Z 0) with 0%Q. lra.
      - change (inject_Z 10000) with 10000%Q. lra. }
    set (z := PyNum.round_nearest tie_up
                (missing_pct_raw (dd_missing r) n * 100)) in *.
    unfold Qle. cbn [Qnum Qden]. lia.
Qed.

End Profile.

(* ------------------------------------------------------------------ *)
(** ** Hash scans                                                      *)
(* ------------------------------------------------------------------ *)

Section HashScanFacts.

Context {A : Type} (dec : forall a b : A, {a = b} + {a <> b}).

Lemma mem_true (x : A) (l : list A) : mem dec x l = true <-> In x l.
Proof. unfold mem. destruct (in_dec dec x l); split; auto; discriminate. Qed.

Lemma mem_false (x : A) (l : list A) : mem dec x l = false <-> ~ In x l.
Proof.
  unfold mem. destruct (in_dec dec x l); split; auto; try discriminate.
  intros H. contradiction.
Qed.

Lemma distinct_ext (l l' : list A) :
  (forall x, In x l <-> In x l') -> distinct dec l = distinct dec l'.
Proof.
  intros H. unfold distinct. apply Nat.le_antisymm.
  - apply NoDup_incl_length; [apply NoDup_nodup |].
    intros x Hx. apply nodup_In. apply H. now apply nodup_In in Hx.
  - apply NoDup_incl_length; [apply NoDup_nodup |].
    intros x Hx. apply nodup_In. apply H. now apply nodup_In in Hx.
Qed.

Lemma distinct_cons_new (x : A) (l : list A) :
  ~ In x l -> distinct dec (x :: l) = S (distinct dec l).
Proof.
  intros H. unfold distinct. simpl.
  destruct (in_dec dec x l); [contradiction | reflexivity].
Qed.

(** The entries kept by the scan are the distinct entries not seen
    before. *)
Lemma unique_from_length (l : list A) :
  forall seen,
    List.length (unique_from dec seen l) + distinct dec seen
    = distinct dec (seen ++ l).
Proof.
  induction l as [| x l IH]; intros seen; simpl.
  - now rewrite app_nil_r.
  - destruct (mem dec x seen) eqn:Hm.
    + apply mem_true in Hm. rewrite IH. apply distinct_ext.
      intros y. rewrite !in_app_iff. simpl. intuition (subst; auto).
    + apply mem_false in Hm. simpl.
      specialize (IH (x :: seen)). rewrite (distinct_cons_new x seen Hm) in IH.
      rewrite Nat.add_succ_r in IH. rewrite IH. apply distinct_ext.
      intros y. simpl. rewrite !in_app_iff. simpl. intuition.
Qed.

Lemma unique_length (l : list A) :
  List.length (unique_from dec [] l) = distinct dec l.
Proof.
  pose proof (unique_from_length l []) as H.
  unfold distinct in *. simpl in H. lia.
Qed.

(** Every entry is either kept or marked. *)
Lemma duplicated_from_count (l : list A) :
  forall seen,
    List.length (filter (fun b : bool => b) (duplicated_from dec seen l))
    + List.length (unique_from dec seen l)
    = List.length l.
Proof.
  induction l as [| x l IH]; intros seen; simpl; [reflexivity |].
  destruct (mem dec x seen); simpl.
  - now rewrite IH.
  - rewrite Nat.add_succ_r. now rewrite IH.
Qed.

(** The marks, position by position: an entry is marked exactly when it
    was seen before the scan or occurs at an earlier position. *)
Lemma duplicated_from_nth (d : A) (l : list A) :
  forall seen i,
    i < List.length l ->
    nth i (duplicated_from dec seen l) false
    = mem dec (nth i l d) (seen ++ firstn i l).
Proof.
  induction l as [| x l IH]; intros seen i Hi; simpl in Hi; [lia |].
  destruct i as [| i].
  - simpl. rewrite app_nil_r. now destruct (mem dec x seen).
  - assert (Hi' : i < List.length l) by lia.
    simpl. destruct (mem dec x seen) eqn:Hm; simpl.
    + rewrite (IH seen i Hi').
      apply mem_true in Hm.
      destruct (mem dec (nth i l d) (seen ++ firstn i l)) eqn:E;
        destruct (mem dec (nth i l d) (seen ++ x :: firstn i l)) eqn:E';
        try reflexivity.
      * apply mem_true in E. apply mem_false in E'. exfalso. apply E'.
        rewrite in_app_iff in *. simpl. tauto.
      * apply mem_false in E. apply mem_true in E'. exfalso. apply E.
        rewrite in_app_iff in *. simpl in E'.
        destruct E' as [H | [H | H]]; auto. subst. auto.
    + rewrite (IH (x :: seen) i Hi').
      destruct (mem dec (nth i l d) ((x :: seen) ++ firstn i l)) eqn:E;
        destruct (mem dec (nth i l d) (seen ++ x :: firstn i l)) eqn:E';
        try reflexivity.
      * apply mem_true in E. apply mem_false in E'. exfalso. apply E'.
        simpl in E. rewrite in_app_iff in *. simpl. tauto.
      * apply mem_false in E. apply mem_true in E'. exfalso. apply E.
        simpl. rewrite in_app_iff in *. simpl in E'. tauto.
Qed.

Lemma duplicated_from_length (l : list A) :
  forall seen, List.length (duplicated_from dec seen l) = List.length l.
Proof.
  induction l as [| x l IH]; intros seen; simpl; [reflexivity |].
  destruct (mem dec x seen); simpl; now rewrite IH.
Qed.

(** Over a list without repetition that covers [l], the group sizes add
    up to the length of [l]. *)
Lemma count_occ_sum (u : list A) :
  NoDup u ->
  forall l,
    incl l u ->
    list_sum (map (count_occ dec l) u) = List.length l.
Proof.
  intros Hu l. induction l as [| a l IH]; intros Hincl.
  - clear Hu Hincl. induction u as [| x u IHu]; simpl; auto.
  - assert (Ha : In a u) by (apply Hincl; now left).
    assert (Hl : incl l u) by (intros y Hy; apply Hincl; now right).
    specialize (IH Hl). simpl List.length. rewrite <- IH.
    clear IH Hincl Hl. induction Hu as [| x u Hx Hu IHu]; [contradiction |].
    cbn [map].
    change (list_sum (count_occ dec (a :: l) x :: map (count_occ dec (a :: l)) u))
      with (count_occ dec (a :: l) x + list_sum (map (count_occ dec (a :: l)) u)).
    change (list_sum (count_occ dec l x :: map (count_occ dec l) u))
      with (count_occ dec l x + list_sum (map (count_occ dec l) u)).
    destruct (dec a x) as [E | NE].
    + subst x. rewrite (count_occ_cons_eq dec l eq_refl).
      assert (Hrest : map (count_occ dec (a :: l)) u = map (count_occ dec l) u).
      { apply map_ext_in. intros y Hy. apply count_occ_cons_neq.
        intros ->. contradiction. }
      rewrite Hrest. lia.
    + rewrite (count_occ_cons_neq dec l NE).
      destruct Ha as [Ha | Ha]; [congruence |].
      rewrite (IHu Ha). lia.
Qed.

(** Each group of equal entries gives its size minus one. *)
Lemma groups_minus_one (l : list A) :
  list_sum (map (fun x => count_occ dec l x - 1) (nodup dec l))
  = List.length l - distinct dec l.
Proof.
  pose proof (count_occ_sum (nodup dec l) (NoDup_nodup dec l) l) as Hsum.
  assert (Hincl : incl l (nodup dec l)) by (intros x Hx; now apply nodup_In).
  specialize (Hsum Hincl).
  assert (Hpos : forall x, In x (nodup dec l) -> 1 <= count_occ dec l x).
  { intros x Hx. apply nodup_In in Hx.
    apply (count_occ_In dec) in Hx. lia. }
  assert (Hadd : list_sum (map (fun x => count_occ dec l x - 1) (nodup dec l))
                 + List.length (nodup dec l)
                 = list_sum (map (count_occ dec l) (nodup dec l))).
  { clear Hsum Hincl. induction (nodup dec l) as [| x u IH]; [reflexivity |].
    cbn [map List.length].
    change (list_sum (?h :: ?t)) with (h + list_sum t).
    assert (H1 : 1 <= count_occ dec l x) by (apply Hpos; now left).
    assert (IH' := IH (fun y Hy => Hpos y (or_intror Hy))).
    lia. }
  unfold distinct. lia.
Qed.

End HashScanFacts.

(* ------------------------------------------------------------------ *)
(** ** Quality flags                                                   *)
(* ------------------------------------------------------------------ *)

Lemma has_key_loc_column (mask : DictRow -> bool) (dd : list DictRow) :
  (if has_key dd then loc_column mask dd else []) = loc_column mask dd.
Proof. now destruct dd. Qed.

Lemma filter_map_swap {A B : Type} (g : A -> B) (p : B -> bool) (l : list A) :
  filter p (map g l) = map g (filter (fun a => p (g a)) l).
Proof.
  induction l as [| a l IH]; simpl; [reflexivity |].
  destruct (p (g a)); simpl; now rewrite IH.
Qed.

Lemma NoDup_map_eq {A B : Type} (f : A -> B) (l : list A) (a b : A) :
  NoDup (map f l) -> In a l -> In b l -> f a = f b -> a = b.
Proof.
  induction l as [| x l IH]; simpl; intros Hnd Ha Hb Hf; [contradiction |].
  inversion Hnd as [| y m Hx Hl]; subst.
  destruct Ha as [Ha | Ha]; destruct Hb as [Hb | Hb]; subst; auto.
  - exfalso. apply Hx. rewrite Hf. now apply in_map.
  - exfalso. apply Hx. rewrite <- Hf. now apply in_map.
Qed.

Lemma over_30_iff (r : DictRow) :
  over_30 r = true <-> (30 < dd_missing_pct r)%Q.
Proof.
  unfold over_30.
  destruct (Qcompare_spec 30 (dd_missing_pct r)) as [H | H | H]; split; intros H';
    try discriminate; try reflexivity; try assumption; exfalso; lra.
Qed.

Lemma id_threshold_floor (n : nat) :
  id_threshold n = Z.max 2 (9 * Z.of_nat n / 10).
Proof.
  unfold id_threshold, PyNum.int. cbn [Qmult inject_Z Qnum Qden Pos.mul].
  rewrite Z.quot_div_nonneg by lia. f_equal. f_equal. lia.
Qed.

(** The specification's threshold is never below the one of the code. *)
Lemma id_threshold_le_spec (n : nat) : (id_threshold n <= spec_id_threshold n)%Z.
Proof.
  rewrite id_threshold_floor. unfold spec_id_threshold, Qceiling, Qfloor.
  cbn [Qmult Qopp inject_Z Qnum Qden].
  change (Z.pos (10 * 1)) with 10%Z. Z.div_mod_to_equations. lia.
Qed.

Section Flags.

Variable tie_up : Z -> bool.

(** C4.  The columns listed in [high_missing_cols] are those whose
    recorded missing percentage is strictly greater than 30: a column
    with 35% of missing cells is listed, and a column with exactly 30% is
    not selected. *)
Theorem high_missing_over_30 (df : DataFrame) :
  let n := Frame.len df in
  let dd := data_dictionary tie_up df in
  let flags := quality_flags df dd in
  let missing (c : Column) := Z.of_nat (Frame.sum (Frame.isna (col_values c))) in
  let pct (c : Column) := dd_missing_pct (dict_row tie_up n c) in
  high_missing_cols flags
  = map dd_column (filter (fun r => if Qlt_le_dec 30 (dd_missing_pct r)
                                    then true else false) dd)
  /\ high_missing_cols flags
     = map col_name (filter (fun c => over_30 (dict_row tie_up n c)) (df_columns df))
  /\ (forall c, In c (df_columns df) -> (30 < pct c)%Q ->
                In (col_name c) (high_missing_cols flags))
  /\ (forall name,
        In name (high_missing_cols flags) ->
        exists c, In c (df_columns df) /\ col_name c = name /\ (30 < pct c)%Q)
  /\ (forall c, In c (df_columns df) -> 0 < n ->
                (100 * missing c = 35 * Z.of_nat n)%Z ->
                (pct c == 35)%Q /\ In (col_name c) (high_missing_cols flags))
  /\ (forall c, In c (df_columns df) -> 0 < n ->
                (100 * missing c = 30 * Z.of_nat n)%Z ->
                (pct c == 30)%Q
                /\ ~ In c (filter (fun c => over_30 (dict_row tie_up n c))
                                  (df_columns df))
                /\ (NoDup (Frame.columns df) ->
                    ~ In (col_name c) (high_missing_cols flags))).
Proof.
  intros n dd flags missing pct.
  assert (Hcols : high_missing_cols flags
                  = map col_name (filter (fun c => over_30 (dict_row tie_up n c))
                                         (df_columns df))).
  { unfold flags, quality_flags. cbn [high_missing_cols].
    rewrite has_key_loc_column. unfold loc_column, dd, data_dictionary.
    fold n. change (fun r : DictRow =>
                      match (30 ?= dd_missing_pct r)%Q with
                      | Lt => true
                      | _ => false
                      end) with over_30.
    rewrite filter_map_swap, map_map. reflexivity. }
  assert (Hin : forall c, In c (df_columns df) -> (30 < pct c)%Q ->
                          In (col_name c) (high_missing_cols flags)).
  { intros c Hc Hp. rewrite Hcols. apply in_map. apply filter_In.
    split; [assumption | now apply over_30_iff]. }
  assert (Hexact : forall c (p : Z), 0 < n ->
             (100 * missing c = p * Z.of_nat n)%Z -> (pct c == inject_Z p)%Q).
  { intros c p Hn Hr. unfold pct. cbn [dd_missing_pct dict_row].
    rewrite (round_two_comp tie_up _ _ (missing_pct_raw_ratio _ n p Hn Hr)).
    apply round_two_integer. }
  split; [| split; [exact Hcols | split; [exact Hin | split; [| split]]]].
  - unfold flags, quality_flags. cbn [high_missing_cols].
    rewrite has_key_loc_column. unfold loc_column. f_equal.
    apply filter_ext. intros r.
    destruct (Qlt_le_dec 30 (dd_missing_pct r)) as [H | H];
      destruct (Qcompare_spec 30 (dd_missing_pct r)) as [H' | H' | H'];
      try reflexivity; exfalso; lra.
  - intros name Hname. rewrite Hcols in Hname.
    apply in_map_iff in Hname. destruct Hname as (c & Hcn & Hc).
    apply filter_In in Hc. destruct Hc as [Hc Ho].
    exists c. repeat split; auto. now apply over_30_iff.
  - intros c Hc Hn Hr. pose proof (Hexact c 35%Z Hn Hr) as Hp.
    change (inject_Z 35) with 35%Q in Hp.
    split; [exact Hp |]. apply Hin; [assumption |]. rewrite Hp. reflexivity.
  - intros c Hc Hn Hr. pose proof (Hexact c 30%Z Hn Hr) as Hp.
    change (inject_Z 30) with 30%Q in Hp.
    assert (Hno : over_30 (dict_row tie_up n c) = false).
    { destruct (over_30 (dict_row tie_up n c)) eqn:E; [| reflexivity].
      apply over_30_iff in E. fold (pct c) in E. exfalso. lra. }
    split; [exact Hp | split].
    + intros Hf. apply filter_In in Hf. destruct Hf as [_ Hf]. congruence.
    + intros Hnd Hname. rewrite Hcols in Hname.
      apply in_map_iff in Hname. destruct Hname as (c' & Hcn & Hc').
      apply filter_In in Hc'. destruct Hc' as [Hc' Ho].
      assert (c' = c) by (eapply NoDup_map_eq; eauto).
      subst c'. congruence.
Qed.

(** C1, as the code has it.  For every table with [row_count > 0] the
    columns listed in [suspected_id_like] are those whose unique-value
    count is at least [max(2, floor(0.9 * row_count))]: [int] truncates
    the product, it does not round it up.  With no rows the list is
    empty. *)
Theorem suspected_id_floor_threshold (df : DataFrame) :
  let n := Frame.len df in
  let dd := data_dictionary tie_up df in
  let flags := quality_flags df dd in
  let threshold := Z.max 2 (9 * Z.of_nat n / 10) in
  let reaches (c : Column) :=
    (threshold <=? Z.of_nat (Frame.nunique (col_values c)))%Z in
  id_threshold n = threshold
  /\ (0 < n ->
      suspected_id_like flags = map col_name (filter reaches (df_columns df))
      /\ (forall c, In c (df_columns df) ->
                    (threshold <= Z.of_nat (Frame.nunique (col_values c)))%Z ->
                    In (col_name c) (suspected_id_like flags))
      /\ (forall name,
            In name (suspected_id_like flags) ->
            exists c,
              In c (df_columns df) /\ col_name c = name
              /\ (threshold <= Z.of_nat (Frame.nunique (col_values c)))%Z))
  /\ (n = 0 -> suspected_id_like flags = []).
Proof.
  intros n dd flags threshold reaches.
  split; [apply id_threshold_floor |]. split.
  - intros Hn.
    assert (Hcols : suspected_id_like flags
                    = map col_name (filter reaches (df_columns df))).
    { unfold flags, quality_flags. cbn [suspected_id_like]. fold n.
      destruct (Nat.ltb_spec 0 n) as [_ | H]; [| lia]. cbn [andb].
      rewrite has_key_loc_column. unfold loc_column, dd, data_dictionary.
      fold n. rewrite filter_map_swap, map_map. cbn [dd_column dd_nunique dict_row].
      rewrite id_threshold_floor. reflexivity. }
    split; [exact Hcols | split].
    + intros c Hc Hr. rewrite Hcols. apply in_map. apply filter_In.
      split; [assumption |]. unfold reaches. now apply Z.leb_le.
    + intros name Hname. rewrite Hcols in Hname.
      apply in_map_iff in Hname. destruct Hname as (c & Hcn & Hc).
      apply filter_In in Hc. destruct Hc as [Hc Hr].
      exists c. repeat split; auto. unfold reaches in Hr. now apply Z.leb_le in Hr.
  - intros Hn. unfold flags, quality_flags. cbn [suspected_id_like]. fold n.
    now rewrite Hn.
Qed.

(** C10.  A column whose cells are all missing has a recorded
    unique-value count of 0, missing cells being left out of the count,
    and is therefore listed in [constant_cols]. *)
Theorem all_missing_column_is_constant (df : DataFrame) (c : Column) :
  In c (df_columns df) ->
  Forall (fun x : cell => x = None) (col_values c) ->
  let r := dict_row tie_up (Frame.len df) c in
  let dd := data_dictionary tie_up df in
  In r dd
  /\ dd_column r = col_name c
  /\ Frame.dropna (col_values c) = []
  /\ dd_nunique r = 0
  /\ In (col_name c) (constant_cols (quality_flags df dd)).
Proof.
  intros Hc Hall r dd.
  assert (Hdrop : Frame.dropna (col_values c) = []).
  { induction Hall as [| x l Hx _ IH]; [reflexivity |]. subst x. exact IH. }
  assert (Hnu : dd_nunique r = 0).
  { unfold r. cbn [dd_nunique dict_row]. unfold Frame.nunique.
    now rewrite Hdrop. }
  assert (Hr : In r dd) by (now apply in_data_dictionary).
  repeat split; try assumption; try reflexivity.
  unfold quality_flags. cbn [constant_cols].
  rewrite has_key_loc_column. unfold loc_column.
  change (col_name c) with (dd_column r). apply in_map. apply filter_In.
  split; [exact Hr |]. now rewrite Hnu.
Qed.

End Flags.

(** The unique-value count of a series is the number of its distinct
    values that are not missing. *)
Lemma nunique_distinct (s : list cell) :
  Frame.nunique s = distinct value_eq_dec (Frame.dropna s).
Proof. unfold Frame.nunique, Frame.unique. apply unique_length. Qed.

(* ------------------------------------------------------------------ *)
(** ** Duplicate rows                                                  *)
(* ------------------------------------------------------------------ *)

(** Counting the marks of a boolean series by position. *)
Lemma sum_by_position (bs : list bool) :
  Frame.sum bs
  = List.length (filter (fun i => nth i bs false) (seq 0 (List.length bs))).
Proof.
  unfold Frame.sum. induction bs as [| b bs IH]; [reflexivity |].
  cbn [List.length seq filter nth].
  rewrite <- seq_shift, filter_map_swap.
  destruct b; cbn [List.length]; rewrite length_map; cbn [nth]; now rewrite IH.
Qed.

Lemma In_firstn_nth {A : Type} (d x : A) (l : list A) :
  forall i, i <= List.length l ->
            (In x (firstn i l) <-> exists j, j < i /\ nth j l d = x).
Proof.
  induction l as [| a l IH]; intros i Hi; simpl in Hi.
  - assert (i = 0) by lia. subst i. simpl. split; [contradiction |].
    intros (j & Hj & _). lia.
  - destruct i as [| i]; simpl.
    + split; [contradiction |]. intros (j & Hj & _). lia.
    + rewrite (IH i) by lia. split.
      * intros [H | (j & Hj & Hn)].
        -- exists 0. split; [lia | exact H].
        -- exists (S j). split; [lia | exact Hn].
      * intros (j & Hj & Hn). destruct j as [| j].
        -- now left.
        -- right. exists j. split; [lia | exact Hn].
Qed.

Lemma duplicated_scan (df : DataFrame) :
  df_columns df <> [] ->
  Frame.duplicated df = duplicated_from row_eq_dec [] (Frame.rows df).
Proof.
  intros Hcols. unfold Frame.duplicated, Frame.empty, Frame.rows.
  destruct (index_len df) as [| n]; [reflexivity |].
  destruct (df_columns df) as [| c cs]; [contradiction | reflexivity].
Qed.

(** The marks of the scan are the specification's positions. *)
Lemma duplicated_from_spec (rs : list row) :
  Frame.sum (duplicated_from row_eq_dec [] rs) = spec_duplicate_rows rs.
Proof.
  rewrite sum_by_position, duplicated_from_length. unfold spec_duplicate_rows.
  f_equal. apply filter_ext_in. intros i Hi. apply in_seq in Hi.
  rewrite (duplicated_from_nth row_eq_dec [] rs [] i) by lia.
  cbn [app].
  assert (Hle : i <= List.length rs) by lia.
  destruct (mem row_eq_dec (nth i rs []) (firstn i rs)) eqn:Hm; symmetry.
  - apply mem_true in Hm.
    destruct (proj1 (In_firstn_nth [] (nth i rs []) rs i Hle) Hm) as (j & Hj & Hn).
    apply existsb_exists.
    exists j. split; [apply in_seq; lia |].
    destruct (row_eq_dec (nth j rs []) (nth i rs [])); [reflexivity | contradiction].
  - apply mem_false in Hm.
    destruct (existsb _ (seq 0 i)) eqn:He; [| reflexivity].
    apply existsb_exists in He. destruct He as (j & Hj & Heq).
    apply in_seq in Hj.
    destruct (row_eq_dec (nth j rs []) (nth i rs [])) as [E | _]; [| discriminate].
    exfalso. apply Hm. apply (In_firstn_nth [] (nth i rs []) rs i Hle).
    exists j. split; [lia | exact E].
Qed.

(** The count of the flagger, for a frame with a column. *)
Lemma duplicate_rows_scan (df : DataFrame) (dd : list DictRow) :
  df_columns df <> [] ->
  let rs := Frame.rows df in
  let flags := quality_flags df dd in
  duplicate_rows flags = spec_duplicate_rows rs
  /\ duplicate_rows flags = spec_duplicate_groups rs
  /\ duplicate_rows flags = List.length rs - distinct row_eq_dec rs.
Proof.
  intros Hcols rs flags.
  assert (Hdup : duplicate_rows flags = Frame.sum (duplicated_from row_eq_dec [] rs)).
  { unfold flags, quality_flags. cbn [duplicate_rows].
    now rewrite (duplicated_scan df Hcols). }
  assert (Hcount : duplicate_rows flags = List.length rs - distinct row_eq_dec rs).
  { rewrite Hdup. unfold Frame.sum.
    pose proof (duplicated_from_count row_eq_dec rs []) as H.
    rewrite unique_length in H. lia. }
  split; [rewrite Hdup; apply duplicated_from_spec |].
  split; [rewrite Hcount; unfold spec_duplicate_groups;
          symmetry; apply groups_minus_one |].
  exact Hcount.
Qed.

(** The marks of [duplicated], row by row. *)
Lemma duplicated_nth (df : DataFrame) (i : nat) :
  df_columns df <> [] ->
  i < List.length (Frame.rows df) ->
  (nth i (Frame.duplicated df) false = true
   <-> exists j, j < i /\ nth j (Frame.rows df) [] = nth i (Frame.rows df) []).
Proof.
  intros Hcols Hi. rewrite (duplicated_scan df Hcols).
  rewrite (duplicated_from_nth row_eq_dec [] (Frame.rows df) [] i Hi). cbn [app].
  rewrite mem_true.
  apply (In_firstn_nth [] (nth i (Frame.rows df) []) (Frame.rows df) i).
  apply Nat.lt_le_incl. exact Hi.
Qed.

(* ------------------------------------------------------------------ *)
(** ** Column names                                                    *)
(* ------------------------------------------------------------------ *)

Lemma lstrip_trimmed (s : string) : trimmed s = true -> PyStr.lstrip s = s.
Proof.
  destruct s as [| c s]; [reflexivity |]. unfold trimmed.
  destruct (last_char (String c s)) as [d |] eqn:Hl.
  - intros H. apply andb_prop in H. destruct H as [Hc _].
    apply negb_true_iff in Hc. simpl. now rewrite Hc.
  - exfalso. clear -Hl. revert c Hl.
    induction s as [| c' s IH]; intros c Hl; simpl in Hl; [discriminate |].
    exact (IH c' Hl).
Qed.

Lemma rstrip_last (s : string) (d : ascii) :
  last_char s = Some d -> PyStr.isspace d = false -> PyStr.rstrip s = s.
Proof.
  induction s as [| c s IH]; intros Hl Hd; [reflexivity |].
  destruct s as [| c' s'].
  - simpl in Hl. injection Hl as ->. simpl. now rewrite Hd.
  - change (last_char (String c (String c' s'))) with (last_char (String c' s')) in Hl.
    specialize (IH Hl Hd).
    change (PyStr.rstrip (String c (String c' s')))
      with (match PyStr.rstrip (String c' s') with
            | EmptyString =>
                if PyStr.isspace c then EmptyString else String c EmptyString
            | r => String c r
            end).
    now rewrite IH.
Qed.

Lemma strip_trimmed (s : string) : trimmed s = true -> PyStr.strip s = s.
Proof.
  intros H. unfold PyStr.strip. rewrite (lstrip_trimmed s H).
  destruct s as [| c s]; [reflexivity |]. unfold trimmed in H.
  destruct (last_char (String c s)) as [d |] eqn:Hl.
  - apply andb_prop in H. destruct H as [_ Hd]. apply negb_true_iff in Hd.
    exact (rstrip_last _ d Hl Hd).
  - exfalso. clear -Hl. revert c Hl.
    induction s as [| c' s IH]; intros c Hl; simpl in Hl; [discriminate |].
    exact (IH c' Hl).
Qed.


Lemma columns_normalize (df : DataFrame) :
  Frame.columns (normalize_columns df) = map normalize_name (Frame.columns df).
Proof.
  unfold Frame.columns, normalize_columns. cbn [df_columns].
  now rewrite !map_map.
Qed.

Lemma columns_select (keep : string -> bool) (df : DataFrame) :
  Frame.columns (Frame.select keep df) = filter keep (Frame.columns df).
Proof.
  unfold Frame.columns, Frame.select. cbn [df_columns].
  now rewrite filter_map_swap.
Qed.

Lemma kept_names_cases (loaded : DataFrame) :
  kept_names loaded
  = if forallb truthy (map contains_unnamed (df_columns loaded))
    then Frame.columns loaded
    else filter (fun name => negb (is_unnamed name)) (Frame.columns loaded).
Proof.
  unfold kept_names, clean_unnamed.
  destruct (forallb truthy (map contains_unnamed (df_columns loaded)));
    cbn [fst]; [reflexivity | apply columns_select].
Qed.

Lemma normalized_names (loaded : DataFrame) :
  Frame.columns (normalized loaded) = map normalize_name (kept_names loaded).
Proof. unfold normalized, kept_names. apply columns_normalize. Qed.


(* ------------------------------------------------------------------ *)
(** ** Orchestration                                                   *)
(* ------------------------------------------------------------------ *)

Lemma mask_false_filter (cols : list Column) :
  forallb truthy (map contains_unnamed cols) = false ->
  filter (fun c => negb (is_unnamed (col_name c))) cols <> [].
Proof.
  induction cols as [| c cols IH]; cbn [map forallb filter]; [discriminate |].
  unfold contains_unnamed at 1.
  destruct (col_is_str c), (is_unnamed (col_name c)); cbn [truthy andb negb];
    try exact IH; intros _; discriminate.
Qed.

(** Cleaning never removes every column. *)
Lemma kept_names_nil (loaded : DataFrame) :
  kept_names loaded = [] -> df_columns loaded = [].
Proof.
  rewrite kept_names_cases.
  destruct (forallb truthy (map contains_unnamed (df_columns loaded))) eqn:Hall.
  - unfold Frame.columns. apply map_eq_nil.
  - intros H. exfalso. unfold Frame.columns in H.
    rewrite filter_map_swap in H. apply map_eq_nil in H.
    exact (mask_false_filter _ Hall H).
Qed.

Lemma normalized_nil (loaded : DataFrame) :
  df_columns (normalized loaded) = [] -> df_columns loaded = [].
Proof.
  intros H. apply kept_names_nil. unfold kept_names, Frame.columns.
  unfold normalized, normalize_columns in H. cbn [df_columns] in H.
  apply map_eq_nil in H. now rewrite H.
Qed.

Lemma normalized_of_empty (loaded : DataFrame) :
  df_columns loaded = [] -> df_columns (normalized loaded) = [].
Proof.
  destruct loaded as [n cols]. cbn [df_columns]. intros ->. reflexivity.
Qed.

(** The accessor [df.columns.str] raises on a frame without columns. *)
Lemma cleaning_error_no_columns (loaded : DataFrame) :
  df_columns loaded = [] -> cleaning_error loaded = Some AttributeError.
Proof. unfold cleaning_error. now intros ->. Qed.

Lemma cleaning_passed_columns (loaded : DataFrame) :
  cleaning_error loaded = None -> df_columns (normalized loaded) <> [].
Proof.
  intros Hok Hnil. apply normalized_nil in Hnil.
  rewrite (cleaning_error_no_columns loaded Hnil) in Hok. discriminate.
Qed.

(** A frame whose labels are strings, and that has a column, passes the
    cleaning step. *)
Lemma cleaning_error_strings (loaded : DataFrame) :
  df_columns loaded <> [] ->
  forallb col_is_str (df_columns loaded) = true ->
  cleaning_error loaded = None.
Proof.
  intros Hne Hstr. unfold cleaning_error.
  assert (Hsome : existsb col_is_str (df_columns loaded) = true).
  { destruct (df_columns loaded) as [| c cs]; [contradiction |].
    cbn [forallb existsb] in *. apply andb_prop in Hstr.
    destruct Hstr as [-> _]. reflexivity. }
  rewrite Hsome. cbn [negb].
  destruct (forallb truthy (map contains_unnamed (df_columns loaded)));
    [reflexivity |].
  assert (Hnan : existsb is_nan (map contains_unnamed (df_columns loaded)) = false).
  { clear -Hstr. induction (df_columns loaded) as [| c cs IH]; [reflexivity |].
    cbn [forallb map existsb] in *. apply andb_prop in Hstr.
    destruct Hstr as [Hc Hcs]. unfold contains_unnamed at 1. rewrite Hc.
    cbn [is_nan orb]. now apply IH. }
  now rewrite Hnan.
Qed.

Lemma and_then_Forall (P : event -> Prop) (a b : list event) :
  Forall P a -> Forall P b -> Forall P (and_then a b).
Proof.
  intros Ha Hb. unfold and_then.
  destruct (existsb is_raised a); [exact Ha | now apply Forall_app].
Qed.

Lemma filter_and_then (p : event -> bool) (a b : list event) :
  filter p b = [] -> filter p (and_then a b) = filter p a.
Proof.
  intros Hb. unfold and_then. destruct (existsb is_raised a); [reflexivity |].
  now rewrite filter_app, Hb, app_nil_r.
Qed.

Section Orchestration.

Variable tie_up : Z -> bool.
Variable write_fails : string -> bool.

Lemma plot_missing_bar_derived (df : DataFrame) (outfile : string) :
  Forall (derived_from tie_up df) (plot_missing_bar df outfile).
Proof.
  unfold plot_missing_bar.
  destruct (List.length (Frame.columns df) =? 0)%nat; repeat constructor.
Qed.

Lemma plot_histograms_derived (df : DataFrame) (outdir : string) (k : Z) :
  Forall (derived_from tie_up df) (plot_histograms df outdir k).
Proof.
  unfold plot_histograms.
  destruct (snd (Frame.shape (Frame.select_number df)) =? 0)%nat; [constructor |].
  destruct (_grid_size _). repeat constructor. now exists k.
Qed.

Lemma plot_boxplots_derived (df : DataFrame) (outdir : string) (k : Z) :
  Forall (derived_from tie_up df) (plot_boxplots df outdir k).
Proof.
  unfold plot_boxplots.
  destruct (snd (Frame.shape (Frame.select_number df)) =? 0)%nat; [constructor |].
  destruct (_grid_size _). repeat constructor. now exists k.
Qed.

Lemma plot_correlation_derived (df : DataFrame) (outfile : string) :
  Forall (derived_from tie_up df) (plot_correlation df outfile).
Proof.
  unfold plot_correlation.
  destruct (snd (Frame.shape (Frame.select_number df)) <? 2)%nat; repeat constructor.
Qed.

Lemma write_value_counts_derived (df : DataFrame) (names : list string) :
  (forall c, In c names -> In c (Frame.columns (Frame.exclude_number df))) ->
  Forall (derived_from tie_up df) (write_value_counts write_fails names).
Proof.
  induction names as [| c cs IH]; intros Hin; cbn [write_value_counts];
    [constructor |].
  destruct (write_fails _); [repeat constructor |].
  constructor; [apply Hin; now left | apply IH; intros x Hx; apply Hin; now right].
Qed.

Lemma report_derived (args : Args) (df : DataFrame) :
  Forall (derived_from tie_up df) (report tie_up write_fails args df).
Proof.
  unfold report.
  destruct (is_unique (Frame.columns df)); cbn [negb]; [| repeat constructor].
  repeat (apply Forall_app; split).
  - repeat constructor.
  - apply plot_missing_bar_derived.
  - apply plot_histograms_derived.
  - apply plot_boxplots_derived.
  - apply plot_correlation_derived.
  - destruct (0 <? snd (Frame.shape (Frame.select_number df)))%nat;
      repeat constructor.
  - apply write_value_counts_derived. auto.
Qed.

(** The run that the cleaning step ends. *)
Lemma main_raise (args : Args) (loaded : DataFrame) (e : exn) :
  cleaning_error loaded = Some e ->
  main tie_up write_fails args loaded
  = [MakeDirs "reports"; MakeDirs "reports/figures"; MakeDirs "data/interim";
     Log INFO (MsgReading (input args));
     Raised e].
Proof. intros H. unfold main. now rewrite H. Qed.

(** The run that passes the cleaning step. *)
Lemma main_clean (args : Args) (loaded : DataFrame) :
  cleaning_error loaded = None ->
  let df := normalized loaded in
  main tie_up write_fails args loaded
  = [MakeDirs "reports"; MakeDirs "reports/figures"; MakeDirs "data/interim";
     Log INFO (MsgReading (input args))]
    ++ snd (clean_unnamed loaded)
    ++ [SampleToCsv "data/interim/sample_head.csv" (Frame.head 100 df);
        Log INFO (MsgShape (index_len df) (List.length (df_columns df)));
        Log INFO (MsgFirstColumns (firstn 5 (Frame.columns df)))]
    ++ and_then (report tie_up write_fails args df) [Log INFO MsgDone].
Proof.
  intros Hok df. pose proof (cleaning_passed_columns loaded Hok) as Hcols.
  subst df. unfold main, normalized in *. rewrite Hok.
  destruct (clean_unnamed loaded) as [d cleaning_log]. cbn [fst snd] in *.
  unfold data_overview, Frame.shape. cbn [ov_rows ov_cols ov_columns].
  destruct (df_columns (normalize_columns d)) as [| c cs] eqn:E;
    [contradiction |].
  reflexivity.
Qed.

(** The run on a table without columns. *)
Lemma main_without_columns (args : Args) (loaded : DataFrame) :
  df_columns loaded = [] ->
  main tie_up write_fails args loaded
  = [MakeDirs "reports"; MakeDirs "reports/figures"; MakeDirs "data/interim";
     Log INFO (MsgReading (input args));
     Raised AttributeError].
Proof. intros H. apply main_raise. now apply cleaning_error_no_columns. Qed.

Lemma cleaning_log_derived (df loaded : DataFrame) :
  Forall (derived_from tie_up df) (snd (clean_unnamed loaded)).
Proof.
  unfold clean_unnamed.
  destruct (forallb truthy (map contains_unnamed (df_columns loaded)));
    repeat constructor.
Qed.

(** Everything [main] logs or writes after the cleaning step carries a
    structure computed from the normalized frame. *)
Lemma main_derived (args : Args) (loaded : DataFrame) :
  Forall (derived_from tie_up (normalized loaded))
         (main tie_up write_fails args loaded).
Proof.
  destruct (cleaning_error loaded) as [e |] eqn:Hclean.
  - rewrite (main_raise args loaded e Hclean). repeat constructor.
  - rewrite (main_clean args loaded Hclean). cbv zeta.
    repeat (apply Forall_app; split); try (repeat constructor; fail).
    + apply cleaning_log_derived.
    + apply and_then_Forall; [apply report_derived | repeat constructor].
Qed.

Lemma plot_missing_bar_quiet (df : DataFrame) (outfile : string) :
  filter is_warning (plot_missing_bar df outfile) = [].
Proof.
  unfold plot_missing_bar.
  now destruct (List.length (Frame.columns df) =? 0)%nat.
Qed.

Lemma plot_histograms_quiet (df : DataFrame) (outdir : string) (k : Z) :
  filter is_warning (plot_histograms df outdir k) = [].
Proof.
  unfold plot_histograms.
  destruct (snd (Frame.shape (Frame.select_number df)) =? 0)%nat; [reflexivity |].
  now destruct (_grid_size _).
Qed.

Lemma plot_boxplots_quiet (df : DataFrame) (outdir : string) (k : Z) :
  filter is_warning (plot_boxplots df outdir k) = [].
Proof.
  unfold plot_boxplots.
  destruct (snd (Frame.shape (Frame.select_number df)) =? 0)%nat; [reflexivity |].
  now destruct (_grid_size _).
Qed.

Lemma plot_correlation_quiet (df : DataFrame) (outfile : string) :
  filter is_warning (plot_correlation df outfile) = [].
Proof.
  unfold plot_correlation.
  now destruct (snd (Frame.shape (Frame.select_number df)) <? 2)%nat.
Qed.

Lemma write_value_counts_quiet (names : list string) :
  filter is_warning (write_value_counts write_fails names) = [].
Proof.
  induction names as [| c cs IH]; [reflexivity |].
  cbn [write_value_counts]. destruct (write_fails _); [reflexivity | exact IH].
Qed.

Lemma report_quiet (args : Args) (df : DataFrame) :
  filter is_warning (report tie_up write_fails args df) = [].
Proof.
  unfold report.
  destruct (is_unique (Frame.columns df)); cbn [negb]; [| reflexivity].
  rewrite !filter_app.
  rewrite plot_missing_bar_quiet, plot_histograms_quiet, plot_boxplots_quiet,
    plot_correlation_quiet, write_value_counts_quiet.
  cbn [filter is_warning app].
  now destruct (0 <? snd (Frame.shape (Frame.select_number df)))%nat.
Qed.

(** The warnings of a run are those of the cleaning step, when the run
    passes it. *)
Lemma main_warnings (args : Args) (loaded : DataFrame) :
  cleaning_error loaded = None ->
  filter is_warning (main tie_up write_fails args loaded)
  = snd (clean_unnamed loaded).
Proof.
  intros Hok. rewrite (main_clean args loaded Hok). cbv zeta.
  rewrite !filter_app, (filter_and_then is_warning _ [Log INFO MsgDone] eq_refl),
      report_quiet.
  unfold clean_unnamed.
  destruct (forallb truthy (map contains_unnamed (df_columns loaded)));
    reflexivity.
Qed.

Lemma plot_missing_bar_no_error (df : DataFrame) (outfile : string) :
  filter is_error (plot_missing_bar df outfile) = [].
Proof.
  unfold plot_missing_bar.
  now destruct (List.length (Frame.columns df) =? 0)%nat.
Qed.

Lemma plot_histograms_no_error (df : DataFrame) (outdir : string) (k : Z) :
  filter is_error (plot_histograms df outdir k) = [].
Proof.
  unfold plot_histograms.
  destruct (snd (Frame.shape (Frame.select_number df)) =? 0)%nat; [reflexivity |].
  now destruct (_grid_size _).
Qed.

Lemma plot_boxplots_no_error (df : DataFrame) (outdir : string) (k : Z) :
  filter is_error (plot_boxplots df outdir k) = [].
Proof.
  unfold plot_boxplots.
  destruct (snd (Frame.shape (Frame.select_number df)) =? 0)%nat; [reflexivity |].
  now destruct (_grid_size _).
Qed.

Lemma plot_correlation_no_error (df : DataFrame) (outfile : string) :
  filter is_error (plot_correlation df outfile) = [].
Proof.
  unfold plot_correlation.
  now destruct (snd (Frame.shape (Frame.select_number df)) <? 2)%nat.
Qed.

Lemma write_value_counts_no_error (names : list string) :
  filter is_error (write_value_counts write_fails names) = [].
Proof.
  induction names as [| c cs IH]; [reflexivity |].
  cbn [write_value_counts]. destruct (write_fails _); [reflexivity | exact IH].
Qed.

Lemma report_no_error (args : Args) (df : DataFrame) :
  filter is_error (report tie_up write_fails args df) = [].
Proof.
  unfold report.
  destruct (is_unique (Frame.columns df)); cbn [negb]; [| reflexivity].
  rewrite !filter_app.
  rewrite plot_missing_bar_no_error, plot_histograms_no_error,
    plot_boxplots_no_error, plot_correlation_no_error,
    write_value_counts_no_error.
  cbn [filter is_error app].
  now destruct (0 <? snd (Frame.shape (Frame.select_number df)))%nat.
Qed.

(** No run logs an error. *)
Lemma main_no_error (args : Args) (loaded : DataFrame) :
  filter is_error (main tie_up write_fails args loaded) = [].
Proof.
  destruct (cleaning_error loaded) as [e |] eqn:Hclean.
  - now rewrite (main_raise args loaded e Hclean).
  - rewrite (main_clean args loaded Hclean). cbv zeta.
    rewrite !filter_app, (filter_and_then is_error _ [Log INFO MsgDone] eq_refl),
      report_no_error.
    unfold clean_unnamed.
    destruct (forallb truthy (map contains_unnamed (df_columns loaded)));
      reflexivity.
Qed.

(** C2.  The normalized names are the kept names, each stripped and with
    its spaces replaced by underscores, and nothing keeps two of them
    apart: the loaded names [a b] and [a_b] are different and both become
    [a_b].  The run on that table writes the sample, logs the overview
    and is then ended by [data_dictionary], which raises an
    [AttributeError] on a name that occurs twice. *)
Theorem normalized_names_clash (args : Args) :
  (forall loaded : DataFrame,
      Frame.columns (normalized loaded) = map normalize_name (kept_names loaded))
  /\ cleaning_error clashing_names = None
  /\ NoDup (Frame.columns clashing_names)
  /\ Frame.columns (normalized clashing_names) = ["a_b"; "a_b"]
  /\ ~ NoDup (Frame.columns (normalized clashing_names))
  /\ main tie_up write_fails args clashing_names
     = [MakeDirs "reports"; MakeDirs "reports/figures"; MakeDirs "data/interim";
        Log INFO (MsgReading (input args));
        SampleToCsv "data/interim/sample_head.csv"
                    (Frame.head 100 (normalized clashing_names));
        Log INFO (MsgShape 1 2);
        Log INFO (MsgFirstColumns ["a_b"; "a_b"]);
        Raised AttributeError].
Proof.
  split; [exact normalized_names |].
  split; [reflexivity |].
  split; [repeat constructor; simpl; intuition discriminate |].
  split; [reflexivity |].
  split; [| reflexivity].
  intros H. inversion H as [| x l Hx _]; subst. apply Hx. now left.
Qed.

(** C7.  The normalized table has no column exactly when the loaded one
    has none.  On such a table the run is ended by the [AttributeError]
    of [df.columns.str], before the sample is written and before the
    overview: nothing is written, none of the dictionary, flags, charts
    or profiling tables among it, and no error is logged.  The branch of
    [main] that logs the error is never taken: no run logs one. *)
Theorem no_columns_run_raises (args : Args) (loaded : DataFrame) :
  (df_columns (normalized loaded) = [] <-> df_columns loaded = [])
  /\ (df_columns (normalized loaded) = [] ->
      main tie_up write_fails args loaded
      = [MakeDirs "reports"; MakeDirs "reports/figures"; MakeDirs "data/interim";
         Log INFO (MsgReading (input args));
         Raised AttributeError]
      /\ ~ In (Log ERROR MsgNoColumns) (main tie_up write_fails args loaded)
      /\ Forall (fun e => report_output e = false)
                (main tie_up write_fails args loaded)
      /\ files_written (main tie_up write_fails args loaded) = [])
  /\ filter is_error (main tie_up write_fails args loaded) = [].
Proof.
  split; [split; [apply normalized_nil | apply normalized_of_empty] |].
  split; [| apply main_no_error].
  intros Hnone. apply normalized_nil in Hnone.
  rewrite (main_without_columns args loaded Hnone).
  split; [reflexivity |]. split; [| split; [repeat constructor | reflexivity]].
  simpl. intuition discriminate.
Qed.

(** C8.  A workbook header with an empty cell and a year gives the
    labels [Unnamed: 0], a string, and [2019], an integer.  The search
    for the pattern gives NaN at the integer, which [all] takes for true:
    the step logs the warning and leaves the table as it is, the column
    [Unnamed: 0] goes into the normalized table and into the dictionary,
    although not every name matches the pattern.  With a label that does
    not match next to the integer, the negation of the mask ends the run
    with a [TypeError]; with integers only, the accessor [str] ends it
    with an [AttributeError]. *)
Theorem unnamed_cleaning_mixed_labels (args : Args) :
  map contains_unnamed (df_columns year_header) = [Some true; None]
  /\ forallb is_unnamed (Frame.columns year_header) = false
  /\ cleaning_error year_header = None
  /\ clean_unnamed year_header = (year_header, [Log WARNING MsgAllUnnamed])
  /\ filter is_warning (main tie_up write_fails args year_header)
     = [Log WARNING MsgAllUnnamed]
  /\ Frame.columns (normalized year_header) = ["Unnamed:_0"; "2019"]
  /\ In (DictionaryToCsv "reports/data_dictionary.csv"
                         (data_dictionary tie_up (normalized year_header)))
        (main tie_up write_fails args year_header)
  /\ map dd_column (data_dictionary tie_up (normalized year_header))
     = ["Unnamed:_0"; "2019"]
  /\ main tie_up write_fails args name_and_year
     = [MakeDirs "reports"; MakeDirs "reports/figures"; MakeDirs "data/interim";
        Log INFO (MsgReading (input args));
        Raised TypeError]
  /\ main tie_up write_fails args years_only
     = [MakeDirs "reports"; MakeDirs "reports/figures"; MakeDirs "data/interim";
        Log INFO (MsgReading (input args));
        Raised AttributeError].
Proof.
  repeat split; try reflexivity.
  - now rewrite (main_warnings args year_header eq_refl).
  - rewrite (main_clean args year_header eq_refl). cbv zeta.
    apply in_or_app. right. apply in_or_app. right. apply in_or_app. right.
    unfold and_then, report.
    change (is_unique (Frame.columns (normalized year_header))) with true.
    cbn [negb].
    match goal with
    | |- In ?x (if ?b then ?l else ?l ++ ?t) =>
        assert (Hin : In x l) by (now left);
        destruct b; [exact Hin | apply in_or_app; now left]
    end.
Qed.

(** C9.  The [duplicate_rows] of the quality flags of a table is the
    number of its rows equal to some earlier row; each group of identical
    rows gives its size minus one, its first occurrence not being
    counted.  This holds of the flagger on every table with a column, and
    so of the quality flags a run writes, whatever the loaded table. *)
Theorem duplicate_rows_counts_repeats :
  (forall (df : DataFrame) (dd : list DictRow),
      df_columns df <> [] ->
      let rs := Frame.rows df in
      let flags := quality_flags df dd in
      duplicate_rows flags = spec_duplicate_rows rs
      /\ duplicate_rows flags = spec_duplicate_groups rs
      /\ duplicate_rows flags = List.length rs - distinct row_eq_dec rs
      /\ (forall i, i < List.length rs ->
             (nth i (Frame.duplicated df) false = true
              <-> exists j, j < i /\ nth j rs [] = nth i rs [])))
  /\ (forall (args : Args) (loaded : DataFrame) (path : string) (flags : QualityFlags),
        In (JsonDump path flags) (main tie_up write_fails args loaded) ->
        let rs := Frame.rows (normalized loaded) in
        duplicate_rows flags = spec_duplicate_rows rs
        /\ duplicate_rows flags = spec_duplicate_groups rs).
Proof.
  split.
  - intros df dd Hcols rs flags.
    destruct (duplicate_rows_scan df dd Hcols) as (H1 & H2 & H3).
    repeat split; try assumption.
    + now apply duplicated_nth.
    + now apply duplicated_nth.
  - intros args loaded path flags Hin rs.
    assert (Hcols : df_columns (normalized loaded) <> []).
    { intros Hnone. apply normalized_nil in Hnone.
      rewrite (main_without_columns args loaded Hnone) in Hin.
      simpl in Hin. intuition discriminate. }
    pose proof (main_derived args loaded) as Hder.
    rewrite Forall_forall in Hder. specialize (Hder _ Hin).
    cbn [derived_from] in Hder. subst flags.
    destruct (duplicate_rows_scan (normalized loaded)
                (data_dictionary tie_up (normalized loaded)) Hcols) as (H1 & H2 & _).
    split; assumption.
Qed.

End Orchestration.

(* ------------------------------------------------------------------ *)
(** ** The exact reading against binary64                              *)
(* ------------------------------------------------------------------ *)

(** For up to 3000 rows the float product [n * 0.9] truncates to the
    integer the exact reading gives. *)
Lemma binary64_id_threshold :
  forallb (fun n => (Binary64.id_threshold n =? id_threshold (Z.to_nat n))%Z)
          (Binary64.zrange 0 3001) = true.
Proof. vm_compute. reflexivity. Qed.

(** For up to 120 rows and every number of missing cells, binary64
    records the percentage of the model, the model taking at a tie the
    direction binary64 takes. *)
Lemma binary64_missing_pct :
  forallb (fun n =>
             forallb (fun m =>
                        Qeq_bool (Binary64.missing_pct m n)
                                 (PyNum.round Binary64.tie_up
                                    (missing_pct_raw (Z.to_nat m) (Z.to_nat n)) 2))
                     (Binary64.zrange 0 (S (Z.to_nat n))))
          (Binary64.zrange 0 121) = true.
Proof. vm_compute. reflexivity. Qed.

(** At 23 missing cells of 160 the exact percentage is 14.375: binary64
    records 14.37, and rounding the exact value to even would give
    14.38. *)
Lemma binary64_tie :
  (Binary64.missing_pct 23 160 == 1437 # 100)%Q
  /\ (PyNum.round PyNum.half_even (missing_pct_raw 23 160) 2 == 1438 # 100)%Q
  /\ (PyNum.round Binary64.tie_up (missing_pct_raw 23 160) 2 == 1437 # 100)%Q.
Proof. repeat split; vm_compute; reflexivity. Qed.

(** For up to 2000 charts binary64 gives the grid of the model. *)
Lemma binary64_grid_size :
  forallb (fun k =>
             let '(r, c) := Binary64.grid_size k in
             let '(r', c') := _grid_size k in
             (r =? r')%Z && (c =? c')%Z)
          (Binary64.zrange 0 2001) = true.
Proof. vm_compute. reflexivity. Qed.

(* ------------------------------------------------------------------ *)
(** ** The scenario of the specification                               *)
(* ------------------------------------------------------------------ *)

(** Ten rows with one repeated row and four missing ages: one duplicate
    row, [age] over the missing threshold, [id] with nine distinct values
    out of ten at the identifier threshold. *)
Example scenario_quality_flags (tie_up : Z -> bool) :
  quality_flags scenario (data_dictionary tie_up scenario)
  = {| qf_rows := 10;
       high_missing_cols := ["age"];
       constant_cols := [];
       suspected_id_like := ["id"];
       duplicate_rows := 1 |}.
Proof. vm_compute. reflexivity. Qed.

Example scenario_files (tie_up : Z -> bool) :
  files_written (main tie_up never_fails default_args scenario)
  = ["data/interim/sample_head.csv";
     "reports/data_dictionary.csv";
     "data/interim/_data_dictionary_debug.csv";
     "reports/quality_flags.json";
     "reports/figures/missing_bar.png";
     "reports/figures/histograms.png";
     "reports/figures/boxplots.png";
     "reports/figures/corr_matrix.png";
     "reports/numeric_summary.csv";
     "reports/city_top20_value_counts.csv"].
Proof. vm_compute. reflexivity. Qed.

(** A text column named [a/b], on a file system that holds the
    directories the run makes and no other: the table of its value counts
    is refused, and the run ends there with an [OSError], before the
    table of the column [c]. *)
Example slash_name_run (tie_up : Z -> bool) :
  files_written (main tie_up only_made_directories default_args slash_name)
  = ["data/interim/sample_head.csv";
     "reports/data_dictionary.csv";
     "data/interim/_data_dictionary_debug.csv";
     "reports/quality_flags.json";
     "reports/figures/missing_bar.png";
     "reports/figures/histograms.png";
     "reports/figures/boxplots.png";
     "reports/numeric_summary.csv"]
  /\ last (main tie_up only_made_directories default_args slash_name)
          (Log INFO MsgDone)
     = Raised OSError.
Proof. split; vm_compute; reflexivity. Qed.

(* ------------------------------------------------------------------ *)
(** ** The statements at sample tables                                 *)
(* ------------------------------------------------------------------ *)

(** C1 as the specification words it fails on five rows: a column with
    four distinct values is listed, [int(5 * 0.9)] being 4, while
    [ceil(0.9 * 5)] is 5. *)
Lemma suspected_id_ceiling_counterexample :
  let flags := quality_flags five_rows (data_dictionary PyNum.half_even five_rows) in
  let c := mkColumn "code" Int64 (ints [1; 2; 3; 4; 4]%Z) in
  0 < Frame.len five_rows
  /\ In c (df_columns five_rows)
  /\ ~ (In (col_name c) (suspected_id_like flags)
        <-> (spec_id_threshold (Frame.len five_rows)
             <= Z.of_nat (Frame.nunique (col_values c)))%Z).
Proof.
  cbv zeta. split; [repeat constructor |]. split; [now left |].
  intros [Hlisted _].
  assert (Hin : In "code" (suspected_id_like
                             (quality_flags five_rows
                                (data_dictionary PyNum.half_even five_rows)))).
  { vm_compute. now left. }
  specialize (Hlisted Hin). vm_compute in Hlisted. now apply Hlisted.
Qed.

Lemma suspected_id_floor_threshold_witness :
  0 < Frame.len five_rows
  /\ In "code" (suspected_id_like
                  (quality_flags five_rows
                     (data_dictionary PyNum.half_even five_rows))).
Proof.
  assert (Hn : 0 < Frame.len five_rows) by (repeat constructor).
  split; [exact Hn |].
  destruct (suspected_id_floor_threshold PyNum.half_even five_rows)
    as (_ & Hpos & _).
  destruct (Hpos Hn) as (_ & Hin & _).
  apply (Hin (mkColumn "code" Int64 (ints [1; 2; 3; 4; 4]%Z))).
  - now left.
  - vm_compute. discriminate.
Defined.

(** The first line [a,b;c,d,e] of a file of two lines: the comma, with
    three occurrences, beats the semicolon, with one. *)
Lemma detect_sep_first_maximum_witness :
  is_first_line ("a,b;c,d,e" ++ String "010"%char "1,2;3,4,5") "a,b;c,d,e"
  /\ exists pre ch post,
       spec_candidates = pre ++ ch :: post
       /\ _detect_sep ("a,b;c,d,e" ++ String "010"%char "1,2;3,4,5")
            default_candidates = String ch EmptyString
       /\ Forall (fun c => spec_occurrences "a,b;c,d,e" c
                           < spec_occurrences "a,b;c,d,e" ch) pre
       /\ Forall (fun c => spec_occurrences "a,b;c,d,e" c
                           <= spec_occurrences "a,b;c,d,e" ch) post.
Proof.
  assert (H : is_first_line ("a,b;c,d,e" ++ String "010"%char "1,2;3,4,5")
                            "a,b;c,d,e").
  { split.
    - intros ch Hch [-> | ->]; simpl in Hch; intuition discriminate.
    - right. exists "010"%char, "1,2;3,4,5". split; [now left | reflexivity]. }
  split; [exact H |].
  destruct detect_sep_first_maximum as (_ & Hmax & _).
  exact (proj2 (Hmax _ _ H)).
Defined.

Lemma high_missing_over_30_witness :
  let a := mkColumn "a" Float64 (repeat None 7 ++ ints (Binary64.zrange 1 13)) in
  In a (df_columns twenty_rows)
  /\ 0 < Frame.len twenty_rows
  /\ In "a" (high_missing_cols
               (quality_flags twenty_rows
                  (data_dictionary PyNum.half_even twenty_rows))).
Proof.
  cbv zeta.
  assert (Ha : In (mkColumn "a" Float64 (repeat None 7 ++ ints (Binary64.zrange 1 13)))
                  (df_columns twenty_rows)) by (now left).
  assert (Hn : 0 < Frame.len twenty_rows) by (vm_compute; lia).
  split; [exact Ha |]. split; [exact Hn |].
  destruct (high_missing_over_30 PyNum.half_even twenty_rows)
    as (_ & _ & _ & _ & H35 & _).
  exact (proj2 (H35 _ Ha Hn eq_refl)).
Defined.

Lemma missing_pct_rounded_percentage_witness :
  let b := mkColumn "b" Float64 (repeat None 6 ++ ints (Binary64.zrange 1 14)) in
  well_formed twenty_rows
  /\ In b (df_columns twenty_rows)
  /\ (0 <= dd_missing_pct (dict_row PyNum.half_even (Frame.len twenty_rows) b)
      <= 100)%Q.
Proof.
  cbv zeta.
  assert (Hwf : well_formed twenty_rows) by (repeat constructor).
  assert (Hb : In (mkColumn "b" Float64 (repeat None 6 ++ ints (Binary64.zrange 1 14)))
                  (df_columns twenty_rows)) by (right; now left).
  split; [exact Hwf |]. split; [exact Hb |].
  destruct (missing_pct_rounded_percentage PyNum.half_even twenty_rows _ Hwf Hb)
    as (_ & _ & _ & _ & Hbounds).
  exact Hbounds.
Defined.

Lemma no_columns_run_raises_witness :
  df_columns (normalized no_columns) = []
  /\ main PyNum.half_even never_fails default_args no_columns
     = [MakeDirs "reports"; MakeDirs "reports/figures"; MakeDirs "data/interim";
        Log INFO (MsgReading "data/raw/base.csv");
        Raised AttributeError].
Proof.
  assert (H : df_columns (normalized no_columns) = []) by reflexivity.
  split; [exact H |].
  destruct (no_columns_run_raises PyNum.half_even never_fails default_args no_columns)
    as (_ & Hrun & _).
  exact (proj1 (Hrun H)).
Defined.

Lemma duplicate_rows_counts_repeats_witness :
  df_columns scenario <> []
  /\ duplicate_rows (quality_flags scenario (data_dictionary PyNum.half_even scenario))
     = spec_duplicate_rows (Frame.rows scenario)
  /\ spec_duplicate_rows (Frame.rows scenario) = 1.
Proof.
  assert (H : df_columns scenario <> []) by discriminate.
  split; [exact H |]. split.
  - exact (proj1 (proj1 (duplicate_rows_counts_repeats PyNum.half_even never_fails)
                    scenario
(data_dictionary PyNum.half_even scenario) H)).
  - vm_compute. reflexivity.
Defined.

Lemma all_missing_column_is_constant_witness :
  let c := mkColumn "c" Float64 (repeat None 20) in
  In c (df_columns twenty_rows)
  /\ Forall (fun x : cell => x = None) (col_values c)
  /\ In "c" (constant_cols
               (quality_flags twenty_rows
                  (data_dictionary PyNum.half_even twenty_rows))).
Proof.
  cbv zeta.
  assert (Hc : In (mkColumn "c" Float64 (repeat None 20)) (df_columns twenty_rows))
    by (right; right; now left).
  assert (Hall : Forall (fun x : cell => x = None)
                        (col_values (mkColumn "c" Float64 (repeat None 20))))
    by (repeat constructor).
  split; [exact Hc |]. split; [exact Hall |].
  destruct (all_missing_column_is_constant PyNum.half_even twenty_rows _ Hc Hall)
    as (_ & _ & _ & _ & Hin).
  exact Hin.
Defined.

(* ================================================================== *)
(** * Further properties                                               *)
(* ================================================================== *)

(* ------------------------------------------------------------------ *)
(** ** Counts of the data dictionary                                   *)
(* ------------------------------------------------------------------ *)

Lemma notna_isna_sum (s : list cell) :
  Frame.sum (Frame.notna s) + Frame.sum (Frame.isna s) = List.length s.
Proof.
  unfold Frame.sum, Frame.notna, Frame.isna.
  induction s as [| [v |] s IH]; simpl in *; lia.
Qed.

Lemma notna_sum_dropna (s : list cell) :
  Frame.sum (Frame.notna s) = List.length (Frame.dropna s).
Proof.
  unfold Frame.sum, Frame.notna, Frame.isna.
  induction s as [| [v |] s IH]; simpl in *; lia.
Qed.

Lemma unique_from_le {A : Type} (dec : forall a b : A, {a = b} + {a <> b})
    (l : list A) :
  forall seen, List.length (unique_from dec seen l) <= List.length l.
Proof.
  induction l as [| x l IH]; intros seen; simpl; [lia |].
  destruct (mem dec x seen); simpl.
  - specialize (IH seen). lia.
  - specialize (IH (x :: seen)). lia.
Qed.

(** The counts of one record of the dictionary of a well-formed table. *)
Lemma dictionary_counts_record (tie_up : Z -> bool) (df : DataFrame) :
  well_formed df ->
  forall r, In r (data_dictionary tie_up df) ->
            dd_non_null r + dd_missing r = Frame.len df
            /\ dd_nunique r <= dd_non_null r
            /\ dd_nunique r <= Frame.len df.
Proof.
  intros Hwf r Hr. unfold data_dictionary in Hr. apply in_map_iff in Hr.
  destruct Hr as (c & <- & Hc).
  unfold well_formed in Hwf. rewrite Forall_forall in Hwf.
  specialize (Hwf c Hc). cbn [dd_non_null dd_missing dd_nunique dict_row].
  pose proof (notna_isna_sum (col_values c)) as Hsum.
  pose proof (notna_sum_dropna (col_values c)) as Hdrop.
  pose proof (unique_from_le value_eq_dec (Frame.dropna (col_values c)) []) as Hu.
  unfold Frame.nunique, Frame.unique, Frame.len. lia.
Qed.

(** X1.  The data dictionary of a table has one record per column, in
    column order and under the column's name; in each record the present
    and the missing cells add up to the row count, and the unique values
    are at most the present cells. *)
Theorem dictionary_counts (tie_up : Z -> bool) (df : DataFrame) :
  well_formed df ->
  let dd := data_dictionary tie_up df in
  map dd_column dd = Frame.columns df
  /\ List.length dd = snd (Frame.shape df)
  /\ Forall (fun r => dd_non_null r + dd_missing r = Frame.len df
                      /\ dd_nunique r <= dd_non_null r
                      /\ dd_nunique r <= Frame.len df) dd.
Proof.
  intros Hwf dd. unfold dd.
  split; [unfold data_dictionary; now rewrite map_map |].
  split; [unfold data_dictionary; now rewrite length_map |].
  apply Forall_forall. intros r Hr.
  exact (dictionary_counts_record tie_up df Hwf r Hr).
Qed.

(* ------------------------------------------------------------------ *)
(** ** Overview                                                        *)
(* ------------------------------------------------------------------ *)

Lemma list_sum_const {A : Type} (f g : A -> nat) (k : nat) (l : list A) :
  (forall a, In a l -> f a + g a = k) ->
  list_sum (map f l) + list_sum (map g l) = k * List.length l.
Proof.
  induction l as [| a l IH]; intros H; simpl; [lia |].
  assert (Ha : f a + g a = k) by (apply H; now left).
  assert (IH' : list_sum (map f l) + list_sum (map g l) = k * List.length l)
    by (apply IH; intros b Hb; apply H; now right).
  nia.
Qed.

(** X3.  The overview and the data dictionary of a table agree: the
    overview lists the dictionary's columns, its missing cells are the
    sum of the dictionary's missing counts, and missing and present
    cells together fill the rows times columns of the table. *)
Theorem overview_agrees_with_dictionary (tie_up : Z -> bool) (df : DataFrame) :
  well_formed df ->
  let ov := data_overview df in
  let dd := data_dictionary tie_up df in
  (ov_rows ov, ov_cols ov) = Frame.shape df
  /\ ov_columns ov = map dd_column dd
  /\ ov_missing_cells ov = list_sum (map dd_missing dd)
  /\ ov_missing_cells ov + list_sum (map dd_non_null dd) = ov_rows ov * ov_cols ov.
Proof.
  intros Hwf ov dd.
  assert (Hmiss : ov_missing_cells ov = list_sum (map dd_missing dd)).
  { unfold ov, dd, data_overview, data_dictionary. cbn [ov_missing_cells].
    now rewrite map_map. }
  split; [reflexivity |]. split.
  - unfold ov, dd, data_overview, data_dictionary, Frame.columns.
    cbn [ov_columns]. now rewrite map_map.
  - split; [exact Hmiss |]. rewrite Hmiss. unfold dd, data_dictionary.
    rewrite !map_map. rewrite Nat.add_comm.
    unfold well_formed in Hwf. rewrite Forall_forall in Hwf.
    apply (list_sum_const _ _ (index_len df)).
    intros c Hc. cbn [dd_non_null dd_missing dict_row].
    rewrite notna_isna_sum. now apply Hwf.
Qed.

Lemma dict_get_filter (l key : string) (d : list (string * nat)) :
  dict_get key (filter (fun p => negb (String.eqb (fst p) l)) d)
  = if String.eqb l key then None else dict_get key d.
Proof.
  induction d as [| [k v] d IH]; simpl.
  - now destruct (String.eqb l key).
  - destruct (String.eqb_spec k l) as [-> | Hkl]; simpl.
    + rewrite IH. destruct (String.eqb_spec l key) as [-> | Hlk]; reflexivity.
    + rewrite IH. destruct (String.eqb_spec k key) as [-> | Hkk].
      * destruct (String.eqb_spec l key) as [-> | _]; [contradiction | reflexivity].
      * reflexivity.
Qed.

(** The count stored under a label is the number of its occurrences. *)
Lemma value_counts_get (labels : list string) (key : string) :
  dict_get key (value_counts labels)
  = match count_occ string_dec labels key with
    | 0 => None
    | S k => Some (S k)
    end.
Proof.
  induction labels as [| l rest IH]; [reflexivity |].
  cbn [value_counts dict_get fst snd]. rewrite dict_get_filter, IH.
  destruct (String.eqb_spec l key) as [-> | Hne].
  - rewrite (count_occ_cons_eq string_dec rest eq_refl). reflexivity.
  - rewrite (count_occ_cons_neq string_dec rest Hne). reflexivity.
Qed.

Lemma value_counts_keys (labels : list string) :
  NoDup (map fst (value_counts labels))
  /\ (forall k, In k (map fst (value_counts labels)) -> In k labels).
Proof.
  induction labels as [| l rest [IHnd IHin]]; simpl; [split; [constructor | tauto] |].
  assert (Hsub : forall k,
             In k (map fst (filter (fun p => negb (String.eqb (fst p) l))
                                   (value_counts rest)))
             -> k <> l /\ In k (map fst (value_counts rest))).
  { intros k Hk. apply in_map_iff in Hk. destruct Hk as ([k' v] & <- & Hp).
    apply filter_In in Hp. destruct Hp as [Hp Hneq]. simpl in *.
    apply negb_true_iff in Hneq. split.
    - intros ->. rewrite String.eqb_refl in Hneq. discriminate.
    - apply in_map_iff. now exists (k', v). }
  split.
  - constructor.
    + intros Hl. apply Hsub in Hl. tauto.
    + clear Hsub IHin. induction (value_counts rest) as [| [k v] d IHd]; simpl;
        [constructor |].
      inversion IHnd as [| x m Hx Hm]; subst.
      destruct (negb (String.eqb k l)); simpl; [constructor |]; auto.
      intros Hk. apply Hx. apply in_map_iff in Hk.
      destruct Hk as (p & Hp & Hin). apply filter_In in Hin.
      apply in_map_iff. exists p. tauto.
  - intros k [<- | Hk]; [now left |]. right. apply IHin. now apply Hsub.
Qed.

Lemma value_counts_total (labels : list string) :
  list_sum (map snd (value_counts labels)) = List.length labels.
Proof.
  induction labels as [| l rest IH]; [reflexivity |].
  cbn [value_counts map snd List.length].
  change (list_sum (?h :: ?t)) with (h + list_sum t).
  assert (Hsplit : forall d : list (string * nat),
             NoDup (map fst d) ->
             list_sum (map snd d)
             = list_sum (map snd (filter (fun p => negb (String.eqb (fst p) l)) d))
               + match dict_get l d with Some v => v | None => 0 end).
  { clear. induction d as [| [k v] d IHd]; intros Hnd; [reflexivity |].
    inversion Hnd as [| x m Hx Hm]; subst. specialize (IHd Hm).
    cbn [map snd filter fst dict_get].
    change (list_sum (?h :: ?t)) with (h + list_sum t).
    destruct (String.eqb_spec k l) as [-> | Hkl]; cbn [negb map snd].
    - assert (Hnone : dict_get l d = None).
      { clear -Hx. induction d as [| [k' v'] d IH]; [reflexivity |].
        simpl in *. destruct (String.eqb_spec k' l) as [-> | _]; [tauto |].
        apply IH. tauto. }
      rewrite Hnone in IHd. lia.
    - change (list_sum (?h :: ?t)) with (h + list_sum t). lia. }
  rewrite (Hsplit (value_counts rest) (proj1 (value_counts_keys rest))) in IH.
  rewrite value_counts_get in IH.
  destruct (count_occ string_dec rest l); lia.
Qed.

(** X4.  The dtype counts of the overview form a dict: each dtype label
    occurs once as a key, the count under a label is the number of
    columns of that dtype (a label of no column is not a key), and the
    counts add up to the number of columns. *)
Theorem dtypes_count_partition (df : DataFrame) :
  let ov := data_overview df in
  let labels := map (fun c => dtype_str (col_dtype c)) (df_columns df) in
  NoDup (map fst (ov_dtypes_count ov))
  /\ (forall label,
        dict_get label (ov_dtypes_count ov)
        = match count_occ string_dec labels label with
          | 0 => None
          | S k => Some (S k)
          end)
  /\ list_sum (map snd (ov_dtypes_count ov)) = ov_cols ov.
Proof.
  intros ov labels. unfold ov, data_overview. cbn [ov_dtypes_count ov_cols Frame.shape].
  fold labels. split; [apply value_counts_keys |]. split.
  - intros label. apply value_counts_get.
  - rewrite value_counts_total. unfold labels. now rewrite length_map.
Qed.

(* ------------------------------------------------------------------ *)
(** ** Quality flags                                                   *)
(* ------------------------------------------------------------------ *)

Lemma id_threshold_ge_2 (n : nat) : (2 <= id_threshold n)%Z.
Proof. unfold id_threshold. lia. Qed.

Lemma filter_all {A : Type} (p : A -> bool) (l : list A) :
  (forall a, In a l -> p a = true) -> filter p l = l.
Proof.
  induction l as [| a l IH]; intros H; simpl; [reflexivity |].
  rewrite (H a (or_introl eq_refl)). f_equal. apply IH.
  intros b Hb. apply H. now right.
Qed.

Lemma filter_none {A : Type} (p : A -> bool) (l : list A) :
  (forall a, In a l -> p a = false) -> filter p l = [].
Proof.
  induction l as [| a l IH]; intros H; simpl; [reflexivity |].
  rewrite (H a (or_introl eq_refl)). apply IH.
  intros b Hb. apply H. now right.
Qed.

(** X5.  No record of a dictionary is selected both as constant and as
    suspected identifier, so with distinct column names the two lists
    share no name.  For a table of at most one row every column is
    listed as constant and none as suspected identifier. *)
Theorem constant_never_identifier (tie_up : Z -> bool) (df : DataFrame) :
  well_formed df ->
  let dd := data_dictionary tie_up df in
  let flags := quality_flags df dd in
  (forall r, In r dd ->
             (dd_nunique r <=? 1)%nat = true ->
             (id_threshold (Frame.len df) <=? Z.of_nat (dd_nunique r))%Z = false)
  /\ (NoDup (Frame.columns df) ->
      forall name, In name (constant_cols flags) ->
                   ~ In name (suspected_id_like flags))
  /\ (Frame.len df <= 1 ->
      constant_cols flags = Frame.columns df /\ suspected_id_like flags = []).
Proof.
  intros Hwf dd flags.
  assert (Hdis : forall r, In r dd ->
             (dd_nunique r <=? 1)%nat = true ->
             (id_threshold (Frame.len df) <=? Z.of_nat (dd_nunique r))%Z = false).
  { intros r _ Hc. apply Nat.leb_le in Hc. apply Z.leb_gt.
    pose proof (id_threshold_ge_2 (Frame.len df)). lia. }
  assert (Hnames : map dd_column dd = Frame.columns df).
  { unfold dd, data_dictionary. now rewrite map_map. }
  split; [exact Hdis |]. split.
  - intros Hnd name Hconst Hid.
    unfold flags, quality_flags in Hconst, Hid.
    cbn [constant_cols suspected_id_like] in Hconst, Hid.
    rewrite has_key_loc_column in Hconst.
    destruct (0 <? Frame.len df)%nat; [| contradiction]. cbn [andb] in Hid.
    rewrite has_key_loc_column in Hid. unfold loc_column in *.
    apply in_map_iff in Hconst. destruct Hconst as (r1 & Hn1 & Hr1).
    apply in_map_iff in Hid. destruct Hid as (r2 & Hn2 & Hr2).
    apply filter_In in Hr1. destruct Hr1 as [Hin1 Hc].
    apply filter_In in Hr2. destruct Hr2 as [Hin2 Hi].
    assert (r1 = r2).
    { apply (NoDup_map_eq dd_column dd); auto; [now rewrite Hnames | congruence]. }
    subst r2. rewrite (Hdis r1 Hin1 Hc) in Hi. discriminate.
  - intros Hn.
    assert (Hall : forall r, In r dd -> (dd_nunique r <=? 1)%nat = true).
    { intros r Hr. apply Nat.leb_le.
      destruct (dictionary_counts_record tie_up df Hwf r Hr) as (_ & _ & Hle).
      lia. }
    split.
    + unfold flags, quality_flags. cbn [constant_cols].
      rewrite has_key_loc_column. unfold loc_column.
      now rewrite (filter_all _ dd Hall).
    + unfold flags, quality_flags. cbn [suspected_id_like].
      destruct (0 <? Frame.len df)%nat; [| reflexivity]. cbn [andb].
      rewrite has_key_loc_column. unfold loc_column.
      rewrite (filter_none _ dd); [reflexivity |].
      intros r Hr. apply (Hdis r Hr). now apply Hall.
Qed.

Lemma distinct_le {A : Type} (dec : forall a b : A, {a = b} + {a <> b})
    (l : list A) :
  distinct dec l <= List.length l.
Proof.
  unfold distinct. induction l as [| x l IH]; simpl; [lia |].
  destruct (in_dec dec x l); simpl; lia.
Qed.

Lemma distinct_full {A : Type} (dec : forall a b : A, {a = b} + {a <> b})
    (l : list A) :
  distinct dec l = List.length l <-> NoDup l.
Proof.
  unfold distinct. split.
  - induction l as [| x l IH]; simpl; intros H; [constructor |].
    pose proof (distinct_le dec l) as Hle. unfold distinct in Hle.
    destruct (in_dec dec x l) as [Hin | Hout]; simpl in H; [lia |].
    constructor; [assumption | apply IH; lia].
  - intros H. now rewrite (nodup_fixed_point dec H).
Qed.

Lemma distinct_pos {A : Type} (dec : forall a b : A, {a = b} + {a <> b})
    (l : list A) :
  l <> [] -> 1 <= distinct dec l.
Proof.
  intros Hne. destruct l as [| x l]; [contradiction |].
  assert (Hin : In x (nodup dec (x :: l))) by (apply nodup_In; now left).
  unfold distinct. destruct (nodup dec (x :: l)); [contradiction | simpl; lia].
Qed.

Lemma rows_length (df : DataFrame) : List.length (Frame.rows df) = index_len df.
Proof. unfold Frame.rows. now rewrite length_map, length_seq. Qed.

(** X6.  For a table with a column, the duplicate rows and the distinct
    rows add up to the row count; a table with rows has fewer duplicates
    than rows, and one without rows has none; there is no duplicate at
    all exactly when the rows are pairwise different. *)
Theorem duplicate_rows_bounds (df : DataFrame) (dd : list DictRow) :
  df_columns df <> [] ->
  let flags := quality_flags df dd in
  duplicate_rows flags + distinct row_eq_dec (Frame.rows df) = qf_rows flags
  /\ (0 < qf_rows flags -> duplicate_rows flags < qf_rows flags)
  /\ (qf_rows flags = 0 -> duplicate_rows flags = 0)
  /\ (duplicate_rows flags = 0 <-> NoDup (Frame.rows df)).
Proof.
  intros Hcols flags.
  destruct (duplicate_rows_scan df dd Hcols) as (_ & _ & Hcount).
  fold flags in Hcount.
  pose proof (distinct_le row_eq_dec (Frame.rows df)) as Hle.
  pose proof (rows_length df) as Hlen.
  assert (Hrows : qf_rows flags = index_len df) by reflexivity.
  split; [lia |]. split; [| split].
  - intros Hpos.
    destruct (Frame.rows df) as [| r rs] eqn:Hr; [simpl in *; lia |].
    pose proof (distinct_pos row_eq_dec (r :: rs) ltac:(discriminate)). lia.
  - lia.
  - rewrite <- (distinct_full row_eq_dec). lia.
Qed.

(** X7.  In a table with rows, a column whose cells are all missing is
    recorded with 100 percent missing and listed in [high_missing_cols];
    a column without missing cell is recorded with 0 percent and is not
    selected. *)
Theorem missing_extremes (tie_up : Z -> bool) (df : DataFrame) (c : Column) :
  well_formed df ->
  In c (df_columns df) ->
  0 < Frame.len df ->
  let r := dict_row tie_up (Frame.len df) c in
  let flags := quality_flags df (data_dictionary tie_up df) in
  (Forall (fun x : cell => x = None) (col_values c) ->
   (dd_missing_pct r == 100)%Q /\ In (col_name c) (high_missing_cols flags))
  /\ (Forall (fun x : cell => x <> None) (col_values c) ->
      (dd_missing_pct r == 0)%Q /\ over_30 r = false).
Proof.
  intros Hwf Hc Hn r flags.
  unfold well_formed in Hwf. rewrite Forall_forall in Hwf.
  pose proof (Hwf c Hc) as Hlen.
  assert (Hexact : forall p : Z,
             (100 * Z.of_nat (Frame.sum (Frame.isna (col_values c)))
              = p * Z.of_nat (Frame.len df))%Z ->
             (dd_missing_pct r == inject_Z p)%Q).
  { intros p Hp. unfold r. cbn [dd_missing_pct dict_row].
    rewrite (round_two_comp tie_up _ _ (missing_pct_raw_ratio _ _ p Hn Hp)).
    apply round_two_integer. }
  split.
  - intros Hall.
    assert (Hm : Frame.sum (Frame.isna (col_values c)) = Frame.len df).
    { unfold Frame.len. rewrite <- Hlen. clear -Hall.
      unfold Frame.sum, Frame.isna.
      induction Hall as [| x l Hx _ IH]; [reflexivity |]. subst x. simpl.
      now rewrite IH. }
    assert (Hp : (dd_missing_pct r == 100)%Q).
    { change 100%Q with (inject_Z 100). apply Hexact. rewrite Hm. lia. }
    split; [exact Hp |].
    unfold flags, quality_flags. cbn [high_missing_cols].
    rewrite has_key_loc_column. unfold loc_column.
    change (col_name c) with (dd_column r). apply in_map. apply filter_In.
    split; [now apply in_data_dictionary |].
    change (over_30 r = true). apply over_30_iff. rewrite Hp. reflexivity.
  - intros Hnone.
    assert (Hm : Frame.sum (Frame.isna (col_values c)) = 0).
    { clear -Hnone. unfold Frame.sum, Frame.isna.
      induction Hnone as [| x l Hx _ IH]; [reflexivity |].
      destruct x; [exact IH | contradiction]. }
    assert (Hp : (dd_missing_pct r == 0)%Q).
    { change 0%Q with (inject_Z 0). apply Hexact. rewrite Hm. lia. }
    split; [exact Hp |].
    destruct (over_30 r) eqn:E; [| reflexivity].
    apply over_30_iff in E. rewrite Hp in E. discriminate.
Qed.

Lemma dropna_all_present (s : list cell) :
  Forall (fun x : cell => x <> None) s -> map Some (Frame.dropna s) = s.
Proof.
  induction 1 as [| x l Hx _ IH]; [reflexivity |].
  destruct x; [simpl; now rewrite IH | contradiction].
Qed.

(** X8.  In a table of at least two rows, a column whose cells are all
    present and pairwise different has as many unique values as the
    table has rows and is listed in [suspected_id_like]. *)
Theorem distinct_column_is_identifier (tie_up : Z -> bool) (df : DataFrame)
    (c : Column) :
  well_formed df ->
  In c (df_columns df) ->
  2 <= Frame.len df ->
  Forall (fun x : cell => x <> None) (col_values c) ->
  NoDup (col_values c) ->
  let r := dict_row tie_up (Frame.len df) c in
  let flags := quality_flags df (data_dictionary tie_up df) in
  dd_nunique r = Frame.len df
  /\ In (col_name c) (suspected_id_like flags).
Proof.
  intros Hwf Hc Hn Hpresent Hnd r flags.
  unfold well_formed in Hwf. rewrite Forall_forall in Hwf.
  pose proof (Hwf c Hc) as Hlen.
  assert (Hnu : dd_nunique r = Frame.len df).
  { unfold r. cbn [dd_nunique dict_row]. rewrite nunique_distinct.
    pose proof (dropna_all_present _ Hpresent) as Hmap.
    assert (Hnd' : NoDup (Frame.dropna (col_values c))).
    { rewrite <- Hmap in Hnd. now apply NoDup_map_inv in Hnd. }
    apply (distinct_full value_eq_dec) in Hnd'. rewrite Hnd'.
    unfold Frame.len. rewrite <- Hlen.
    rewrite <- (length_map (@Some value) (Frame.dropna (col_values c))).
    now rewrite Hmap. }
  split; [exact Hnu |].
  unfold flags, quality_flags. cbn [suspected_id_like].
  destruct (Nat.ltb_spec 0 (Frame.len df)) as [_ | H]; [| lia]. cbn [andb].
  rewrite has_key_loc_column. unfold loc_column.
  change (col_name c) with (dd_column r). apply in_map. apply filter_In.
  split; [now apply in_data_dictionary |].
  rewrite Hnu, id_threshold_floor. apply Z.leb_le.
  apply Z.max_lub; [lia |].
  apply Z.div_le_upper_bound; lia.
Qed.

(* ------------------------------------------------------------------ *)
(** ** Chart grid and panels                                           *)
(* ------------------------------------------------------------------ *)

(** The grid has a cell for every chart and is square or one row short
    of square. *)
Lemma grid_size_bounds (k : Z) :
  let '(rows, cols) := _grid_size k in
  (1 <= rows /\ 1 <= cols
   /\ k <= rows * cols
   /\ cols - 1 <= rows <= cols
   /\ (0 < k -> rows * cols - k < cols))%Z.
Proof.
  unfold _grid_size. destruct (Z.leb_spec k 0) as [Hle | Hpos].
  - repeat split; lia.
  - destruct (ceil_sqrt_spec k Hpos) as [Hc Hsq].
    pose proof (ceil_div_spec k (PyNum.ceil_sqrt k) Hc) as Hdiv.
    cbv zeta in Hdiv.
    set (c := PyNum.ceil_sqrt k) in *.
    set (r := PyNum.ceil_div k c) in *.
    assert (H1 : (1 <= r)%Z) by nia.
    assert (H2 : (r <= c)%Z) by nia.
    assert (H3 : (c - 1 <= r)%Z) by nia.
    repeat split; try lia.
Qed.

(** X9.  For every number [k] of charts below [2^52], also zero or
    negative, the grid has at least one cell and at least [k] cells; it
    is square or one row short of square; and for [k > 0] fewer than
    [cols] cells are unused, so that no row of the grid is empty.  (From
    [2^52 + 1] on the float square root of the script gives other
    grids.) *)
Theorem grid_size_nearly_square (k : Z) :
  (k < 2 ^ 52)%Z ->
  let '(rows, cols) := _grid_size k in
  (1 <= rows /\ 1 <= cols
   /\ k <= rows * cols
   /\ cols - 1 <= rows <= cols
   /\ (0 < k -> rows * cols - k < cols))%Z.
Proof. intros _. apply grid_size_bounds. Qed.

Lemma slice_to_prefix {A : Type} (k : Z) (l : list A) :
  exists rest, l = slice_to k l ++ rest.
Proof.
  unfold slice_to. destruct (0 <=? k)%Z.
  - exists (skipn (Z.to_nat k) l). now rewrite firstn_skipn.
  - exists (skipn (List.length l - Z.to_nat (- k)) l). now rewrite firstn_skipn.
Qed.

Lemma slice_to_length {A : Type} (k : Z) (l : list A) :
  (0 <= k)%Z ->
  List.length (slice_to k l) = Nat.min (Z.to_nat k) (List.length l).
Proof.
  intros Hk. unfold slice_to.
  destruct (Z.leb_spec 0 k); [apply length_firstn | lia].
Qed.

(** X10.  The histogram and the boxplot figures are left out when the
    table has no numeric column.  Otherwise each is saved once, in the
    directory made just before; its panels are the first numeric columns,
    [max_cols] of them at most when [max_cols] is not negative, and its
    grid has a cell for every panel. *)
Theorem panels_fit_grid (df : DataFrame) (outdir : string) (max_cols : Z) :
  let numeric := Frame.columns (Frame.select_number df) in
  let panels := slice_to max_cols numeric in
  (numeric = [] ->
   plot_histograms df outdir max_cols = []
   /\ plot_boxplots df outdir max_cols = [])
  /\ (numeric <> [] ->
      exists rows cols,
        plot_histograms df outdir max_cols
        = [MakeDirs outdir;
           SaveFig (PyStr.path_join outdir "histograms.png")
                   (Histograms rows cols panels)]
        /\ plot_boxplots df outdir max_cols
           = [MakeDirs outdir;
              SaveFig (PyStr.path_join outdir "boxplots.png")
                      (Boxplots rows cols panels)]
        /\ (1 <= rows * cols)%Z
        /\ (Z.of_nat (List.length panels) <= rows * cols)%Z)
  /\ (exists rest, numeric = panels ++ rest)
  /\ ((0 <= max_cols)%Z ->
      List.length panels = Nat.min (Z.to_nat max_cols) (List.length numeric)).
Proof.
  intros numeric panels.
  assert (Hshape : snd (Frame.shape (Frame.select_number df)) = List.length numeric).
  { unfold numeric, Frame.columns, Frame.shape. cbn [snd]. now rewrite length_map. }
  split; [| split; [| split]].
  - intros Hnil. unfold plot_histograms, plot_boxplots.
    rewrite Hshape, Hnil. split; reflexivity.
  - intros Hne. unfold plot_histograms, plot_boxplots. rewrite Hshape.
    destruct numeric as [| x xs] eqn:Hnum; [contradiction |].
    cbn [List.length Nat.eqb]. fold numeric. rewrite Hnum. fold panels.
    pose proof (grid_size_bounds (Z.of_nat (List.length panels))) as Hgrid.
    destruct (_grid_size (Z.of_nat (List.length panels))) as [r c].
    exists r, c. repeat split; try reflexivity; nia.
  - apply slice_to_prefix.
  - apply slice_to_length.
Qed.

(* ------------------------------------------------------------------ *)
(** ** Names, cleaning and the sample                                  *)
(* ------------------------------------------------------------------ *)

Lemma last_char_some (s : string) :
  forall c, exists d, last_char (String c s) = Some d.
Proof.
  induction s as [| a s IH]; intros c; [now exists c |].
  destruct (IH a) as (d & Hd). exists d. exact Hd.
Qed.

Lemma last_char_cons (c : ascii) (s : string) :
  last_char (String c s) = match last_char s with
                           | Some d => Some d
                           | None => Some c
                           end.
Proof.
  destruct s as [| a s]; [reflexivity |].
  destruct (last_char_some s a) as (d & Hd).
  change (last_char (String c (String a s))) with (last_char (String a s)).
  now rewrite Hd.
Qed.

(** The last character left by [rstrip] is not whitespace. *)
Lemma rstrip_last_char (s : string) :
  match last_char (PyStr.rstrip s) with
  | Some d => PyStr.isspace d = false
  | None => True
  end.
Proof.
  induction s as [| c s IH]; [exact I |].
  cbn [PyStr.rstrip]. destruct (PyStr.rstrip s) as [| c' r] eqn:Hr.
  - destruct (PyStr.isspace c) eqn:Hc; [exact I | exact Hc].
  - rewrite last_char_cons. destruct (last_char_some r c') as (d & Hd).
    rewrite Hd in *. exact IH.
Qed.

(** [rstrip] keeps a first character that is not whitespace. *)
Lemma rstrip_first_char (c : ascii) (s : string) :
  PyStr.isspace c = false ->
  exists r, PyStr.rstrip (String c s) = String c r.
Proof.
  intros Hc. cbn [PyStr.rstrip]. destruct (PyStr.rstrip s) as [| c' r].
  - rewrite Hc. now exists EmptyString.
  - now exists (String c' r).
Qed.

Lemma lstrip_first_char (s : string) :
  match PyStr.lstrip s with
  | String c _ => PyStr.isspace c = false
  | EmptyString => True
  end.
Proof.
  induction s as [| c s IH]; [exact I |].
  cbn [PyStr.lstrip]. destruct (PyStr.isspace c) eqn:Hc; [exact IH | exact Hc].
Qed.

Lemma strip_is_trimmed (s : string) : trimmed (PyStr.strip s) = true.
Proof.
  unfold PyStr.strip. pose proof (lstrip_first_char s) as Hfirst.
  destruct (PyStr.lstrip s) as [| c t]; [reflexivity |].
  destruct (rstrip_first_char c t Hfirst) as (r & Hr).
  pose proof (rstrip_last_char (String c t)) as Hlast.
  rewrite Hr in *. unfold trimmed.
  destruct (last_char (String c r)) as [d |]; [| reflexivity].
  now rewrite Hfirst, Hlast.
Qed.

Lemma space_is_space : PyStr.isspace " "%char = true.
Proof. reflexivity. Qed.

Lemma replace_last_char (s : string) :
  last_char (PyStr.replace " "%char "_"%char s)
  = match last_char s with
    | Some d => Some (if Ascii.eqb d " "%char then "_"%char else d)
    | None => None
    end.
Proof.
  induction s as [| c s IH]; [reflexivity |].
  cbn [PyStr.replace]. rewrite !last_char_cons, IH.
  now destruct (last_char s).
Qed.

Lemma replace_lacks_space (s : string) :
  lacks " "%char (PyStr.replace " "%char "_"%char s) = true.
Proof.
  induction s as [| c s IH]; [reflexivity |].
  cbn [PyStr.replace lacks]. rewrite IH.
  destruct (Ascii.eqb_spec c " "%char) as [-> | Hne]; [reflexivity |].
  destruct (Ascii.eqb_spec c " "%char); [contradiction | reflexivity].
Qed.

Lemma replace_without_space (s : string) :
  lacks " "%char s = true -> PyStr.replace " "%char "_"%char s = s.
Proof.
  induction s as [| c s IH]; [reflexivity |].
  cbn [PyStr.replace lacks]. intros H. apply andb_prop in H.
  destruct H as [Hc Hs]. apply negb_true_iff in Hc. now rewrite Hc, IH.
Qed.

Lemma not_space_kept (c : ascii) :
  PyStr.isspace c = false ->
  (if Ascii.eqb c " "%char then "_"%char else c) = c.
Proof.
  intros Hc. destruct (Ascii.eqb_spec c " "%char) as [-> | _]; [| reflexivity].
  rewrite space_is_space in Hc. discriminate.
Qed.

Lemma trimmed_cons (c : ascii) (s : string) :
  trimmed (String c s)
  = match last_char (String c s) with
    | Some d => negb (PyStr.isspace c) && negb (PyStr.isspace d)
    | None => true
    end.
Proof. reflexivity. Qed.

Lemma replace_trimmed (s : string) :
  trimmed s = true -> trimmed (PyStr.replace " "%char "_"%char s) = true.
Proof.
  destruct s as [| c s]; [reflexivity |]. intros H.
  rewrite trimmed_cons, last_char_cons in H.
  cbn [PyStr.replace]. rewrite trimmed_cons, last_char_cons, replace_last_char.
  destruct (last_char s) as [d |].
  - apply andb_prop in H. destruct H as [Hc Hd].
    apply negb_true_iff in Hc, Hd.
    now rewrite (not_space_kept c Hc), (not_space_kept d Hd), Hc, Hd.
  - apply andb_prop in H. destruct H as [Hc _].
    apply negb_true_iff in Hc. now rewrite (not_space_kept c Hc), Hc.
Qed.

(** X11.  A normalized column name contains no space and neither begins
    nor ends with whitespace, and normalizing it again leaves it as it
    is. *)
Theorem normalize_name_idempotent (name : string) :
  lacks " "%char (normalize_name name) = true
  /\ trimmed (normalize_name name) = true
  /\ normalize_name (normalize_name name) = normalize_name name.
Proof.
  assert (Hl : lacks " "%char (normalize_name name) = true)
    by apply replace_lacks_space.
  assert (Ht : trimmed (normalize_name name) = true)
    by (apply replace_trimmed, strip_is_trimmed).
  repeat split; try assumption.
  unfold normalize_name at 1. rewrite (strip_trimmed _ Ht).
  now apply replace_without_space.
Qed.

Lemma rows_normalize (df : DataFrame) :
  Frame.rows (normalize_columns df) = Frame.rows df.
Proof.
  unfold Frame.rows, normalize_columns. cbn [index_len].
  apply map_ext. intros i. unfold Frame.iloc. cbn [df_columns].
  now rewrite map_map.
Qed.

Lemma well_formed_normalize (df : DataFrame) :
  well_formed df -> well_formed (normalize_columns df).
Proof.
  unfold well_formed, normalize_columns. cbn [index_len df_columns].
  intros H. apply Forall_map. exact H.
Qed.

Lemma well_formed_clean (df : DataFrame) :
  well_formed df -> well_formed (fst (clean_unnamed df)).
Proof.
  intros H. unfold clean_unnamed.
  destruct (forallb truthy (map contains_unnamed (df_columns df)));
    cbn [fst]; [exact H |].
  unfold well_formed, Frame.select in *. cbn [index_len df_columns].
  rewrite Forall_forall in *. intros c Hc. apply filter_In in Hc. now apply H.
Qed.

(** X12.  The frame handed to the profiler is well formed when the
    loaded one is; it has the rows of the cleaned frame, cell for cell,
    the row count of the loaded frame, the dtypes of the kept columns,
    and at least one column whenever the loaded frame has one. *)
Theorem normalized_keeps_cells (loaded : DataFrame) :
  well_formed loaded ->
  let cleaned := fst (clean_unnamed loaded) in
  well_formed (normalized loaded)
  /\ index_len (normalized loaded) = index_len loaded
  /\ Frame.rows (normalized loaded) = Frame.rows cleaned
  /\ map col_dtype (df_columns (normalized loaded))
     = map col_dtype (df_columns cleaned)
  /\ (df_columns loaded <> [] -> df_columns (normalized loaded) <> []).
Proof.
  intros Hwf cleaned. unfold normalized. fold cleaned.
  split; [apply well_formed_normalize; now apply well_formed_clean |].
  split.
  - unfold cleaned, clean_unnamed.
    now destruct (forallb truthy (map contains_unnamed (df_columns loaded))).
  - split; [apply rows_normalize |]. split.
    + unfold normalize_columns. cbn [df_columns]. now rewrite map_map.
    + intros Hne Hnil. apply Hne. now apply normalized_nil.
Qed.

Lemma nth_firstn {A : Type} (d : A) (l : list A) :
  forall i k, i < k -> nth i (firstn k l) d = nth i l d.
Proof.
  induction l as [| x l IH]; intros i k Hik.
  - now rewrite firstn_nil.
  - destruct k as [| k]; [lia |]. destruct i as [| i]; [reflexivity |].
    simpl. apply IH. lia.
Qed.

Lemma firstn_seq_min (k : nat) :
  forall a n, firstn k (seq a n) = seq a (Nat.min k n).
Proof.
  induction k as [| k IH]; intros a n; [reflexivity |].
  destruct n as [| n]; [reflexivity |]. simpl. now rewrite IH.
Qed.

(** X13.  The sample [df.head(k)] holds the first [k] rows of the table,
    or all of them when there are fewer, under the same column names; it
    is well formed when the table is. *)
Theorem head_first_rows (k : nat) (df : DataFrame) :
  Frame.rows (Frame.head k df) = firstn k (Frame.rows df)
  /\ index_len (Frame.head k df) = Nat.min k (index_len df)
  /\ Frame.columns (Frame.head k df) = Frame.columns df
  /\ (index_len df <= k -> well_formed df -> Frame.head k df = df)
  /\ (well_formed df -> well_formed (Frame.head k df)).
Proof.
  split; [| split; [reflexivity | split; [| split]]].
  - unfold Frame.rows. rewrite firstn_map, firstn_seq_min.
    cbn [index_len Frame.head]. apply map_ext_in. intros i Hi.
    apply in_seq in Hi. unfold Frame.iloc. cbn [df_columns Frame.head].
    rewrite map_map. apply map_ext. intros c. cbn [col_values].
    apply nth_firstn. lia.
  - unfold Frame.columns, Frame.head. cbn [df_columns]. now rewrite map_map.
  - intros Hk Hwf. unfold Frame.head. destruct df as [n cols].
    cbn [index_len df_columns] in *. f_equal; [lia |].
    unfold well_formed in Hwf. cbn [index_len df_columns] in Hwf.
    rewrite <- (map_id cols) at 2. apply map_ext_in. intros c Hc.
    rewrite Forall_forall in Hwf. specialize (Hwf c Hc).
    destruct c as [nm dt vs str]. cbn [col_name col_dtype col_values col_is_str] in *.
    f_equal. apply firstn_all2. lia.
  - intros Hwf. unfold well_formed, Frame.head in *.
    cbn [index_len df_columns]. apply Forall_map.
    rewrite Forall_forall in *. intros c Hc. cbn [col_values].
    rewrite length_firstn, (Hwf c Hc). reflexivity.
Qed.

Lemma mask_filter_false (cols : list Column) :
  forallb truthy (map contains_unnamed cols) = false ->
  forallb truthy
    (map contains_unnamed
         (filter (fun c => negb (is_unnamed (col_name c))) cols)) = false.
Proof.
  induction cols as [| c cols IH]; cbn [map forallb filter]; [discriminate |].
  unfold contains_unnamed at 1.
  destruct (col_is_str c) eqn:Hs, (is_unnamed (col_name c)) eqn:Hu;
    cbn [truthy andb negb map forallb]; try exact IH.
  - intros _. unfold contains_unnamed at 1. rewrite Hs, Hu. reflexivity.
  - intros H. unfold contains_unnamed at 1. rewrite Hs. cbn [truthy andb].
    now apply IH.
Qed.

(** X14.  Cleaning a frame that was already cleaned changes nothing: the
    step returns the same frame and the same log as the first time. *)
Theorem clean_unnamed_idempotent (df : DataFrame) :
  clean_unnamed (fst (clean_unnamed df)) = clean_unnamed df.
Proof.
  unfold clean_unnamed.
  destruct (forallb truthy (map contains_unnamed (df_columns df))) eqn:Hall;
    cbn [fst].
  - now rewrite Hall.
  - unfold Frame.select at 1. cbn [df_columns].
    rewrite (mask_filter_false _ Hall).
    f_equal. unfold Frame.select. cbn [index_len df_columns]. f_equal.
    apply filter_all. intros c Hc. apply filter_In in Hc. tauto.
Qed.

(** In a frame whose labels are strings the mask of the cleaning step
    holds the truth values of the search. *)
Lemma mask_strings (cols : list Column) :
  forallb col_is_str cols = true ->
  forallb truthy (map contains_unnamed cols)
  = forallb is_unnamed (map col_name cols).
Proof.
  induction cols as [| c cols IH]; [reflexivity |].
  cbn [forallb map]. intros H. apply andb_prop in H. destruct H as [Hc Hcs].
  unfold contains_unnamed at 1. rewrite Hc. cbn [truthy]. now rewrite IH.
Qed.

(** X24.  For a loaded table that has a column and whose labels are all
    strings, the cleaning step does not raise.  When every column name
    matches the [Unnamed] pattern it logs one warning and leaves the
    table as it is; otherwise it logs nothing and removes exactly the
    columns whose name matches.  The run logs no other warning, and every
    structure derived afterwards is computed from the frame so cleaned,
    once its names are normalized. *)
Theorem string_labels_cleaning (tie_up : Z -> bool) (write_fails : string -> bool)
    (args : Args) (loaded : DataFrame) :
  df_columns loaded <> [] ->
  forallb col_is_str (df_columns loaded) = true ->
  let names := Frame.columns loaded in
  let cleaned := fst (clean_unnamed loaded) in
  cleaning_error loaded = None
  /\ (forallb is_unnamed names = true ->
      clean_unnamed loaded = (loaded, [Log WARNING MsgAllUnnamed])
      /\ filter is_warning (main tie_up write_fails args loaded)
         = [Log WARNING MsgAllUnnamed])
  /\ (forallb is_unnamed names = false ->
      snd (clean_unnamed loaded) = []
      /\ filter is_warning (main tie_up write_fails args loaded) = []
      /\ index_len cleaned = index_len loaded
      /\ df_columns cleaned
         = filter (fun c => negb (is_unnamed (col_name c))) (df_columns loaded)
      /\ Forall (fun c => is_unnamed (col_name c) = false) (df_columns cleaned)
      /\ (forall c, In c (df_columns loaded) -> is_unnamed (col_name c) = false ->
                    In c (df_columns cleaned)))
  /\ normalized loaded = normalize_columns cleaned
  /\ Forall (derived_from tie_up (normalized loaded))
            (main tie_up write_fails args loaded).
Proof.
  intros Hne Hstr names cleaned.
  pose proof (cleaning_error_strings loaded Hne Hstr) as Hok.
  pose proof (mask_strings _ Hstr) as Hmask. fold (Frame.columns loaded) in Hmask.
  fold names in Hmask.
  split; [exact Hok |]. split; [| split; [| split]].
  - intros Hall. rewrite (main_warnings tie_up write_fails args loaded Hok).
    unfold clean_unnamed. rewrite Hmask, Hall. split; reflexivity.
  - intros Hall. rewrite (main_warnings tie_up write_fails args loaded Hok).
    unfold cleaned, clean_unnamed. rewrite Hmask, Hall.
    cbn [fst snd Frame.select index_len df_columns].
    repeat split; try reflexivity.
    + apply Forall_forall. intros c Hc. apply filter_In in Hc.
      destruct Hc as [_ Hc]. now apply negb_true_iff in Hc.
    + intros c Hc Hu. apply filter_In. split; [assumption |]. now rewrite Hu.
  - reflexivity.
  - apply main_derived.
Qed.

(* ------------------------------------------------------------------ *)
(** ** The files and the errors of a run                               *)
(* ------------------------------------------------------------------ *)

Lemma files_written_app (a b : list event) :
  files_written (a ++ b) = files_written a ++ files_written b.
Proof. unfold files_written. apply flat_map_app. Qed.

Lemma columns_length (df : DataFrame) :
  List.length (Frame.columns df) = snd (Frame.shape df).
Proof. unfold Frame.columns, Frame.shape. cbn [snd]. apply length_map. Qed.

(** The loop over the columns that are not numeric writes their tables
    in order, up to the first one that is refused. *)
Lemma write_value_counts_files (write_fails : string -> bool)
    (names : list string) :
  exists done rest,
    names = done ++ rest
    /\ files_written (write_value_counts write_fails names)
       = map value_counts_path done
    /\ (existsb is_raised (write_value_counts write_fails names) = false ->
        rest = []).
Proof.
  induction names as [| c cs (done & rest & Hsplit & Hfiles & Hall)].
  - exists [], []. repeat split; reflexivity.
  - cbn [write_value_counts].
    change ("reports/" ++ c ++ "_top20_value_counts.csv")%string
      with (value_counts_path c).
    destruct (write_fails (value_counts_path c)).
    + exists [], (c :: cs). split; [reflexivity |]. split; [reflexivity |].
      discriminate.
    + exists (c :: done), rest. split; [now rewrite Hsplit |].
      split; [| exact Hall].
      unfold files_written in *. cbn [flat_map written app map].
      now rewrite Hfiles.
Qed.




(** The branch of [main] that reports, on a frame with a column whose
    names are pairwise different: the events that come before the tables
    of value counts raise nothing and write the fixed files. *)
Lemma report_split (tie_up : Z -> bool) (write_fails : string -> bool)
    (args : Args) (df : DataFrame) :
  df_columns df <> [] ->
  is_unique (Frame.columns df) = true ->
  exists fixed,
    report tie_up write_fails args df
    = fixed ++ write_value_counts write_fails
                 (Frame.columns (Frame.exclude_number df))
    /\ existsb is_raised fixed = false
    /\ files_written fixed
       = report_files (Frame.columns (Frame.select_number df)) [].
Proof.
  intros Hcols Huniq. unfold report. rewrite Huniq. cbn [negb].
  exists ([DictionaryToCsv "reports/data_dictionary.csv"
                           (data_dictionary tie_up df);
           DictionaryToCsv "data/interim/_data_dictionary_debug.csv"
                           (data_dictionary tie_up df);
           JsonDump "reports/quality_flags.json"
                    (quality_flags df (data_dictionary tie_up df));
           Log INFO (MsgFlags (quality_flags df (data_dictionary tie_up df)));
           Log INFO MsgCharts]
          ++ plot_missing_bar df "reports/figures/missing_bar.png"
          ++ plot_histograms df "reports/figures" (max_hist args)
          ++ plot_boxplots df "reports/figures" (max_box args)
          ++ plot_correlation df "reports/figures/corr_matrix.png"
          ++ (if (0 <? snd (Frame.shape (Frame.select_number df)))%nat
              then [DescribeToCsv "reports/numeric_summary.csv"
                                  (Frame.columns (Frame.select_number df))]
              else [])).
  split.
  { now rewrite <- !app_assoc. }
  unfold report_files. cbn [map]. rewrite app_nil_r.
  unfold plot_missing_bar, plot_histograms, plot_boxplots, plot_correlation.
  rewrite (columns_length df), <- !(columns_length (Frame.select_number df)).
  assert (Hn : snd (Frame.shape df) <> 0).
  { unfold Frame.shape. cbn [snd]. destruct (df_columns df); [contradiction |].
    discriminate. }
  destruct (Nat.eqb_spec (snd (Frame.shape df)) 0) as [E | _]; [contradiction |].
  destruct (Frame.columns (Frame.select_number df)) as [| x [| y l]];
    cbn [List.length Nat.eqb Nat.ltb Nat.leb];
    repeat match goal with
           | |- context [let '(_, _) := _grid_size ?k in _] =>
               destruct (_grid_size k)
           end;
    split; reflexivity.
Qed.

(** The files of a run: those of the fixed outputs, and the tables of
    value counts of the first columns that are not numeric. *)
Lemma main_files_written (tie_up : Z -> bool) (write_fails : string -> bool)
    (args : Args) (loaded : DataFrame) :
  let df := normalized loaded in
  files_written (main tie_up write_fails args loaded) = []
  \/ files_written (main tie_up write_fails args loaded)
     = ["data/interim/sample_head.csv"]
  \/ (is_unique (Frame.columns df) = true
      /\ exists done rest,
           Frame.columns (Frame.exclude_number df) = done ++ rest
           /\ files_written (main tie_up write_fails args loaded)
              = "data/interim/sample_head.csv"
                :: report_files (Frame.columns (Frame.select_number df)) done
           /\ (existsb is_raised (main tie_up write_fails args loaded) = false ->
               rest = [])).
Proof.
  intros df.
  destruct (cleaning_error loaded) as [e |] eqn:Hclean.
  { left. now rewrite (main_raise tie_up write_fails args loaded e Hclean). }
  right.
  pose proof (cleaning_passed_columns loaded Hclean) as Hcols.
  rewrite (main_clean tie_up write_fails args loaded Hclean). cbv zeta. fold df.
  assert (Hlog : files_written (snd (clean_unnamed loaded)) = []
                 /\ existsb is_raised (snd (clean_unnamed loaded)) = false).
  { unfold clean_unnamed.
    destruct (forallb truthy (map contains_unnamed (df_columns loaded)));
      split; reflexivity. }
  destruct Hlog as [Hlog Hquiet].
  rewrite !files_written_app, Hlog.
  destruct (is_unique (Frame.columns df)) eqn:Huniq.
  - right. split; [reflexivity |].
    destruct (report_split tie_up write_fails args df Hcols Huniq)
      as (fixed & Hrep & Hfixed & Hfiles).
    destruct (write_value_counts_files write_fails
                (Frame.columns (Frame.exclude_number df)))
      as (done & rest & Hsplit & Hvc & Hall).
    exists done, rest. split; [exact Hsplit |].
    assert (Hfw : files_written (and_then (report tie_up write_fails args df)
                                          [Log INFO MsgDone])
                  = files_written (report tie_up write_fails args df)).
    { unfold and_then.
      destruct (existsb is_raised (report tie_up write_fails args df));
        [reflexivity |].
      rewrite files_written_app. apply app_nil_r. }
    split.
    + rewrite Hfw, Hrep, files_written_app, Hfiles, Hvc.
      cbn [files_written flat_map written app].
      unfold report_files. cbn [map]. rewrite !app_nil_r.
      now rewrite <- !app_assoc.
    + intros Hnone. apply Hall.
      rewrite !existsb_app in Hnone. apply orb_false_iff in Hnone.
      destruct Hnone as [_ Hnone]. apply orb_false_iff in Hnone.
      destruct Hnone as [_ Hnone]. apply orb_false_iff in Hnone.
      destruct Hnone as [_ Hnone].
      unfold and_then in Hnone.
      destruct (existsb is_raised (report tie_up write_fails args df)) eqn:E;
        [rewrite E in Hnone; discriminate |].
      rewrite Hrep, existsb_app in E. apply orb_false_iff in E. tauto.
  - left. unfold and_then, report. rewrite Huniq. reflexivity.
Qed.


Lemma has_slash_app (a b : string) :
  PyStr.has_slash (a ++ b) = PyStr.has_slash a || PyStr.has_slash b.
Proof.
  induction a as [| c a IH]; [reflexivity |].
  simpl. rewrite IH. now rewrite orb_assoc.
Qed.

Lemma dirname_value_counts (c : string) :
  PyStr.has_slash c = false ->
  PyStr.dirname (value_counts_path c) = "reports".
Proof.
  intros Hc. unfold value_counts_path.
  assert (Hrest : PyStr.has_slash (c ++ "_top20_value_counts.csv") = false)
    by (rewrite has_slash_app, Hc; reflexivity).
  simpl. now rewrite Hrest.
Qed.

Lemma report_files_dirs (numeric done : list string) :
  Forall (fun name => PyStr.has_slash name = false) done ->
  Forall (fun p => In (PyStr.dirname p) output_dirs) (report_files numeric done).
Proof.
  intros Hnames. unfold report_files. repeat (apply Forall_app; split).
  - repeat constructor; simpl; tauto.
  - destruct numeric; repeat constructor; simpl; tauto.
  - destruct numeric as [| x [| y xs]]; repeat constructor; simpl; tauto.
  - destruct numeric; repeat constructor; simpl; tauto.
  - apply Forall_map. eapply Forall_impl; [| exact Hnames].
    intros name Hname. cbv beta in Hname.
    rewrite (dirname_value_counts name Hname). now left.
Qed.

(** X16.  A run first makes the directories [reports], [reports/figures]
    and [data/interim], and every file it writes lies in one of them,
    provided that no column that is not numeric has a slash in its
    normalized name. *)
Theorem writes_into_made_directories (tie_up : Z -> bool)
    (write_fails : string -> bool) (args : Args) (loaded : DataFrame) :
  Forall (fun name => PyStr.has_slash name = false)
         (Frame.columns (Frame.exclude_number (normalized loaded))) ->
  (exists rest,
      main tie_up write_fails args loaded = map MakeDirs output_dirs ++ rest
      /\ files_written rest = files_written (main tie_up write_fails args loaded))
  /\ Forall (fun p => In (PyStr.dirname p) output_dirs)
            (files_written (main tie_up write_fails args loaded)).
Proof.
  intros Hnames. split.
  - unfold main. eexists. split; reflexivity.
  - destruct (main_files_written tie_up write_fails args loaded)
      as [-> | [-> | (_ & done & rest & Hsplit & -> & _)]].
    + constructor.
    + constructor; [simpl; tauto | constructor].
    + constructor; [simpl; tauto |].
      apply report_files_dirs. rewrite Hsplit in Hnames.
      apply Forall_app in Hnames. tauto.
Qed.

Lemma list_ascii_app (a b : string) :
  list_ascii_of_string (a ++ b)
  = (list_ascii_of_string a ++ list_ascii_of_string b)%list.
Proof. induction a as [| c a IH]; [reflexivity |]. simpl. now rewrite IH. Qed.

Lemma starts_with_app (x y : list ascii) : starts_with x (x ++ y) = true.
Proof.
  induction x as [| c x IH]; [reflexivity |].
  simpl. now rewrite Ascii.eqb_refl, IH.
Qed.

Lemma ends_with_app (a suffix : string) : ends_with suffix (a ++ suffix) = true.
Proof.
  unfold ends_with. rewrite list_ascii_app, rev_app_distr.
  apply starts_with_app.
Qed.





(* ------------------------------------------------------------------ *)
(** ** Loader                                                          *)
(* ------------------------------------------------------------------ *)

(** X18.  The detector looks at the first line only: two files with the
    same first line, each ended by a line break, get the same separator.
    Its answer is one of the candidates, and the comma when there is no
    candidate; and when no default candidate occurs in the first line, as
    in an empty file, the answer is the comma. *)
Theorem detect_sep_first_line_only :
  (forall (line rest rest' : string) (nl nl' : ascii) (candidates : list string),
      (forall ch, In ch (list_ascii_of_string line) -> ~ is_break ch) ->
      is_break nl -> is_break nl' ->
      _detect_sep (line ++ String nl rest)%string candidates
      = _detect_sep (line ++ String nl' rest')%string candidates)
  /\ (forall (contents c : string) (cs : list string),
        In (_detect_sep contents (c :: cs)) (c :: cs))
  /\ (forall contents : string, _detect_sep contents [] = ",")
  /\ (forall contents line : string,
        is_first_line contents line ->
        (forall ch, In ch spec_candidates ->
                    ~ In ch (list_ascii_of_string line)) ->
        _detect_sep contents default_candidates = ",").
Proof.
  split; [| split; [| split]].
  - intros line rest rest' nl nl' candidates Hline Hnl Hnl'. unfold _detect_sep.
    now rewrite !(readline_break line _ _ Hline) by assumption.
  - intros contents c cs. unfold _detect_sep.
    destruct (detect_loop_spec (PyStr.readline contents) (c :: cs) "," (-1))
      as [[_ Hall] | (pre & post & Hsplit & _)].
    + exfalso. inversion Hall as [| x l Hx _]; subst. cbv beta in Hx. lia.
    + set (r := detect_loop (PyStr.readline contents) (c :: cs) "," (-1)) in *.
      clearbody r. rewrite Hsplit. apply in_elt.
  - reflexivity.
  - intros contents line Hfirst Hzero.
    destruct (detect_sep_default contents)
      as (pre & ch & post & Hcands & Hr & Hpre & _).
    destruct pre as [| c pre].
    + cbn [app] in Hcands. unfold spec_candidates in Hcands.
      injection Hcands as <- _. exact Hr.
    + exfalso. inversion Hpre as [| x l Hc _]; subst.
      assert (Hin : In ch spec_candidates)
        by (rewrite Hcands; apply in_elt).
      rewrite (occurrences_first_line contents line ch Hfirst Hin) in Hc.
      assert (H0 : spec_occurrences line ch = 0).
      { unfold spec_occurrences. apply count_occ_not_In. now apply Hzero. }
      lia.
Qed.

Section ReaderFacts.

Variable read_excel : string -> option sheet_sel -> option nat -> result excel_value.
Variable read_csv : string -> string -> result DataFrame.
Variable open_text : string -> result string.

(** What one attempt of the loop over the header rows can do. *)
Lemma try_headers_ok (path : string) (sheet : option sheet_sel)
    (headers : list nat) (v : excel_value) :
  try_headers read_excel path sheet headers = Ok v ->
  (exists pre h post df,
      headers = pre ++ h :: post
      /\ Forall (fun h' => exists df',
                     read_excel path sheet (Some h') = Ok (OneFrame df')
                     /\ df_columns df' = []) pre
      /\ read_excel path sheet (Some h) = Ok v
      /\ v = OneFrame df
      /\ df_columns df <> [])
  \/ (Forall (fun h' => exists df',
                  read_excel path sheet (Some h') = Ok (OneFrame df')
                  /\ df_columns df' = []) headers
      /\ read_excel path sheet None = Ok v).
Proof.
  induction headers as [| h rest IH]; cbn [try_headers]; intros H.
  - right. split; [constructor | exact H].
  - destruct (read_excel path sheet (Some h)) as [w | e] eqn:Hread; [| discriminate].
    destruct w as [df | sheets]; cbn [shape_1] in H; [| discriminate].
    unfold Frame.shape in H. cbn [snd] in H.
    destruct (df_columns df) as [| c cs] eqn:Hcols.
    + cbn [List.length Nat.ltb Nat.leb] in H.
      destruct (IH H) as [(pre & h' & post & df' & -> & Hpre & Hr & Hv & Hne)
                         | [Hall Hnone]].
      * left. exists (h :: pre), h', post, df'.
        repeat split; auto. constructor; [| exact Hpre]. now exists df.
      * right. split; [| exact Hnone]. constructor; [| exact Hall]. now exists df.
    + cbn [List.length Nat.ltb Nat.leb] in H. injection H as <-.
      left. exists [], h, rest, df. repeat split; auto.
      rewrite Hcols. discriminate.
Qed.

(** X19.  For a workbook the loader returns the parse with the first of
    the header rows 0, 1, 2 that gives a frame with a column, every
    earlier row having given a frame without column; the parse without
    header is returned only when all three rows gave no column.  The
    separator plays no part. *)
Theorem read_any_excel_first_header (path sep : string)
    (sheet : option sheet_sel) (v : excel_value) :
  is_excel path = true ->
  read_any read_excel read_csv open_text path sep sheet = Ok v ->
  let empty_parse (h : nat) :=
    exists df', read_excel path sheet (Some h) = Ok (OneFrame df')
                /\ df_columns df' = [] in
  (exists pre h post df,
      [0; 1; 2] = pre ++ h :: post
      /\ Forall empty_parse pre
      /\ read_excel path sheet (Some h) = Ok v
      /\ v = OneFrame df
      /\ df_columns df <> [])
  \/ (Forall empty_parse [0; 1; 2] /\ read_excel path sheet None = Ok v).
Proof.
  intros Hx H. unfold read_any in H. rewrite Hx in H.
  exact (try_headers_ok path sheet [0; 1; 2] v H).
Qed.

(** X20.  When the parser of workbooks answers the first header row with
    a dict of sheets, which is what it does without sheet selector, the
    loader raises [AttributeError] and returns no table; and an exception
    of the first parse is raised at once, no other header row being
    tried. *)
Theorem read_any_excel_first_parse_fails (path sep : string)
    (sheet : option sheet_sel) :
  is_excel path = true ->
  (forall sheets,
      read_excel path sheet (Some 0) = Ok (SheetDict sheets) ->
      read_any read_excel read_csv open_text path sep sheet = Raise AttributeError)
  /\ (forall e,
        read_excel path sheet (Some 0) = Raise e ->
        read_any read_excel read_csv open_text path sep sheet = Raise e).
Proof.
  intros Hx. unfold read_any. rewrite Hx. cbn [try_headers].
  split; intros x Hread; now rewrite Hread.
Qed.

End ReaderFacts.

(** X21.  For a file that is not a workbook the answer is a single frame
    and never a dict; with a separator other than "auto" the loader
    neither opens the file itself nor calls the parser of workbooks, and
    the sheet selector plays no part: the answer is that of the parser
    of delimited text with this separator. *)
Theorem read_any_delimited
    (read_excel read_excel' : string -> option sheet_sel -> option nat
                              -> result excel_value)
    (read_csv : string -> string -> result DataFrame)
    (open_text open_text' : string -> result string)
    (path sep : string) (sheet sheet' : option sheet_sel) :
  is_excel path = false ->
  (forall sheets,
      read_any read_excel read_csv open_text path sep sheet <> Ok (SheetDict sheets))
  /\ (sep <> "auto" ->
      read_any read_excel read_csv open_text path sep sheet
      = read_any read_excel' read_csv open_text' path sep sheet'
      /\ read_any read_excel read_csv open_text path sep sheet
         = match read_csv path sep with
           | Ok df => Ok (OneFrame df)
           | Raise e => Raise e
           end)
  /\ (forall e, open_text path = Raise e ->
                read_any read_excel read_csv open_text path "auto" sheet = Raise e).
Proof.
  intros Hx. unfold read_any. rewrite Hx. split; [| split].
  - intros sheets.
    destruct (String.eqb sep "auto"); [destruct (open_text path) |];
      try discriminate;
      match goal with
      | |- context [read_csv ?p ?s] => destruct (read_csv p s)
      end; discriminate.
  - intros Hsep. destruct (String.eqb_spec sep "auto") as [E | _]; [contradiction |].
    split; reflexivity.
  - intros e Hopen. cbn [String.eqb Ascii.eqb Bool.eqb]. now rewrite Hopen.
Qed.

Lemma lower_char_eqb (c : ascii) :
  Ascii.eqb (PyPath.lower_char c) "/"%char = Ascii.eqb c "/"%char
  /\ Ascii.eqb (PyPath.lower_char c) "."%char = Ascii.eqb c "."%char
  /\ PyPath.lower_char (PyPath.lower_char c) = PyPath.lower_char c.
Proof.
  destruct c as [[] [] [] [] [] [] [] []]; repeat split; reflexivity.
Qed.

Lemma lower_app (a b : string) :
  PyPath.lower (a ++ b) = (PyPath.lower a ++ PyPath.lower b)%string.
Proof. induction a as [| c a IH]; [reflexivity |]. simpl. now rewrite IH. Qed.

Lemma lower_lower (s : string) : PyPath.lower (PyPath.lower s) = PyPath.lower s.
Proof.
  induction s as [| c s IH]; [reflexivity |]. simpl.
  rewrite IH. now rewrite (proj2 (proj2 (lower_char_eqb c))).
Qed.

Lemma list_ascii_lower (s : string) :
  list_ascii_of_string (PyPath.lower s)
  = map PyPath.lower_char (list_ascii_of_string s).
Proof. induction s as [| c s IH]; [reflexivity |]. simpl. now rewrite IH. Qed.

Lemma has_name_lower (r : list ascii) :
  PyPath.has_name (map PyPath.lower_char r) = PyPath.has_name r.
Proof.
  induction r as [| c r IH]; [reflexivity |]. simpl.
  destruct (lower_char_eqb c) as (Hs & Hd & _). rewrite Hs, Hd, IH. reflexivity.
Qed.

Lemma named_lower (stem : string) : named (PyPath.lower stem) = named stem.
Proof.
  unfold named. now rewrite list_ascii_lower, <- map_rev, has_name_lower.
Qed.

Lemma lacks_lower (c : ascii) (s : string) :
  Ascii.eqb (PyPath.lower_char c) c = true ->
  (forall d, Ascii.eqb (PyPath.lower_char d) c = Ascii.eqb d c) ->
  lacks c (PyPath.lower s) = lacks c s.
Proof.
  intros _ Hc. induction s as [| d s IH]; [reflexivity |].
  simpl. now rewrite Hc, IH.
Qed.

Lemma lacks_In (c : ascii) (s : string) :
  lacks c s = true ->
  forall d, In d (list_ascii_of_string s) -> Ascii.eqb d c = false.
Proof.
  induction s as [| a s IH]; simpl; [tauto |].
  intros H d [<- | Hd]; apply andb_prop in H; destruct H as [Ha Hs].
  - now apply negb_true_iff in Ha.
  - now apply IH.
Qed.

(** The search finds the dot that follows characters other than dots and
    slashes. *)
Lemma scan_ext_found (x : list ascii) :
  (forall d, In d x -> Ascii.eqb d "/"%char = false
                       /\ Ascii.eqb d "."%char = false) ->
  forall r acc,
    PyPath.scan_ext (x ++ "."%char :: r) acc
    = if PyPath.has_name r then "."%char :: rev x ++ acc else [].
Proof.
  induction x as [| c x IH]; intros Hx r acc.
  - reflexivity.
  - destruct (Hx c (or_introl eq_refl)) as [Hs Hd].
    cbn [app PyPath.scan_ext]. rewrite Hs, Hd.
    rewrite IH by (intros d Hin; apply Hx; now right).
    destruct (PyPath.has_name r); [| reflexivity].
    cbn [rev]. now rewrite <- app_assoc.
Qed.

Lemma splitext_ext_found (stem e : string) :
  lacks "."%char e = true ->
  lacks "/"%char e = true ->
  PyPath.splitext_ext (stem ++ "." ++ e)%string
  = if named stem then ("." ++ e)%string else EmptyString.
Proof.
  intros Hdot Hslash. unfold PyPath.splitext_ext, named.
  rewrite !list_ascii_app. cbn [list_ascii_of_string app].
  rewrite rev_app_distr. cbn [rev]. rewrite <- app_assoc. cbn [app].
  rewrite scan_ext_found.
  - destruct (PyPath.has_name (rev (list_ascii_of_string stem))); [| reflexivity].
    rewrite rev_involutive, app_nil_r. cbn [string_of_list_ascii].
    now rewrite string_of_list_ascii_of_string.
  - intros d Hd. apply in_rev in Hd. split.
    + exact (lacks_In _ _ Hslash d Hd).
    + exact (lacks_In _ _ Hdot d Hd).
Qed.

(** X22.  Whether a path is read as a workbook depends on its letters
    only up to case.  A path that ends in a dot and an extension is read
    as a workbook exactly when the extension is [xlsx] or [xls] in any
    letter case and the file name before the dot has a character that is
    not a dot: a file named [.xlsx], and the extensions [xlsm] or [ods],
    go to the parser of delimited text. *)
Theorem excel_by_extension :
  (forall path, is_excel (PyPath.lower path) = is_excel path)
  /\ (forall stem e : string,
        lacks "."%char e = true ->
        lacks "/"%char e = true ->
        (is_excel (stem ++ "." ++ e)%string = true
         <-> named stem = true
             /\ (PyPath.lower e = "xlsx" \/ PyPath.lower e = "xls"))).
Proof.
  split.
  - intros path. unfold is_excel. now rewrite lower_lower.
  - intros stem e Hdot Hslash. unfold is_excel.
    rewrite !lower_app. change (PyPath.lower ".") with ".".
    rewrite splitext_ext_found.
    + rewrite named_lower. destruct (named stem).
      * destruct (in_dec string_dec ("." ++ PyPath.lower e)%string
                         [".xlsx"; ".xls"])
          as [Hin | Hout]; split; try reflexivity.
        -- intros _. split; [reflexivity |].
           destruct Hin as [H | [H | []]]; injection H as H; auto.
        -- discriminate.
        -- intros [_ [H | H]]; exfalso; apply Hout; rewrite H; simpl; auto.
      * destruct (in_dec string_dec EmptyString [".xlsx"; ".xls"])
          as [[H | [H | []]] | _]; try discriminate.
        split; [discriminate | intros [H _]; discriminate].
    + rewrite lacks_lower; [exact Hdot | reflexivity |].
      intros d. apply lower_char_eqb.
    + rewrite lacks_lower; [exact Hslash | reflexivity |].
      intros d. apply lower_char_eqb.
Qed.

(* ------------------------------------------------------------------ *)
(** ** Logger                                                          *)
(* ------------------------------------------------------------------ *)

Lemma get_logger_configured (n : nat) :
  Nat.iter (S n) get_logger fresh_logger = get_logger fresh_logger.
Proof.
  induction n as [| n IH]; [reflexivity |].
  change (Nat.iter (S (S n)) get_logger fresh_logger)
    with (get_logger (Nat.iter (S n) get_logger fresh_logger)).
  now rewrite IH.
Qed.

(** X23.  Calling [get_logger] again changes nothing, and a logger that
    already has a handler is left as it is.  After any number of calls
    on the fresh logger every message is written once, as
    [[LEVEL] message]; before the first call an INFO message is
    dropped. *)
Theorem get_logger_once :
  (forall logger, get_logger (get_logger logger) = get_logger logger)
  /\ (forall logger, lg_handlers logger <> [] -> get_logger logger = logger)
  /\ (forall (n : nat) (lv : level) (msg : string),
        emit (Nat.iter (S n) get_logger fresh_logger) lv msg
        = [("[" ++ level_name lv ++ "] " ++ msg)%string])
  /\ (forall msg, emit fresh_logger INFO msg = []).
Proof.
  split; [| split; [| split]].
  - intros [lv [| h hs]]; reflexivity.
  - intros [lv [| h hs]] H; [contradiction | reflexivity].
  - intros n lv msg. rewrite get_logger_configured. now destruct lv.
  - reflexivity.
Qed.

(* ------------------------------------------------------------------ *)
(** ** The further statements at sample tables                         *)
(* ------------------------------------------------------------------ *)

Lemma well_formed_scenario : well_formed scenario.
Proof. repeat constructor. Qed.

Lemma well_formed_mixed_frame : well_formed mixed_frame.
Proof. repeat constructor. Qed.

Lemma dictionary_counts_witness :
  well_formed scenario
  /\ map dd_column (data_dictionary PyNum.half_even scenario) = ["id"; "age"; "city"].
Proof.
  split; [exact well_formed_scenario |].
  exact (proj1 (dictionary_counts PyNum.half_even scenario well_formed_scenario)).
Defined.

Lemma overview_agrees_with_dictionary_witness :
  well_formed scenario
  /\ ov_missing_cells (data_overview scenario)
     + list_sum (map dd_non_null (data_dictionary PyNum.half_even scenario))
     = ov_rows (data_overview scenario) * ov_cols (data_overview scenario).
Proof.
  split; [exact well_formed_scenario |].
  destruct (overview_agrees_with_dictionary PyNum.half_even scenario
              well_formed_scenario) as (_ & _ & _ & H).
  exact H.
Defined.

Lemma constant_never_identifier_witness :
  well_formed all_unnamed
  /\ Frame.len all_unnamed <= 1
  /\ suspected_id_like
       (quality_flags all_unnamed (data_dictionary PyNum.half_even all_unnamed))
     = [].
Proof.
  assert (Hwf : well_formed all_unnamed) by (repeat constructor).
  assert (Hn : Frame.len all_unnamed <= 1) by (vm_compute; lia).
  split; [exact Hwf |]. split; [exact Hn |].
  destruct (constant_never_identifier PyNum.half_even all_unnamed Hwf)
    as (_ & _ & Hone).
  exact (proj2 (Hone Hn)).
Defined.

Lemma duplicate_rows_bounds_witness :
  df_columns scenario <> []
  /\ 0 < qf_rows (quality_flags scenario [])
  /\ duplicate_rows (quality_flags scenario [])
     < qf_rows (quality_flags scenario []).
Proof.
  assert (H : df_columns scenario <> []) by discriminate.
  assert (Hpos : 0 < qf_rows (quality_flags scenario [])) by (vm_compute; lia).
  split; [exact H |]. split; [exact Hpos |].
  exact (proj1 (proj2 (duplicate_rows_bounds scenario [] H)) Hpos).
Defined.

Lemma missing_extremes_witness :
  let c := mkColumn "c" Float64 (repeat None 20) in
  well_formed twenty_rows
  /\ In c (df_columns twenty_rows)
  /\ 0 < Frame.len twenty_rows
  /\ Forall (fun x : cell => x = None) (col_values c)
  /\ (dd_missing_pct (dict_row PyNum.half_even (Frame.len twenty_rows) c) == 100)%Q.
Proof.
  cbv zeta.
  assert (Hwf : well_formed twenty_rows) by (repeat constructor).
  assert (Hc : In (mkColumn "c" Float64 (repeat None 20)) (df_columns twenty_rows))
    by (right; right; now left).
  assert (Hn : 0 < Frame.len twenty_rows) by (vm_compute; lia).
  assert (Hall : Forall (fun x : cell => x = None)
                        (col_values (mkColumn "c" Float64 (repeat None 20))))
    by (repeat constructor).
  repeat (split; [assumption |]).
  exact (proj1 (proj1 (missing_extremes PyNum.half_even twenty_rows _ Hwf Hc Hn)
                  Hall)).
Defined.

Lemma distinct_column_is_identifier_witness :
  let n := mkColumn "n" Int64 (ints [3; 1; 2]%Z) in
  well_formed mixed_frame
  /\ In n (df_columns mixed_frame)
  /\ 2 <= Frame.len mixed_frame
  /\ Forall (fun x : cell => x <> None) (col_values n)
  /\ NoDup (col_values n)
  /\ In "n" (suspected_id_like
               (quality_flags mixed_frame
                  (data_dictionary PyNum.half_even mixed_frame))).
Proof.
  cbv zeta.
  assert (Hc : In (mkColumn "n" Int64 (ints [3; 1; 2]%Z)) (df_columns mixed_frame))
    by (now left).
  assert (Hn : 2 <= Frame.len mixed_frame) by (vm_compute; lia).
  assert (Hp : Forall (fun x : cell => x <> None)
                      (col_values (mkColumn "n" Int64 (ints [3; 1; 2]%Z))))
    by (repeat constructor; discriminate).
  assert (Hd : NoDup (col_values (mkColumn "n" Int64 (ints [3; 1; 2]%Z))))
    by (repeat constructor; simpl; intuition discriminate).
  split; [exact well_formed_mixed_frame |].
  repeat (split; [assumption |]).
  exact (proj2 (distinct_column_is_identifier PyNum.half_even mixed_frame _
                  well_formed_mixed_frame Hc Hn Hp Hd)).
Defined.

Lemma grid_size_nearly_square_witness :
  (7 < 2 ^ 52)%Z
  /\ (0 < 7)%Z
  /\ (let '(rows, cols) := _grid_size 7 in rows * cols - 7 < cols)%Z.
Proof.
  assert (Hk : (7 < 2 ^ 52)%Z) by reflexivity.
  assert (H : (0 < 7)%Z) by lia.
  split; [exact Hk |]. split; [exact H |].
  pose proof (grid_size_nearly_square 7 Hk) as G.
  destruct (_grid_size 7) as [r c].
  destruct G as (_ & _ & _ & _ & Hrow). exact (Hrow H).
Defined.

Lemma panels_fit_grid_witness :
  Frame.columns (Frame.select_number mixed_frame) <> []
  /\ (0 <= 12)%Z
  /\ List.length (slice_to 12 (Frame.columns (Frame.select_number mixed_frame)))
     = Nat.min (Z.to_nat 12)
               (List.length (Frame.columns (Frame.select_number mixed_frame))).
Proof.
  assert (H1 : Frame.columns (Frame.select_number mixed_frame) <> [])
    by discriminate.
  assert (H2 : (0 <= 12)%Z) by lia.
  split; [exact H1 |]. split; [exact H2 |].
  destruct (panels_fit_grid mixed_frame "reports/figures" 12)
    as (_ & _ & _ & Hlen).
  exact (Hlen H2).
Defined.

Lemma normalized_keeps_cells_witness :
  well_formed mixed_frame /\ well_formed (normalized mixed_frame).
Proof.
  split; [exact well_formed_mixed_frame |].
  exact (proj1 (normalized_keeps_cells mixed_frame well_formed_mixed_frame)).
Defined.

Lemma head_first_rows_witness :
  index_len scenario <= 100
  /\ well_formed scenario
  /\ Frame.head 100 scenario = scenario.
Proof.
  assert (H : index_len scenario <= 100) by (vm_compute; lia).
  split; [exact H |]. split; [exact well_formed_scenario |].
  destruct (head_first_rows 100 scenario) as (_ & _ & _ & Hall & _).
  exact (Hall H well_formed_scenario).
Defined.

Lemma writes_into_made_directories_witness :
  Forall (fun name => PyStr.has_slash name = false)
         (Frame.columns (Frame.exclude_number (normalized mixed_frame)))
  /\ Forall (fun p => In (PyStr.dirname p) output_dirs)
            (files_written (main PyNum.half_even never_fails default_args
                                 mixed_frame)).
Proof.
  assert (H : Forall (fun name => PyStr.has_slash name = false)
                     (Frame.columns (Frame.exclude_number (normalized mixed_frame))))
    by (repeat constructor).
  split; [exact H |].
  exact (proj2 (writes_into_made_directories PyNum.half_even never_fails
                  default_args mixed_frame H)).
Defined.

Lemma string_labels_cleaning_witness :
  df_columns with_index_column <> []
  /\ forallb col_is_str (df_columns with_index_column) = true
  /\ forallb is_unnamed (Frame.columns with_index_column) = false
  /\ Forall (fun c => is_unnamed (col_name c) = false)
            (df_columns (fst (clean_unnamed with_index_column)))
  /\ df_columns all_unnamed <> []
  /\ forallb col_is_str (df_columns all_unnamed) = true
  /\ forallb is_unnamed (Frame.columns all_unnamed) = true
  /\ clean_unnamed all_unnamed = (all_unnamed, [Log WARNING MsgAllUnnamed]).
Proof.
  assert (H1 : df_columns with_index_column <> []) by discriminate.
  assert (H2 : forallb col_is_str (df_columns with_index_column) = true)
    by reflexivity.
  assert (H3 : forallb is_unnamed (Frame.columns with_index_column) = false)
    by reflexivity.
  assert (H4 : df_columns all_unnamed <> []) by discriminate.
  assert (H5 : forallb col_is_str (df_columns all_unnamed) = true) by reflexivity.
  assert (H6 : forallb is_unnamed (Frame.columns all_unnamed) = true)
    by reflexivity.
  split; [exact H1 |]. split; [exact H2 |]. split; [exact H3 |]. split.
  - destruct (string_labels_cleaning PyNum.half_even never_fails default_args
                with_index_column H1 H2) as (_ & _ & Hsome & _).
    destruct (Hsome H3) as (_ & _ & _ & _ & Hkept & _). exact Hkept.
  - split; [exact H4 |]. split; [exact H5 |]. split; [exact H6 |].
    destruct (string_labels_cleaning PyNum.half_even never_fails default_args
                all_unnamed H4 H5) as (_ & Hall & _).
    exact (proj1 (Hall H6)).
Defined.


Lemma detect_sep_first_line_only_witness :
  (forall ch, In ch (list_ascii_of_string "id;age;city") -> ~ is_break ch)
  /\ is_break "010"%char
  /\ is_break "013"%char
  /\ _detect_sep ("id;age;city" ++ String "010"%char "1;30;Cali")%string
       default_candidates
     = _detect_sep ("id;age;city" ++ String "013"%char "")%string
         default_candidates.
Proof.
  assert (H : forall ch, In ch (list_ascii_of_string "id;age;city") -> ~ is_break ch).
  { intros ch Hch [-> | ->]; simpl in Hch; intuition discriminate. }
  assert (H1 : is_break "010"%char) by (now left).
  assert (H2 : is_break "013"%char) by (now right).
  split; [exact H |]. split; [exact H1 |]. split; [exact H2 |].
  exact (proj1 detect_sep_first_line_only "id;age;city" "1;30;Cali" ""
           "010"%char "013"%char default_candidates H H1 H2).
Defined.

Lemma read_any_excel_first_header_witness :
  is_excel "data/raw/Libro.XLSX" = true
  /\ read_any sample_read_excel sample_read_csv sample_open_text
       "data/raw/Libro.XLSX" "auto" (Some (SheetIndex 0))
     = Ok (OneFrame scenario)
  /\ sample_read_excel "data/raw/Libro.XLSX" (Some (SheetIndex 0)) (Some 1)
     = Ok (OneFrame scenario).
Proof.
  assert (H1 : is_excel "data/raw/Libro.XLSX" = true) by reflexivity.
  assert (H2 : read_any sample_read_excel sample_read_csv sample_open_text
                 "data/raw/Libro.XLSX" "auto" (Some (SheetIndex 0))
               = Ok (OneFrame scenario)) by reflexivity.
  split; [exact H1 |]. split; [exact H2 |].
  destruct (read_any_excel_first_header sample_read_excel sample_read_csv
              sample_open_text _ _ _ _ H1 H2)
    as [(pre & h & post & df & Hsplit & Hpre & Hread & _) | [Hall _]].
  - destruct pre as [| a [| b [| c pre]]]; cbn [app] in Hsplit.
    + injection Hsplit as <- _. discriminate Hread.
    + injection Hsplit as _ <- _. exact Hread.
    + injection Hsplit as _ _ <- _. reflexivity.
    + injection Hsplit as _ _ _ Hnil. destruct pre; discriminate Hnil.
  - inversion Hall as [| x l _ Hrest]; subst.
    inversion Hrest as [| y m (df' & Hr & Hc) _]; subst.
    injection Hr as <-. discriminate Hc.
Defined.

Lemma read_any_excel_first_parse_fails_witness :
  is_excel "data/raw/Libro.XLSX" = true
  /\ sample_read_excel "data/raw/Libro.XLSX" None (Some 0)
     = Ok (SheetDict [("Hoja1", scenario)])
  /\ read_any sample_read_excel sample_read_csv sample_open_text
       "data/raw/Libro.XLSX" "auto" None
     = Raise AttributeError.
Proof.
  assert (H1 : is_excel "data/raw/Libro.XLSX" = true) by reflexivity.
  assert (H2 : sample_read_excel "data/raw/Libro.XLSX" None (Some 0)
               = Ok (SheetDict [("Hoja1", scenario)])) by reflexivity.
  split; [exact H1 |]. split; [exact H2 |].
  exact (proj1 (read_any_excel_first_parse_fails sample_read_excel sample_read_csv
                  sample_open_text "data/raw/Libro.XLSX" "auto" None H1) _ H2).
Defined.

Lemma read_any_delimited_witness :
  is_excel "data/raw/base.csv" = false
  /\ ";" <> "auto"
  /\ read_any sample_read_excel sample_read_csv sample_open_text
       "data/raw/base.csv" ";" None
     = Ok (OneFrame scenario).
Proof.
  assert (H1 : is_excel "data/raw/base.csv" = false) by reflexivity.
  assert (H2 : ";" <> "auto") by discriminate.
  split; [exact H1 |]. split; [exact H2 |].
  destruct (read_any_delimited sample_read_excel sample_read_excel sample_read_csv
              sample_open_text sample_open_text "data/raw/base.csv" ";" None None H1)
    as (_ & Hsep & _).
  exact (proj2 (Hsep H2)).
Defined.

Lemma excel_by_extension_witness :
  lacks "."%char "XLSX" = true
  /\ lacks "/"%char "XLSX" = true
  /\ named "data/raw/Libro" = true
  /\ is_excel ("data/raw/Libro" ++ "." ++ "XLSX")%string = true.
Proof.
  split; [reflexivity |]. split; [reflexivity |]. split; [reflexivity |].
  apply (proj2 excel_by_extension "data/raw/Libro" "XLSX" eq_refl eq_refl).
  split; [reflexivity | now left].
Defined.

Lemma get_logger_once_witness :
  lg_handlers (get_logger fresh_logger) <> []
  /\ get_logger (get_logger fresh_logger) = get_logger fresh_logger.
Proof.
  assert (H : lg_handlers (get_logger fresh_logger) <> []) by discriminate.
  split; [exact H |].
  destruct get_logger_once as (_ & Hkeep & _).
  exact (Hkeep (get_logger fresh_logger) H).
Defined.
